(** * GitHubRepoMiner: a shallow embedding of [github_tmol_finder.py]

    The crawler is sequential Python glued to four HTTP endpoints.  The
    embedding keeps the control flow of every method of [GitHubRepoMiner]
    and makes the environment explicit:

    - the provider is a script of replies consumed one per [requests.get]
      (a run is finite, so any provider is one such script);
    - the wall clock is an integer number of seconds, advanced by
      [time.sleep];
    - everything the program prints, requests, sleeps or writes is emitted
      as an event, in program order;
    - what the operating system answers when a directory is created, a
      file written or a timestamp turned into a date is a parameter
      ([Env.system]);
    - a Python exception is an outcome of its own, and it ends the run: the
      only handler of the class is the [try] of
      [check_file_content_for_text]. *)

From Stdlib Require Import ZArith List String Ascii Bool Lia DecimalString.
Import ListNotations.
Local Open Scope string_scope.
Local Open Scope list_scope.
Local Open Scope Z_scope.

(** ** Python values and built-ins *)

Module Py.

(** [str(n)] of an [int]. *)
Definition str_of_int (n : Z) : string := NilZero.string_of_int (Z.to_int n).

(** [list(range(a, b))]. *)
Definition range (a b : Z) : list Z :=
  map (fun k => a + Z.of_nat k) (seq 0 (Z.to_nat (b - a))).

(** [len(l)]. *)
Definition len {A} (l : list A) : Z := Z.of_nat (List.length l).

(** [l[i]] with Python's negative indices.  [d] stands for the
    [IndexError] case; [create_segmented_queries] never reaches it
    (lemma [years_index]). *)
Definition getitem (l : list Z) (i : Z) (d : Z) : Z :=
  let j := if i <? 0 then i + len l else i in
  if (0 <=? j) && (j <? len l) then nth (Z.to_nat j) l d else d.

(** [needle in haystack] on [str].  A [str] is kept as its UTF-8 bytes;
    on well-formed UTF-8 the byte-wise test is the code-point-wise one. *)
Fixpoint contains (haystack needle : string) : bool :=
  prefix needle haystack
  || match haystack with
     | EmptyString => false
     | String _ rest => contains rest needle
     end.

(** [s.startswith(p)], [s[1:]] and [s.replace(a, b)] for one-character
    [a] and [b]. *)
Definition startswith (s p : string) : bool := prefix p s.

Definition tail (s : string) : string :=
  match s with EmptyString => EmptyString | String _ rest => rest end.

Fixpoint replace (s : string) (a b : ascii) : string :=
  match s with
  | EmptyString => EmptyString
  | String c rest => String (if Ascii.eqb c a then b else c) (replace rest a b)
  end.

(** What [json.loads] builds.  Numbers are integers: the provider sends
    no fractional number in the fields the miner reads.  A [JDict] lists
    the items of a [dict], whose keys are distinct. *)
#[local] Set Warnings "-register-all".
Inductive json :=
| JNone
| JBool (b : bool)
| JInt (n : Z)
| JStr (s : string)
| JList (l : list json)
| JDict (items : list (string * json)).

(** The exceptions the miner can meet. *)
Inductive exn :=
| KeyError | TypeError | ValueError | AttributeError
| JSONDecodeError      (* [response.json()] on a body that is not JSON *)
| ConnectionError      (* [requests.get] got no response *)
| OverflowError        (* [time.sleep], [datetime.fromtimestamp]: out of range *)
| OSError              (* the operating system refused a call *)
| FileNotFoundError    (* [open]: a directory of the path is missing *)
| BinasciiError        (* [base64.b64decode] *)
| UnicodeDecodeError.  (* [bytes.decode] *)

(** A value or a raised exception. *)
Inductive res (A : Type) :=
| Val (a : A)
| Exc (e : exn).
Arguments Val {A} a.
Arguments Exc {A} e.

Fixpoint lookup (items : list (string * json)) (k : string) : option json :=
  match items with
  | [] => None
  | (k', v) :: rest => if String.eqb k' k then Some v else lookup rest k
  end.

(** [d[k]] for a [str] key. *)
Definition subscript (d : json) (k : string) : res json :=
  match d with
  | JDict items =>
      match lookup items k with Some v => Val v | None => Exc KeyError end
  | _ => Exc TypeError
  end.

(** [d.get(k, default)]. *)
Definition dict_get (d : json) (k : string) (default : json) : res json :=
  match d with
  | JDict items =>
      match lookup items k with Some v => Val v | None => Val default end
  | _ => Exc AttributeError
  end.

(** A value used as a number: [bool] is an [int]. *)
Definition as_int (v : json) : res Z :=
  match v with
  | JInt n => Val n
  | JBool b => Val (if b then 1 else 0)
  | _ => Exc TypeError
  end.

(** [v < n] and [v - n] for an [int] [n]. *)
Definition lt_int (v : json) (n : Z) : res bool :=
  match as_int v with Val x => Val (x <? n) | Exc e => Exc e end.

Definition sub_int (v : json) (n : Z) : res Z :=
  match as_int v with Val x => Val (x - n) | Exc e => Exc e end.

(** [bool(v)]. *)
Definition truthy (v : json) : bool :=
  match v with
  | JNone => false
  | JBool b => b
  | JInt n => negb (n =? 0)
  | JStr s => negb (String.eqb s EmptyString)
  | JList l => match l with [] => false | _ => true end
  | JDict items => match items with [] => false | _ => true end
  end.

(** [k in v] for a [str] [k]: key of a [dict], substring of a [str],
    element of a [list]. *)
Definition str_in (k : string) (v : json) : res bool :=
  match v with
  | JDict items => Val (match lookup items k with Some _ => true | None => false end)
  | JStr s => Val (contains s k)
  | JList l =>
      Val (existsb (fun x => match x with JStr s => String.eqb s k | _ => false end) l)
  | _ => Exc TypeError
  end.

(** The elements [for x in v] visits: those of a [list], the keys of a
    [dict], the characters of a [str]. *)
Definition iterate (v : json) : res (list json) :=
  match v with
  | JList l => Val l
  | JDict items => Val (map (fun kv => JStr (fst kv)) items)
  | JStr s => Val (map (fun c => JStr (String c EmptyString)) (list_ascii_of_string s))
  | _ => Exc TypeError
  end.

(** [len(v)]. *)
Definition len_json (v : json) : res Z :=
  match v with
  | JList l => Val (len l)
  | JDict items => Val (len items)
  | JStr s => Val (Z.of_nat (String.length s))
  | _ => Exc TypeError
  end.

(** Keys of a [dict]: [list] and [dict] are not hashable. *)
Definition hashable (k : json) : bool :=
  match k with JList _ | JDict _ => false | _ => true end.

(** [a == b] on hashable values: numbers by value, [True == 1]. *)
Definition key_eqb (a b : json) : bool :=
  match a, b with
  | JNone, JNone => true
  | JStr s, JStr t => String.eqb s t
  | (JInt _ | JBool _), (JInt _ | JBool _) =>
      match as_int a, as_int b with
      | Val x, Val y => x =? y
      | _, _ => false
      end
  | _, _ => false
  end.

(** *** [base64.b64decode] and [bytes.decode("utf-8")]

    [b64decode(s)] encodes a [str] argument as ASCII and hands it to
    [binascii.a2b_base64] in its lenient mode: characters outside the
    alphabet are skipped, decoding stops at a completed pad sequence, and
    an unfinished quad is an error. *)

Definition b64_value (c : N) : option N :=
  (if (65 <=? c) && (c <=? 90) then Some (c - 65)
   else if (97 <=? c) && (c <=? 122) then Some (c - 97 + 26)
   else if (48 <=? c) && (c <=? 57) then Some (c - 48 + 52)
   else if c =? 43 then Some 62
   else if c =? 47 then Some 63
   else None)%N.

Fixpoint a2b_base64 (data : list N) (quad_pos leftchar pads : N)
    (out : list N) : res (list N) :=
  match data with
  | [] => if quad_pos =? 0 then Val (rev out) else Exc BinasciiError
  | c :: rest =>
      if c =? 61 then
        if (2 <=? quad_pos) && (4 <=? quad_pos + (pads + 1)) then Val (rev out)
        else a2b_base64 rest quad_pos leftchar
               (if 2 <=? quad_pos then pads + 1 else pads) out
      else
        match b64_value c with
        | None => a2b_base64 rest quad_pos leftchar pads out
        | Some v =>
            if quad_pos =? 0 then a2b_base64 rest 1 v 0 out
            else if quad_pos =? 1 then
              a2b_base64 rest 2 (N.land v 15) 0
                (N.lor (N.shiftl leftchar 2) (N.shiftr v 4) :: out)
            else if quad_pos =? 2 then
              a2b_base64 rest 3 (N.land v 3) 0
                (N.lor (N.shiftl leftchar 4) (N.shiftr v 2) :: out)
            else
              a2b_base64 rest 0 0 0 (N.lor (N.shiftl leftchar 6) v :: out)
        end
  end%N.

Definition bytes_of_string (s : string) : list N :=
  map N_of_ascii (list_ascii_of_string s).

Definition string_of_bytes (l : list N) : string :=
  string_of_list_ascii (map ascii_of_N l).

Definition is_ascii (s : string) : bool :=
  forallb (fun c => (c <? 128)%N) (bytes_of_string s).

(** [base64.b64decode(v)]. *)
Definition b64decode (v : json) : res (list N) :=
  match v with
  | JStr s =>
      if is_ascii s then a2b_base64 (bytes_of_string s) 0 0 0 []
      else Exc ValueError
  | _ => Exc TypeError
  end.

Definition between (lo hi c : N) : bool := ((lo <=? c) && (c <=? hi))%N.

(** Well-formed UTF-8: shortest forms only, no surrogate, at most
    U+10FFFF. *)
Fixpoint utf8_valid (l : list N) : bool :=
  match l with
  | [] => true
  | c :: rest =>
      if (c <? 128)%N then utf8_valid rest
      else if between 194 223 c then
        match rest with
        | c1 :: rest1 => between 128 191 c1 && utf8_valid rest1
        | _ => false
        end
      else if between 224 239 c then
        match rest with
        | c1 :: c2 :: rest2 =>
            between (if (c =? 224)%N then 160 else 128)
                    (if (c =? 237)%N then 159 else 191) c1
            && between 128 191 c2 && utf8_valid rest2
        | _ => false
        end
      else if between 240 244 c then
        match rest with
        | c1 :: c2 :: c3 :: rest3 =>
            between (if (c =? 240)%N then 144 else 128)
                    (if (c =? 244)%N then 143 else 191) c1
            && between 128 191 c2 && between 128 191 c3 && utf8_valid rest3
        | _ => false
        end
      else false
  end.

(** [b.decode("utf-8")]: the text, kept as its bytes. *)
Definition decode_utf8 (b : list N) : res string :=
  if utf8_valid b then Val (string_of_bytes b) else Exc UnicodeDecodeError.

(** [str.lower] on ASCII text. *)
Definition ascii_lower (s : string) : string :=
  string_of_bytes
    (map (fun c => if between 65 90 c then (c + 32)%N else c) (bytes_of_string s)).

End Py.

(** ** The Query Segmenter: [create_segmented_queries] *)

Module Segmenter.

Definition base_query : string := "language:python".

Definition star_ranges : list string :=
  [ "stars:0..10"; "stars:11..50"; "stars:51..100"; "stars:101..500";
    "stars:501..1000"; "stars:1001..5000"; "stars:5001..10000";
    "stars:>10000" ].

Definition size_ranges : list string :=
  [ "size:<1000"; "size:1000..5000"; "size:>5000" ].

(** [years = list(range(current_year - 10, current_year + 1))]. *)
Definition years (current_year : Z) : list Z :=
  Py.range (current_year - 10) (current_year + 1).

(** [f"created:{y0}-01-01..{y1}-01-01"]. *)
Definition created_range (y0 y1 : Z) : string :=
  ("created:" ++ Py.str_of_int y0 ++ "-01-01.." ++ Py.str_of_int y1 ++ "-01-01")%string.

(** The body of [for star_range in star_ranges], on the list built so far. *)
Definition star_range_body (ys : list Z) (queries : list string)
    (star_range : string) : list string :=
  let queries := queries ++ [(base_query ++ " " ++ star_range)%string] in
  fold_left
    (fun queries i =>
       queries ++
       [(base_query ++ " " ++ star_range ++ " " ++
         created_range (Py.getitem ys i 0) (Py.getitem ys (i + 1) 0))%string])
    (Py.range 0 (Py.len ys - 1)) queries.

(** [datetime.now().year] is the argument. *)
Definition create_segmented_queries (current_year : Z) : list string :=
  let queries := [] in
  let ys := years current_year in
  let queries := fold_left (star_range_body ys) star_ranges queries in
  let queries :=
    queries ++
    [(base_query ++ " created:>" ++ Py.str_of_int (Py.getitem ys (-2) 0)
      ++ "-01-01")%string] in
  fold_left
    (fun queries size_range => queries ++ [(base_query ++ " " ++ size_range)%string])
    size_ranges queries.

(** *** What a creation-date filter selects

    The provider's query grammar is not part of the repository.  Its
    documented reading of [created:A..B] is the closed interval: both end
    days are selected, as for the numeric [stars:0..10], [stars:11..50]
    that the code spaces one apart. *)

Record date := Date { year : Z; month : Z; day : Z }.

Definition date_leb (a b : date) : bool :=
  (year a <? year b)
  || ((year a =? year b)
      && ((month a <? month b)
          || ((month a =? month b) && (day a <=? day b)))).

(** The filter [created_range y0 y1] selects creation date [d]. *)
Definition created_range_selects (y0 y1 : Z) (d : date) : bool :=
  date_leb (Date y0 1 1) d && date_leb d (Date y1 1 1).

(** The year pairs of the ten filters, as the inner loop reads them. *)
Definition created_year_pairs (current_year : Z) : list (Z * Z) :=
  let ys := years current_year in
  map (fun i => (Py.getitem ys i 0, Py.getitem ys (i + 1) 0))
      (Py.range 0 (Py.len ys - 1)).

End Segmenter.

(** ** The environment: provider, clock, output *)

Module Env.
Import Py.

(** What the miner reads of a [requests.Response]: [text] is
    [response.text], [body] is what [response.json()] returns, [None] when
    the text is not JSON and the call raises. *)
Record response := Response {
  status_code : Z;
  headers : list (string * string);
  text : string;
  body : option json
}.

(** The outcome of one [requests.get]. *)
Inductive reply :=
| Answer (r : response)
| NoAnswer.

(** An f-string whose holes hold provider values is kept unformatted. *)
Inductive piece :=
| Lit (s : string)
| Hole (v : json).

Definition fstring := list piece.

(** One constructor per [print] of the class. *)
Inductive message :=
| NearLimit
| WaitingForReset (wait_time : Z)
| RepoSearchError (status : Z)
| Dump (data : json)
| LimitExceeded (wait_time : Z)
| ResetTime (reset_time : Z)
| FileSearchError (filename : string) (repo : json) (status : Z)
| AttemptFailed (attempt max_retries wait_time : Z)
| ContentError (file_path : json) (status : Z)
| DecodeFailed (file_path : json) (e : exn)
| QueriesCreated (n : Z)
| RunningQuery (index n : Z) (query : string)
| FetchingPage (page : Z) (query : string)
| NoMoreRepos
| AlreadyChecked (repo_name : json)
| Checking (repos_checked max_repos : Z) (repo_name : json)
| FileContains (file_path : json)
| FewResults
| QueryLimitReached.

Inductive event :=
| Get (url : fstring) (params : list (string * fstring))
| Sleep (secs : Z)
| Print (m : message)
| MakeDirs (path : string)
| WriteFile (path : string) (data : json).

(** [self.rate_limit_remaining], the clock in seconds, and the replies
    the provider has yet to give. *)
Record state := State {
  rate_limit_remaining : json;
  clock : Z;
  provider : list reply
}.

(** What the operating system answers to the three calls that reach it
    beside the network: the exception, if there is one, that
    [datetime.fromtimestamp(t)] raises, that
    [os.makedirs(path, exist_ok=True)] raises, and that writing the file at
    [path] raises ([open] for writing, the writes, the closing). *)
Record system := System {
  fromtimestamp_error : Z -> option exn;
  makedirs_error : string -> option exn;
  write_error : string -> option exn
}.

(** A computation returns or raises, leaves a state, and emits events.
    [Get] and [Sleep] are emitted when the call is made, whether it
    returns or raises; [MakeDirs] and [WriteFile] once the directory is
    there and the file is written: a call of theirs that raises leaves no
    event, and what it leaves on the disk is not modelled. *)
Definition M (A : Type) : Type := state -> res A * state * list event.

Definition ret {A} (a : A) : M A := fun s => (Val a, s, []).

Definition raise {A} (e : exn) : M A := fun s => (Exc e, s, []).

Definition bind {A B} (m : M A) (f : A -> M B) : M B :=
  fun s =>
    match m s with
    | (Val a, s1, e1) =>
        match f a s1 with
        | (r, s2, e2) => (r, s2, e1 ++ e2)
        end
    | (Exc e, s1, e1) => (Exc e, s1, e1)
    end.

Definition lift {A} (r : res A) : M A :=
  match r with Val a => ret a | Exc e => raise e end.

Definition emit (e : event) : M unit := fun s => (Val tt, s, [e]).

Definition print (m : message) : M unit := emit (Print m).

Definition get_remaining : M json := fun s => (Val (rate_limit_remaining s), s, []).

Definition set_remaining (v : json) : M unit :=
  fun s => (Val tt, State v (clock s) (provider s), []).

(** [int(time.time())]. *)
Definition time_time : M Z := fun s => (Val (clock s), s, []).

(** CPython keeps a duration as a signed 64-bit number of nanoseconds:
    [time.sleep] converts its argument first, and a length beyond
    [sleep_max] seconds, either way, is an [OverflowError]. *)
Definition sleep_max : Z := 9223372036.

(** [time.sleep(secs)]: the conversion, then the sign (a negative length
    is a [ValueError]), then the sleep, in full. *)
Definition time_sleep (secs : Z) : M unit :=
  fun s =>
    if (secs <? - sleep_max) || (sleep_max <? secs) then
      (Exc OverflowError, s, [Sleep secs])
    else if secs <? 0 then (Exc ValueError, s, [Sleep secs])
    else (Val tt, State (rate_limit_remaining s) (clock s + secs) (provider s),
          [Sleep secs]).

(** [requests.get(url, params=params)]: the next reply of the provider. *)
Definition requests_get (url : fstring) (params : list (string * fstring))
    : M response :=
  fun s =>
    match provider s with
    | Answer r :: rest =>
        (Val r, State (rate_limit_remaining s) (clock s) rest, [Get url params])
    | NoAnswer :: rest =>
        (Exc ConnectionError, State (rate_limit_remaining s) (clock s) rest,
         [Get url params])
    | [] => (Exc ConnectionError, s, [Get url params])
    end.

(** [response.json()]. *)
Definition response_json (r : response) : M json :=
  match body r with Some v => ret v | None => raise JSONDecodeError end.

(** Header names compare without case. *)
Fixpoint header (hs : list (string * string)) (name : string) : option string :=
  match hs with
  | [] => None
  | (k, v) :: rest =>
      if String.eqb (ascii_lower k) (ascii_lower name) then Some v
      else header rest name
  end.

End Env.

(** ** The class [GitHubRepoMiner] *)

Module Miner.
Import Py Env.

Notation "x <- m ; f" := (bind m (fun x => f))
  (at level 61, m at next level, right associativity).
Notation "m ;; f" := (bind m (fun _ => f))
  (at level 61, right associativity).

Definition base_url : string := "https://api.github.com".

(** One verified manifest file. *)
Record file_match := FileMatch {
  fm_name : json;
  fm_path : json;
  fm_url : json
}.

(** The value stored per repository. *)
Record repo_data := RepoData {
  repo_url : json;
  stars : json;
  description : json;
  requirements_with_transitions : list file_match;
  yml_with_transitions : list file_match
}.

(** The [results] dict, in insertion order. *)
Definition results := list (json * repo_data).

(** [k in results]. *)
Definition has_key (rs : results) (k : json) : bool :=
  existsb (fun kv => key_eqb (fst kv) k) rs.

Definition key_in (rs : results) (k : json) : res bool :=
  if hashable k then Val (has_key rs k) else Exc TypeError.

(** [results[k] = v] for a key that is not in the dict. *)
Definition insert_new (rs : results) (k : json) (v : repo_data) : results :=
  rs ++ [(k, v)].

(** The two categories a manifest pattern can feed. *)
Inductive category := Requirements | Yml.

Definition append_match (c : category) (d : repo_data) (m : file_match)
    : repo_data :=
  match c with
  | Requirements =>
      RepoData (repo_url d) (stars d) (description d)
        (requirements_with_transitions d ++ [m]) (yml_with_transitions d)
  | Yml =>
      RepoData (repo_url d) (stars d) (description d)
        (requirements_with_transitions d) (yml_with_transitions d ++ [m])
  end.

Section Platform.

(** Left to the platform: [int(s)] on a header value ([None] is
    [ValueError]), [str.lower] on text, and the operating system. *)
Variable int_of_str : string -> option Z.
Variable str_lower : string -> string.
Variable os : system.

(** [os.makedirs(path, exist_ok=True)]. *)
Definition os_makedirs (path : string) : M unit :=
  match makedirs_error os path with
  | None => emit (MakeDirs path)
  | Some e => raise e
  end.

(** [with open(path, "w", encoding="utf-8") as f: json.dump(data, f, indent=4)]. *)
Definition json_dump_to (path : string) (data : json) : M unit :=
  match write_error os path with
  | None => emit (WriteFile path data)
  | Some e => raise e
  end.

(** [int(response.headers.get(name, 0))]. *)
Definition header_int (r : response) (name : string) : M Z :=
  match header (headers r) name with
  | None => ret 0
  | Some v =>
      match int_of_str v with Some n => ret n | None => raise ValueError end
  end.

Definition check_rate_limit : M unit :=
  remaining <- get_remaining;
  low <- lift (lt_int remaining 10);
  if low : bool then
    print NearLimit;;
    response <- requests_get [Lit base_url; Lit "/rate_limit"] [];
    data <- response_json response;
    rate <- lift (subscript data "rate");
    remaining <- lift (subscript rate "remaining");
    set_remaining remaining;;
    rate <- lift (subscript data "rate");
    reset_time <- lift (subscript rate "reset");
    remaining <- get_remaining;
    critical <- lift (lt_int remaining 5);
    if critical : bool then
      now <- time_time;
      elapsed <- lift (sub_int reset_time now);
      let wait_time := elapsed + 10 in
      print (WaitingForReset wait_time);;
      time_sleep wait_time
    else ret tt
  else ret tt.

Definition search_python_repos (query : string) (page per_page : Z) : M json :=
  check_rate_limit;;
  let search_url := [Lit base_url; Lit "/search/repositories"] in
  let params :=
    [("q", [Lit query]); ("sort", [Lit "stars"]); ("order", [Lit "desc"]);
     ("page", [Hole (JInt page)]); ("per_page", [Hole (JInt per_page)])] in
  response <- requests_get search_url params;
  if negb (status_code response =? 200) then
    print (RepoSearchError (status_code response));;
    data <- response_json response;
    print (Dump data);;
    ret (JList [])
  else
    remaining <- header_int response "X-RateLimit-Remaining";
    set_remaining (JInt remaining);;
    data <- response_json response;
    lift (dict_get data "items" (JList [])).

Definition max_retries : Z := 3.

(** [output/{repo}_{pattern}_search_results.json], as [os.path.join]
    builds it with the separator of POSIX; a repository name that is not a
    [str] has no [replace]. *)
Definition output_filename (repo_full_name : json) (filename : string)
    : res string :=
  match repo_full_name with
  | JStr name =>
      Val ("output/" ++ replace name "/" "_" ++ "_" ++ replace filename "." "_"
           ++ "_search_results.json")%string
  | _ => Exc AttributeError
  end.

(** [for attempt in range(max_retries)], on the attempts still to make. *)
Fixpoint search_attempts (repo_full_name : json) (filename : string)
    (search_url : fstring) (params : list (string * fstring))
    (attempts : list Z) : M json :=
  match attempts with
  | [] => ret (JList [])
  | attempt :: rest =>
      response <- requests_get search_url params;
      if status_code response =? 200 then
        remaining <- header_int response "X-RateLimit-Remaining";
        set_remaining (JInt remaining);;
        data <- response_json response;
        let output_dir := "output" in
        os_makedirs output_dir;;
        path <- lift (output_filename repo_full_name filename);
        json_dump_to path data;;
        lift (dict_get data "items" (JList []))
      else if (status_code response =? 403)
              && contains (text response) "rate limit exceeded" then
        reset_time <- header_int response "X-RateLimit-Reset";
        current_time <- time_time;
        let wait_time := Z.max (reset_time - current_time + 10) 60 in
        print (LimitExceeded wait_time);;
        match fromtimestamp_error os reset_time with
        | None => print (ResetTime reset_time)
        | Some e => raise e
        end;;
        time_sleep wait_time;;
        search_attempts repo_full_name filename search_url params rest
      else
        print (FileSearchError filename repo_full_name (status_code response));;
        data <- response_json response;
        print (Dump data);;
        if attempt <? max_retries - 1 then
          let wait_time := 2 ^ attempt * 30 in
          print (AttemptFailed (attempt + 1) max_retries wait_time);;
          time_sleep wait_time;;
          search_attempts repo_full_name filename search_url params rest
        else ret (JList [])
  end.

Definition search_specific_files_in_repo (repo_full_name : json)
    (filename : string) : M json :=
  check_rate_limit;;
  let search_url := [Lit base_url; Lit "/search/code"] in
  let query :=
    if startswith filename "." then
      [Lit "extension:"; Lit (tail filename); Lit " repo:"; Hole repo_full_name]
    else
      [Lit "filename:"; Lit filename; Lit " repo:"; Hole repo_full_name] in
  let params := [("q", query); ("per_page", [Hole (JInt 100)])] in
  search_attempts repo_full_name filename search_url params (range 0 max_retries).

(** The body of the [try] of [check_file_content_for_text]. *)
Definition content_has_text (data : json) (search_text : string) : res bool :=
  match subscript data "content" with
  | Exc e => Exc e
  | Val encoded =>
      match b64decode encoded with
      | Exc e => Exc e
      | Val raw =>
          match decode_utf8 raw with
          | Exc e => Exc e
          | Val content =>
              Val (contains (str_lower content) (str_lower search_text))
          end
      end
  end.

Definition check_file_content_for_text (repo_full_name file_path : json)
    (search_text : string) : M bool :=
  check_rate_limit;;
  let content_url :=
    [Lit base_url; Lit "/repos/"; Hole repo_full_name; Lit "/contents/";
     Hole file_path] in
  response <- requests_get content_url [];
  if negb (status_code response =? 200) then
    print (ContentError file_path (status_code response));;
    ret false
  else
    remaining <- header_int response "X-RateLimit-Remaining";
    set_remaining (JInt remaining);;
    data <- response_json response;
    present <- lift (str_in "content" data);
    if negb present then ret false
    else
      match content_has_text data search_text with
      | Val found => ret found
      | Exc e => print (DecodeFailed file_path e);; ret false
      end.

(** One [for f in files] of the orchestrator: every file whose content
    holds "transitions" is appended to the category. *)
Fixpoint record_matches (repo_name : json) (c : category) (files : list json)
    (acc : repo_data * bool) : M (repo_data * bool) :=
  match files with
  | [] => ret acc
  | file :: rest =>
      file_path <- lift (subscript file "path");
      found <- check_file_content_for_text repo_name file_path "transitions";
      if found : bool then
        print (FileContains file_path);;
        name <- lift (subscript file "name");
        url <- lift (subscript file "html_url");
        record_matches repo_name c rest
          (append_match c (fst acc) (FileMatch name file_path url), true)
      else record_matches repo_name c rest acc
  end.

(** One manifest pattern: search, then verify each candidate. *)
Definition scan_pattern (repo_name : json) (pattern : string) (c : category)
    (acc : repo_data * bool) : M (repo_data * bool) :=
  found_files <- search_specific_files_in_repo repo_name pattern;
  files <- lift (iterate found_files);
  record_matches repo_name c files acc.

(** The loop state of the orchestrator. *)
Record progress := Progress {
  found : results;
  repos_checked : Z
}.

(** The body of [for repo in repos] once the repository is not skipped. *)
Definition examine_repo (max_repos : Z) (repo repo_name : json) (p : progress)
    : M progress :=
  let repos_checked := repos_checked p + 1 in
  print (Checking repos_checked max_repos repo_name);;
  html_url <- lift (subscript repo "html_url");
  stargazers <- lift (subscript repo "stargazers_count");
  descr <- lift (subscript repo "description");
  let repo_data := RepoData html_url stargazers descr [] [] in
  let found_relevant_content := false in
  acc <- scan_pattern repo_name "requirements.txt" Requirements
           (repo_data, found_relevant_content);
  acc <- scan_pattern repo_name ".yml" Yml acc;
  acc <- scan_pattern repo_name "pyproject.toml" Requirements acc;
  if snd acc : bool then
    ret (Progress (insert_new (found p) repo_name (fst acc)) repos_checked)
  else ret (Progress (found p) repos_checked).

(** [for repo in repos]. *)
Fixpoint repo_loop (max_repos : Z) (repos : list json) (p : progress)
    : M progress :=
  match repos with
  | [] => ret p
  | repo :: rest =>
      if repos_checked p >=? max_repos then ret p
      else
        repo_name <- lift (subscript repo "full_name");
        seen <- lift (key_in (found p) repo_name);
        if seen : bool then
          print (AlreadyChecked repo_name);;
          repo_loop max_repos rest p
        else
          p <- examine_repo max_repos repo repo_name p;
          repo_loop max_repos rest p
  end.

(** [while repos_checked < max_repos], with [fuel] iterations allowed;
    [None] when they run out (they do not: lemma [page_loop_fuel]). *)
Fixpoint page_loop (fuel : nat) (max_repos : Z) (query : string) (page : Z)
    (p : progress) : M (option progress) :=
  match fuel with
  | O => ret None
  | S fuel =>
      if repos_checked p <? max_repos then
        print (FetchingPage page query);;
        repos <- search_python_repos query page 30;
        if negb (truthy repos) then
          print NoMoreRepos;;
          ret (Some p)
        else
          items <- lift (iterate repos);
          p <- repo_loop max_repos items p;
          let page := page + 1 in
          n <- lift (len_json repos);
          if n <? 10 then
            print FewResults;;
            ret (Some p)
          else if page >? 30 then
            print QueryLimitReached;;
            ret (Some p)
          else page_loop fuel max_repos query page p
      else ret (Some p)
  end.

(** [for query_index, query in enumerate(queries)]. *)
Fixpoint query_loop (max_repos n : Z) (queries : list (Z * string))
    (p : progress) : M (option progress) :=
  match queries with
  | [] => ret (Some p)
  | (query_index, query) :: rest =>
      if repos_checked p >=? max_repos then ret (Some p)
      else
        print (RunningQuery (query_index + 1) n query);;
        let page := 1 in
        r <- page_loop 30 max_repos query page p;
        match r with
        | Some p => query_loop max_repos n rest p
        | None => ret None
        end
  end.

(** [enumerate(l)]. *)
Definition enumerate {A} (l : list A) : list (Z * A) :=
  combine (range 0 (len l)) l.

(** [current_year] is [datetime.now().year]. *)
Definition find_repos_with_criteria_segmented (current_year max_repos : Z)
    : M (option results) :=
  let results := [] in
  let repos_checked := 0 in
  let queries := Segmenter.create_segmented_queries current_year in
  print (QueriesCreated (len queries));;
  r <- query_loop max_repos (len queries) (enumerate queries)
         (Progress results repos_checked);
  match r with
  | Some p => ret (Some (found p))
  | None => ret None
  end.

End Platform.

End Miner.

(** ** What a run shows *)

Module Observe.
Import Py Env Miner.

(** The quota a status response carries: [data["rate"]["remaining"]] as a
    number and [data["rate"]["reset"]] as sent, or the exception that
    reading them raises. *)
Definition quota_of (r : response) : res (json * Z * json) :=
  match body r with
  | None => Exc JSONDecodeError
  | Some data =>
      match subscript data "rate" with
      | Exc e => Exc e
      | Val rate =>
          match subscript rate "remaining" with
          | Exc e => Exc e
          | Val remaining =>
              match subscript rate "reset" with
              | Exc e => Exc e
              | Val reset =>
                  match as_int remaining with
                  | Exc e => Exc e
                  | Val n => Val (remaining, n, reset)
                  end
              end
          end
      end
  end.

(** The quota-status request fails: no response, or one whose quota
    cannot be read. *)
Definition quota_request_fails (s : state) : Prop :=
  match provider s with
  | [] => True
  | NoAnswer :: _ => True
  | Answer r :: _ => exists e, quota_of r = Exc e
  end.

(** The requests and the sleeps of a run, in order. *)
Definition is_get (e : event) : bool :=
  match e with Get _ _ => true | _ => false end.

Definition requests (evs : list event) : nat := List.length (filter is_get evs).

Fixpoint sleeps (evs : list event) : list Z :=
  match evs with
  | [] => []
  | Sleep d :: rest => d :: sleeps rest
  | _ :: rest => sleeps rest
  end.


Definition other_failure (r : response) : bool :=
  negb (status_code r =? 200)
  && negb ((status_code r =? 403) && contains (text r) "rate limit exceeded").

(** [int(response.headers.get(name, 0))], [None] when it raises. *)
Definition header_value (int_of_str : string -> option Z) (r : response)
    (name : string) : option Z :=
  match header (headers r) name with
  | None => Some 0
  | Some v => int_of_str v
  end.

(** The text of a file: its [content] field, base64-decoded, then
    UTF-8-decoded, or the exception one of the steps raises. *)
Definition decoded_content (data : json) : res string :=
  match subscript data "content" with
  | Exc e => Exc e
  | Val encoded =>
      match b64decode encoded with
      | Exc e => Exc e
      | Val raw => decode_utf8 raw
      end
  end.

(** The repositories a run examined, with the counter shown for each. *)
Fixpoint examined (evs : list event) : list (Z * json) :=
  match evs with
  | [] => []
  | Print (Checking n _ name) :: rest => (n, name) :: examined rest
  | _ :: rest => examined rest
  end.

(** The repository under examination after [evs], starting from [cur]. *)
Fixpoint current (cur : option json) (evs : list event) : option json :=
  match evs with
  | [] => cur
  | Print (Checking _ _ name) :: rest => current (Some name) rest
  | _ :: rest => current cur rest
  end.

(** The repository of every file match a run recorded: a match is
    recorded where [FileContains] is printed, for the repository of the
    last [Checking]. *)
Fixpoint matched (cur : option json) (evs : list event) : list json :=
  match evs with
  | [] => []
  | Print (Checking _ _ name) :: rest => matched (Some name) rest
  | Print (FileContains _) :: rest =>
      match cur with
      | Some name => name :: matched cur rest
      | None => matched cur rest
      end
  | _ :: rest => matched cur rest
  end.

(** The number of file matches a run recorded. *)
Fixpoint recorded (evs : list event) : nat :=
  match evs with
  | [] => O
  | Print (FileContains _) :: rest => S (recorded rest)
  | _ :: rest => recorded rest
  end.

(** An event that neither starts an examination nor records a match. *)
Definition quiet (e : event) : bool :=
  match e with
  | Print (Checking _ _ _) | Print (FileContains _) => false
  | _ => true
  end.

(** Every event of [m], whatever the state and the outcome, passes [P]. *)
Definition emits_only {A} (P : event -> bool) (m : M A) : Prop :=
  forall s, forallb P (snd (m s)) = true.

(** The file matches stored for a repository. *)
Definition matches_of (d : repo_data) : list file_match :=
  requirements_with_transitions d ++ yml_with_transitions d.

(** The flag [found_relevant_content] says whether a match is stored:
    [n] matches, and a flag that is set when [n] is not 0. *)
Definition agree (acc : repo_data * bool) (n : nat) : Prop :=
  List.length (matches_of (fst acc)) = n /\ snd acc = negb (Nat.eqb n 0).

(** The keys of the results are the repositories with a recorded match,
    and every stored repository holds a match. *)
Definition keys_are_matched (rs : results) (evs : list event) : Prop :=
  (forall k, has_key rs k = true <->
             exists k', In k' (matched None evs) /\ key_eqb k' k = true)
  /\ (forall k d, In (k, d) rs -> matches_of d <> []).

(** The counter numbers the examinations 1, 2, ... and stays within
    [max_repos]. *)
Definition counts_examinations (max_repos : Z) (p : progress)
    (evs : list event) : Prop :=
  map fst (examined evs) = range 1 (repos_checked p + 1)
  /\ 0 <= repos_checked p <= Z.max max_repos 0.

End Observe.

(** ** A mock provider *)

Module Mock.
Import Py Env Miner.

(** A quota-status response. *)
Definition quota_status (remaining reset : Z) : response :=
  Response 200 [] EmptyString
    (Some (JDict [("rate", JDict [("remaining", JInt remaining);
                                  ("reset", JInt reset)])])).

(** A search response with its page of items. *)
Definition found_items (items : list json) : response :=
  Response 200 [("X-RateLimit-Remaining", "4999")] EmptyString
    (Some (JDict [("items", JList items)])).

(** The quota-exceeded signal, with its reset time. *)
Definition rate_limited (reset : string) : response :=
  Response 403 [("X-RateLimit-Reset", reset)]
    "API rate limit exceeded for user ID 1."
    (Some (JDict [("message", JStr "API rate limit exceeded for user ID 1.")])).

(** A file's metadata with its inline content. *)
Definition file_content (encoded : string) : response :=
  Response 200 [("X-RateLimit-Remaining", "4999")] EmptyString
    (Some (JDict [("content", JStr encoded)])).

(** A failure with a JSON body, and one whose body is a proxy's HTML. *)
Definition server_error : response :=
  Response 500 [] "{'message': 'Server Error'}"
    (Some (JDict [("message", JStr "Server Error")])).

Definition bad_gateway : response :=
  Response 502 [] "<html><body>502 Bad Gateway</body></html>" None.

(** A repository item and a code-search item. *)
Definition acme_app : json :=
  JDict [("full_name", JStr "acme/app");
         ("html_url", JStr "https://github.com/acme/app");
         ("stargazers_count", JInt 5);
         ("description", JNone)].

Definition requirements_txt : json :=
  JDict [("name", JStr "requirements.txt");
         ("path", JStr "requirements.txt");
         ("html_url",
          JStr "https://github.com/acme/app/blob/main/requirements.txt")].

(** [int(s)] on decimal text. *)
Definition int_of_decimal (s : string) : option Z :=
  match NilZero.int_of_string s with
  | Some i => Some (Z.of_int i)
  | None => None
  end.

(** An operating system: timestamps are 64-bit and dates run from year 1
    to year 9999 (in UTC); every directory can be written to, and [output]
    has no directory below it, so that a path with a [/] beyond [output/]
    names a directory that is missing. *)
Definition below_output (path : string) : string :=
  if prefix "output/" path then substring 7 (String.length path - 7) path
  else path.

Definition os : system :=
  System
    (fun t =>
       if (t <? - 2 ^ 63) || (2 ^ 63 <=? t) then Some OverflowError
       else if (t <? -62135596800) || (253402300799 <? t) then Some ValueError
       else None)
    (fun _ => None)
    (fun path =>
       if existsb (Ascii.eqb "/") (list_ascii_of_string (below_output path))
       then Some FileNotFoundError else None).

(** A page that is not the provider's: status 200 and a body that is not
    JSON. *)
Definition login_page : response :=
  Response 200 [("X-RateLimit-Remaining", "4999")]
    "<html><body>Sign in to continue</body></html>" None.

Definition acme_lib : json :=
  JDict [("full_name", JStr "acme/lib");
         ("html_url", JStr "https://github.com/acme/lib");
         ("stargazers_count", JInt 3);
         ("description", JStr "a library")].

(** One page with two repositories; the first has a [requirements.txt]
    that reads [Transitions==0.8.0], the second has no manifest. *)
Definition one_match : state :=
  State (JInt 1000) 1700000000
    [Answer (found_items [acme_app; acme_lib]);
     Answer (found_items [requirements_txt]);
     Answer (file_content "VHJhbnNpdGlvbnM9PTAuOC4wCg==");
     Answer (found_items []); Answer (found_items []);
     Answer (found_items []); Answer (found_items []);
     Answer (found_items [])].

(** Two query segments that both return the same repository, which has
    no manifest, and a third that would return it again. *)
Definition revisit : state :=
  State (JInt 1000) 1700000000
    [Answer (found_items [acme_app]);
     Answer (found_items []); Answer (found_items []); Answer (found_items []);
     Answer (found_items [acme_app]);
     Answer (found_items []); Answer (found_items []); Answer (found_items []);
     Answer (found_items [acme_app])].

(** The run of the orchestrator on [one_match], for at most 2
    repositories, in 2025. *)
Definition one_match_run : res (option results) * state * list event :=
  Eval vm_compute in
    find_repos_with_criteria_segmented int_of_decimal ascii_lower os
      2025 2 one_match.

Definition returned {A} (r : res (option A)) : option A :=
  match r with Val (Some a) => Some a | _ => None end.

Definition acme_tool : json :=
  JDict [("full_name", JStr "acme/tool");
         ("html_url", JStr "https://github.com/acme/tool");
         ("stargazers_count", JInt 12);
         ("description", JStr "a tool")].

Definition ci_yml : json :=
  JDict [("name", JStr "ci.yml");
         ("path", JStr ".github/workflows/ci.yml");
         ("html_url",
          JStr "https://github.com/acme/tool/blob/main/.github/workflows/ci.yml")].

(** Two query segments.  The first returns [acme/app], whose
    [requirements.txt] matches, and [acme/lib], which has no manifest; the
    second returns [acme/app] again, and [acme/tool], whose workflow file
    installs [transitions]. *)
Definition stored_revisit : state :=
  State (JInt 1000) 1700000000
    [Answer (found_items [acme_app; acme_lib]);
     Answer (found_items [requirements_txt]);
     Answer (file_content "VHJhbnNpdGlvbnM9PTAuOC4wCg==");
     Answer (found_items []); Answer (found_items []);
     Answer (found_items []); Answer (found_items []);
     Answer (found_items []);
     Answer (found_items [acme_app; acme_tool]);
     Answer (found_items []);
     Answer (found_items [ci_yml]);
     Answer (file_content "aW5zdGFsbDoKICAtIHBpcCBpbnN0YWxsIHRyYW5zaXRpb25zCg==");
     Answer (found_items [])].

(** A query with more pages than the orchestrator reads: 31 full pages
    of ten items, all of them [acme/app], whose [requirements.txt]
    matches. *)
Definition deep_query : state :=
  State (JInt 1000) 1700000000
    ([Answer (found_items (repeat acme_app 10));
      Answer (found_items [requirements_txt]);
      Answer (file_content "VHJhbnNpdGlvbnM9PTAuOC4wCg==");
      Answer (found_items []); Answer (found_items [])]
     ++ repeat (Answer (found_items (repeat acme_app 10))) 30).

(** The run of the orchestrator on [stored_revisit], for at most 3
    repositories, in 2025. *)
Definition stored_revisit_run : res (option results) * state * list event :=
  Eval vm_compute in
    find_repos_with_criteria_segmented int_of_decimal ascii_lower os
      2025 3 stored_revisit.

End Mock.

(** ** The Report Writer: [save_results_to_file] *)

Module Report.
Import Py Env Miner.

(** One constructor per [f.write] of the function; values of the
    provider are kept unformatted. *)
Inductive written :=
| Title
| SearchDate (current_time : string)
| Rule
| NothingFound
| Total (n : Z)
| Repository (repo_name : json)
| Url (url : json)
| Stars (stars : json)
| Description (text : json)
| RequirementsFiles (n : Z)
| YmlFiles (n : Z)
| File (i : Z) (path url : json)
| EndOfRepository.

(** [for i, file_data in enumerate(files, 1)]. *)
Definition file_lines (files : list file_match) : list written :=
  map (fun numbered => File (fst numbered) (fm_path (snd numbered))
                         (fm_url (snd numbered)))
      (combine (range 1 (1 + len files)) files).

(** The body of [for repo_name, repo_data in results.items()]. *)
Definition repository_lines (item : json * repo_data) : list written :=
  let repo_name := fst item in
  let repo_data := snd item in
  [Repository repo_name; Url (repo_url repo_data); Stars (stars repo_data)]
  ++ (if truthy (description repo_data)
      then [Description (description repo_data)] else [])
  ++ (match requirements_with_transitions repo_data with
      | [] => []
      | files => RequirementsFiles (len files) :: file_lines files
      end)
  ++ (match yml_with_transitions repo_data with
      | [] => []
      | files => YmlFiles (len files) :: file_lines files
      end)
  ++ [EndOfRepository].

(** What the function writes to its file; [current_time] is
    [datetime.now()] as formatted. *)
Definition save_results_to_file (rs : results) (current_time : string)
    : list written :=
  [Title; SearchDate current_time; Rule]
  ++ match rs with
     | [] => [NothingFound]
     | _ => Total (len rs) :: flat_map repository_lines rs
     end.

(** Readings of a report. *)
Definition is_repository (w : written) : bool :=
  match w with Repository _ => true | _ => false end.

Definition is_file (w : written) : bool :=
  match w with File _ _ _ => true | _ => false end.

(** The repositories a report names, in order. *)
Definition repository_names (ws : list written) : list json :=
  flat_map (fun w => match w with Repository name => [name] | _ => [] end) ws.

Definition file_numbers (ws : list written) : list Z :=
  flat_map (fun w => match w with File i _ _ => [i] | _ => [] end) ws.

End Report.

(** ** The entry point: [main] *)

Module Main.
Import Py Env Miner Report.

(** [GitHubRepoMiner.__init__]: the headers every request carries, and
    the optimistic quota. *)
Definition init_headers (token : option string) : list (string * string) :=
  (match token with
   | Some t =>
       if String.eqb t EmptyString then []
       else [("Authorization", ("token " ++ t)%string)]
   | None => []
   end)
  ++ [("Accept", "application/vnd.github.v3+json")].

Definition init_rate_limit_remaining : json := JInt 1000.

(** One constructor per [print] and per prompt of [main]. *)
Inductive said :=
| NoTokenFound
| LowLimitsWithoutToken
| TokenAdvice
| TokenStronglyAdvised
| AskToken
| AskMaxRepos (default : Z)
| InvalidValue (default : Z)
| Starting (max_repos : Z)
| Summary
| TotalRelevant (n : Z)
| WithRequirements (n : Z)
| WithYml (n : Z)
| SavedIn (filename : string).

(** What [main] lets out: its own lines, the miner it builds, the events
    of the crawl, and the report once [save_results_to_file] has written
    it. *)
Inductive output :=
| Said (m : said)
| Built (headers : list (string * string))
| Crawled (e : event)
| Saved (filename : string) (content : list written).

(** [sum(1 for repo in results.values() if repo[category])]. *)
Definition req_count (rs : results) : Z :=
  len (filter (fun item =>
                 match requirements_with_transitions (snd item) with
                 | [] => false | _ => true end) rs).

Definition yml_count (rs : results) : Z :=
  len (filter (fun item =>
                 match yml_with_transitions (snd item) with
                 | [] => false | _ => true end) rs).

Definition nonempty (s : string) : bool := negb (String.eqb s EmptyString).

Section Platform.

Variable int_of_str : string -> option Z.
Variable str_lower : string -> string.
Variable os : system.

(** [str.strip]. *)
Variable str_strip : string -> string.

(** The token the miner is built with, and what is said to get it. *)
Definition resolve_token (environ_token : option string) (token_input : string)
    : option string * list output :=
  let token := environ_token in
  if match token with Some t => nonempty t | None => false end
  then (token, [])
  else
    let token_input := str_strip token_input in
    (if nonempty token_input then Some token_input else token,
     [Said NoTokenFound; Said LowLimitsWithoutToken; Said TokenAdvice;
      Said TokenStronglyAdvised; Said AskToken]).

(** The [try] around the second prompt: a [ValueError] of [int] keeps
    the default. *)
Definition resolve_max_repos (max_input : string) : Z * list output :=
  let max_repos := 1000 in
  let max_input := str_strip max_input in
  if nonempty max_input then
    match int_of_str max_input with
    | Some n => (n, [Said (AskMaxRepos max_repos)])
    | None => (max_repos, [Said (AskMaxRepos max_repos);
                           Said (InvalidValue max_repos)])
    end
  else (max_repos, [Said (AskMaxRepos max_repos)]).

(** [environ_token] is [os.environ.get("GITHUB_TOKEN")]; [token_input]
    and [max_input] are what is typed at the two prompts; [current_year]
    and [current_time] are [datetime.now()] as the crawl and the report
    read it.  The miner starts with the clock and the provider of the
    process.  A crawl that returns has results ([page_loop] does not run
    out of iterations), so the [None] below is never met.  When writing the
    report raises, [main] ends there; what the file is left with is not
    modelled. *)
Definition main (environ_token : option string) (token_input max_input : string)
    (current_year : Z) (current_time : string) (s : state)
    : res unit * state * list output :=
  let '(token, asked_token) := resolve_token environ_token token_input in
  let miner := State init_rate_limit_remaining (clock s) (provider s) in
  let '(max_repos, asked_max) := resolve_max_repos max_input in
  let before :=
    asked_token ++ [Built (init_headers token)] ++ asked_max
    ++ [Said (Starting max_repos)] in
  match find_repos_with_criteria_segmented int_of_str str_lower os
          current_year max_repos miner with
  | (Exc e, s', evs) => (Exc e, s', before ++ map Crawled evs)
  | (Val r, s', evs) =>
      let results := match r with Some rs => rs | None => [] end in
      let filename := "repo_search_results.txt" in
      let report := Saved filename (save_results_to_file results current_time) in
      match write_error os filename with
      | Some e => (Exc e, s', before ++ map Crawled evs)
      | None =>
          (Val tt, s',
           before ++ map Crawled evs
           ++ [report;
               Said Summary; Said (TotalRelevant (len results));
               Said (WithRequirements (req_count results));
               Said (WithYml (yml_count results)); Said (SavedIn filename)])
      end
  end.

End Platform.

(** The events of the crawl among what [main] lets out. *)
Definition crawl (outs : list output) : list event :=
  flat_map (fun o => match o with Crawled e => [e] | _ => [] end) outs.

End Main.

(** ** A session of the program *)

Module Session.
Import Py Env Miner Report Main.

(** [main] with a token in the environment, the answer [2] to the second
    prompt, in 2025, against the provider of [Mock.one_match]. *)
Definition one_match_session : res unit * state * list output :=
  Eval vm_compute in
    main Mock.int_of_decimal ascii_lower Mock.os (fun typed => typed)
      (Some "ghp_token") EmptyString "2" 2025 "2025-06-30 12:00:00"
      Mock.one_match.

(** One examination of [acme/app], whose [requirements.txt] matches. *)
Definition one_examination : res progress * state * list event :=
  Eval vm_compute in
    examine_repo Mock.int_of_decimal ascii_lower Mock.os 2
      Mock.acme_app (JStr "acme/app") (Progress [] 0)
      (State (JInt 1000) 1700000000
         [Answer (Mock.found_items [Mock.requirements_txt]);
          Answer (Mock.file_content "VHJhbnNpdGlvbnM9PTAuOC4wCg==");
          Answer (Mock.found_items []); Answer (Mock.found_items [])]).

Definition progress_of (r : res progress) : progress :=
  match r with Val p => p | Exc _ => Progress [] 0 end.

End Session.

(** ** The segments, read as a table *)

Module Segments.
Import Py Segmenter.

(** The queries of one star range: the bare range, then one query per
    year [y] of [first .. last - 1], from 1 January of [y] to 1 January of
    [y + 1]. *)
Definition star_block (first last : Z) (star_range : string) : list string :=
  (base_query ++ " " ++ star_range)%string
  :: map (fun y => (base_query ++ " " ++ star_range ++ " "
                    ++ created_range y (y + 1))%string)
         (range first last).

(** The whole list for the year [cy]. *)
Definition table (cy : Z) : list string :=
  flat_map (star_block (cy - 10) cy) star_ranges
  ++ [(base_query ++ " created:>" ++ str_of_int (cy - 1) ++ "-01-01")%string]
  ++ map (fun size_range => (base_query ++ " " ++ size_range)%string) size_ranges.

(** A calendar date has a month and a day from 1 on. *)
Definition calendar (d : date) : Prop := 1 <= month d /\ 1 <= day d.

End Segments.

(** ** More to read off a run *)

Module Survey.
Import Py Env Miner Observe.


(** The code-search request for a pattern in a repository. *)
Definition code_search (repo_full_name : json) (filename : string) : event :=
  Get [Lit base_url; Lit "/search/code"]
    [("q",
      if startswith filename "." then
        [Lit "extension:"; Lit (tail filename); Lit " repo:"; Hole repo_full_name]
      else
        [Lit "filename:"; Lit filename; Lit " repo:"; Hole repo_full_name]);
     ("per_page", [Hole (JInt 100)])].

(** The character [c] occurs in [s]. *)
Definition occurs (c : ascii) (s : string) : bool :=
  existsb (Ascii.eqb c) (list_ascii_of_string s).

(** The character that stands for [c] in a file name where [a] is
    written as an underscore. *)
Definition underscored (a c : ascii) : ascii :=
  if Ascii.eqb c a then "_"%char else c.

(** The pages a run fetched. *)
Definition is_page (e : event) : bool :=
  match e with Print (FetchingPage _ _) => true | _ => false end.

Definition pages (evs : list event) : nat := List.length (filter is_page evs).

(** The numbers of the pages a run fetched, in order. *)
Fixpoint fetched (evs : list event) : list Z :=
  match evs with
  | [] => []
  | Print (FetchingPage page _) :: rest => page :: fetched rest
  | _ :: rest => fetched rest
  end.



(** Whatever the state and the outcome, [m] fetches at most [n] pages. *)
Definition at_most_pages {A} (n : nat) (m : M A) : Prop :=
  forall s, (pages (snd (m s)) <= n)%nat.

(** No two keys of the results are equal. *)
Fixpoint distinct_keys (rs : results) : Prop :=
  match rs with
  | [] => True
  | (k, _) :: rest => has_key rest k = false /\ distinct_keys rest
  end.

End Survey.

(** ** Properties of the Query Segmenter *)

Module SegmenterFacts.
Import Segmenter.

Lemma years_unfold (cy : Z) :
  years cy =
  [cy - 10; cy - 9; cy - 8; cy - 7; cy - 6; cy - 5; cy - 4; cy - 3;
   cy - 2; cy - 1; cy].
Proof.
  unfold years, Py.range.
  replace (cy + 1 - (cy - 10)) with 11 by lia.
  change (Z.to_nat 11) with 11%nat. cbn [seq map].
  repeat (f_equal; try lia).
Qed.

(** Every index the segmenter uses is inside [years]. *)
Lemma years_index (cy i : Z) :
  -11 <= i < 11 ->
  Py.getitem (years cy) i 0 = if i <? 0 then cy + i + 1 else cy - 10 + i.
Proof.
  intros Hi. rewrite years_unfold. unfold Py.getitem, Py.len.
  change (Z.of_nat (List.length _)) with 11.
  set (j := if i <? 0 then i + 11 else i).
  assert (Hj : 0 <= j < 11) by (subst j; destruct (i <? 0) eqn:E;
    [apply Z.ltb_lt in E | apply Z.ltb_ge in E]; lia).
  replace ((0 <=? j) && (j <? 11))%bool with true
    by (symmetry; apply andb_true_iff; split;
        [apply Z.leb_le | apply Z.ltb_lt]; lia).
  assert (Hn : (Z.to_nat j < 11)%nat) by lia.
  assert (Ej : j = Z.of_nat (Z.to_nat j)) by lia.
  assert (Ei : i = if i <? 0 then j - 11 else j)
    by (subst j; destruct (i <? 0); lia).
  generalize dependent (Z.to_nat j). intros n Hn Ej.
  destruct (i <? 0); rewrite Ei, Ej; clear Ei Ej Hj;
    do 11 (destruct n as [| n]; [cbn [nth]; lia |]); lia.
Qed.

Lemma fold_append_length {A B} (f : B -> A) (l : list B) (acc : list A) :
  List.length (fold_left (fun acc x => acc ++ [f x]) l acc)
  = (List.length acc + List.length l)%nat.
Proof.
  revert acc. induction l as [| x l IH]; intros acc; cbn.
  - lia.
  - rewrite IH, length_app. cbn. lia.
Qed.

Lemma star_range_body_length (ys : list Z) (queries : list string) (sr : string) :
  List.length (star_range_body ys queries sr)
  = (List.length queries + 1 + Z.to_nat (Py.len ys - 1))%nat.
Proof.
  unfold star_range_body.
  rewrite (fold_append_length
             (fun i => (base_query ++ " " ++ sr ++ " " ++
                        created_range (Py.getitem ys i 0) (Py.getitem ys (i + 1) 0))%string)).
  rewrite length_app. unfold Py.range. rewrite length_map, length_seq. cbn. lia.
Qed.

Lemma star_loop_length (ys : list Z) (srs : list string) (queries : list string) :
  List.length (fold_left (star_range_body ys) srs queries)
  = (List.length queries + List.length srs * (1 + Z.to_nat (Py.len ys - 1)))%nat.
Proof.
  revert queries. induction srs as [| sr srs IH]; intros queries; cbn [fold_left List.length].
  - lia.
  - rewrite IH, star_range_body_length. lia.
Qed.

(** C1: for every current year the segmenter returns a list, the same list
    for the same year, of exactly 8 + 8*10 + 1 + 3 = 92 queries, hence
    non-empty. *)
Theorem create_segmented_queries_count (current_year : Z) :
  List.length (create_segmented_queries current_year) = (8 + 8 * 10 + 1 + 3)%nat
  /\ List.length (create_segmented_queries current_year) = 92%nat
  /\ create_segmented_queries current_year <> []
  /\ (forall y, y = current_year ->
        create_segmented_queries y = create_segmented_queries current_year).
Proof.
  assert (L : List.length (create_segmented_queries current_year) = 92%nat).
  { unfold create_segmented_queries.
    rewrite (fold_append_length (fun s => (base_query ++ " " ++ s)%string)).
    rewrite length_app, star_loop_length, years_unfold. reflexivity. }
  repeat split.
  - exact L.
  - exact L.
  - intros E. rewrite E in L. discriminate L.
  - intros y ->. reflexivity.
Qed.

Lemma fold_append_map {A B} (f : B -> A) (l : list B) (acc : list A) :
  fold_left (fun acc x => acc ++ [f x]) l acc = acc ++ map f l.
Proof.
  revert acc. induction l as [| x l IH]; intros acc; cbn.
  - now rewrite app_nil_r.
  - rewrite IH, <- app_assoc. reflexivity.
Qed.

(** The date filters of one star range are those of [created_year_pairs],
    in order, after the bare star-range query. *)
Lemma star_range_body_pairs (cy : Z) (queries : list string) (sr : string) :
  star_range_body (years cy) queries sr
  = queries ++ (base_query ++ " " ++ sr)%string
      :: map (fun p => (base_query ++ " " ++ sr ++ " " ++
                        created_range (fst p) (snd p))%string)
             (created_year_pairs cy).
Proof.
  unfold star_range_body, created_year_pairs.
  rewrite (fold_append_map
             (fun i => (base_query ++ " " ++ sr ++ " " ++
                        created_range (Py.getitem (years cy) i 0)
                          (Py.getitem (years cy) (i + 1) 0))%string)).
  rewrite <- app_assoc, map_map. reflexivity.
Qed.

Lemma created_year_pairs_unfold (cy : Z) :
  created_year_pairs cy =
  [(cy - 10, cy - 9); (cy - 9, cy - 8); (cy - 8, cy - 7); (cy - 7, cy - 6);
   (cy - 6, cy - 5); (cy - 5, cy - 4); (cy - 4, cy - 3); (cy - 3, cy - 2);
   (cy - 2, cy - 1); (cy - 1, cy)].
Proof.
  unfold created_year_pairs, Py.range.
  replace (Py.len (years cy) - 1 - 0) with 10
    by (rewrite years_unfold; reflexivity).
  change (Z.to_nat 10) with 10%nat. cbn [seq map Z.of_nat Pos.of_succ_nat Pos.succ].
  assert (item : forall i a b, 0 <= i < 10 -> a = cy - 10 + i -> b = a + 1 ->
            (a, b) = (Py.getitem (years cy) (0 + i) 0,
                      Py.getitem (years cy) (0 + i + 1) 0)).
  { intros i a b Hi -> ->. rewrite !years_index by lia.
    destruct (0 + i <? 0) eqn:E1; [apply Z.ltb_lt in E1; lia |].
    destruct (0 + i + 1 <? 0) eqn:E2; [apply Z.ltb_lt in E2; lia |].
    f_equal; lia. }
  repeat (f_equal; [symmetry; apply item; lia |]).
  f_equal. symmetry. apply item; lia.
Qed.

Lemma date_leb_refl (d : date) : date_leb d d = true.
Proof.
  unfold date_leb. rewrite !Z.eqb_refl, Z.leb_refl.
  now rewrite !orb_true_r.
Qed.

(** C8 (what the code does): for every current year, two consecutive
    one-year filters of a star range end and start on the same first of
    January, and both select it. *)
Theorem created_ranges_share_boundary_day (current_year : Z) (i : nat) :
  (i < 9)%nat ->
  exists y0 y1 y2,
    nth_error (created_year_pairs current_year) i = Some (y0, y1)
    /\ nth_error (created_year_pairs current_year) (S i) = Some (y1, y2)
    /\ y0 < y1 < y2
    /\ created_range_selects y0 y1 (Date y1 1 1) = true
    /\ created_range_selects y1 y2 (Date y1 1 1) = true.
Proof.
  intros Hi. rewrite created_year_pairs_unfold.
  assert (sel : forall a b c, a < b -> b < c ->
            created_range_selects a b (Date b 1 1) = true
            /\ created_range_selects b c (Date b 1 1) = true).
  { intros a b c Hab Hbc. unfold created_range_selects.
    rewrite !date_leb_refl, andb_true_r. cbn [andb].
    unfold date_leb; cbn [year month day].
    rewrite (proj2 (Z.ltb_lt a b) Hab), (proj2 (Z.ltb_lt b c) Hbc).
    split; reflexivity. }
  do 9 (destruct i as [| i];
        [ eexists _, _, _; split; [reflexivity |]; split; [reflexivity |];
          split; [lia | apply sel; lia] |]).
  lia.
Qed.

(** The shared day for the year 2025, on the query strings themselves. *)
Lemma created_ranges_share_boundary_day_2025 :
  In "language:python stars:0..10 created:2015-01-01..2016-01-01"
     (create_segmented_queries 2025)
  /\ In "language:python stars:0..10 created:2016-01-01..2017-01-01"
        (create_segmented_queries 2025)
  /\ exists y0 y1 y2,
       nth_error (created_year_pairs 2025) 0 = Some (y0, y1)
       /\ nth_error (created_year_pairs 2025) 1 = Some (y1, y2)
       /\ y0 < y1 < y2
       /\ created_range_selects y0 y1 (Date y1 1 1) = true
       /\ created_range_selects y1 y2 (Date y1 1 1) = true.
Proof.
  split; [| split].
  - vm_compute. tauto.
  - vm_compute. tauto.
  - apply (created_ranges_share_boundary_day 2025 0). lia.
Defined.

End SegmenterFacts.

(** ** Properties of the Rate Governor: [check_rate_limit] *)

Module GovernorFacts.
Import Py Env Miner Observe.

(** The three outcomes of [time.sleep]. *)
Lemma time_sleep_sleeps (d : Z) (s : state) :
  0 <= d <= sleep_max ->
  time_sleep d s =
  (Val tt, State (rate_limit_remaining s) (clock s + d) (provider s), [Sleep d]).
Proof.
  intros Hd. unfold time_sleep.
  replace (d <? - sleep_max) with false
    by (symmetry; apply Z.ltb_ge; unfold sleep_max in *; lia).
  replace (sleep_max <? d) with false by (symmetry; apply Z.ltb_ge; lia).
  replace (d <? 0) with false by (symmetry; apply Z.ltb_ge; lia).
  reflexivity.
Qed.


Lemma check_rate_limit_idle (s : state) :
  lt_int (rate_limit_remaining s) 10 = Val false ->
  check_rate_limit s = (Val tt, s, []).
Proof.
  intros H. unfold check_rate_limit, bind, get_remaining, lift.
  rewrite H. reflexivity.
Qed.

(** With the quota read and below the critical mark, the governor is one
    [time.sleep]. *)
Lemma check_rate_limit_critical (s : state) (r : response) (rest : list reply)
    (remaining reset : json) (n T : Z) :
  lt_int (rate_limit_remaining s) 10 = Val true ->
  provider s = Answer r :: rest ->
  quota_of r = Val (remaining, n, reset) ->
  n < 5 ->
  as_int reset = Val T ->
  check_rate_limit s =
  let wait_time := T - clock s + 10 in
  let '(out, s', evs) := time_sleep wait_time (State remaining (clock s) rest) in
  (out, s',
   [Print NearLimit; Get [Lit base_url; Lit "/rate_limit"] [];
    Print (WaitingForReset wait_time)] ++ evs).
Proof.
  intros Hlow Hp Hq Hn HT.
  unfold quota_of in Hq.
  destruct (body r) as [data |] eqn:Hb; [| discriminate].
  destruct (subscript data "rate") as [rate | ] eqn:Hrate; [| discriminate].
  destruct (subscript rate "remaining") as [rem |] eqn:Hrem; [| discriminate].
  destruct (subscript rate "reset") as [rst |] eqn:Hrst; [| discriminate].
  destruct (as_int rem) as [k |] eqn:Hk; [| discriminate].
  injection Hq as -> -> ->.
  unfold check_rate_limit, bind, get_remaining, lift, print, emit,
    requests_get, response_json, set_remaining, time_time, ret.
  rewrite Hlow, Hp, Hb. cbn -[time_sleep]. rewrite Hrate. cbn -[time_sleep].
  rewrite Hrem. cbn -[time_sleep]. rewrite Hrst. cbn -[time_sleep].
  unfold lt_int, sub_int. rewrite Hk, HT.
  rewrite (proj2 (Z.ltb_lt n 5) Hn). cbn -[time_sleep].
  destruct (time_sleep _ _) as [[out s'] evs]. reflexivity.
Qed.

(** C4 (as the code has it): when the last-known quota is below 10 and
    the quota-status request fails (no response, a body that is not JSON,
    a missing [rate], [remaining] or [reset], a [remaining] that is not a
    number), [check_rate_limit] has no handler: the exception reaches the
    caller, and nothing was slept. *)
Theorem check_rate_limit_propagates_failure (s : state) :
  lt_int (rate_limit_remaining s) 10 = Val true ->
  quota_request_fails s ->
  exists e s' evs,
    check_rate_limit s = (Exc e, s', evs) /\ sleeps evs = [] /\ requests evs = 1%nat.
Proof.
  intros Hlow Hfail. unfold quota_request_fails in Hfail.
  unfold check_rate_limit, bind, get_remaining, lift, print, emit,
    requests_get, response_json, set_remaining, time_time, ret, raise.
  rewrite Hlow.
  destruct (provider s) as [| [r |] rest] eqn:Hp.
  - cbn. eexists _, _, _. repeat split.
  - destruct Hfail as [e He]. unfold quota_of in He. cbn.
    destruct (body r) as [data |] eqn:Hb; cbn;
      [| eexists _, _, _; repeat split].
    destruct (subscript data "rate") as [rate |] eqn:Hrate; cbn;
      [| eexists _, _, _; repeat split].
    destruct (subscript rate "remaining") as [rem |] eqn:Hrem; cbn;
      [| eexists _, _, _; repeat split].
    destruct (subscript rate "reset") as [rst |] eqn:Hrst; cbn;
      [| eexists _, _, _; repeat split].
    unfold lt_int.
    destruct (as_int rem) as [k |] eqn:Hk; [discriminate |].
    eexists _, _, _; repeat split.
  - cbn. eexists _, _, _. repeat split.
Qed.

Lemma check_rate_limit_propagates_failure_witness :
  exists e s' evs,
    check_rate_limit (State (JInt 3) 1700000000 [NoAnswer]) = (Exc e, s', evs)
    /\ sleeps evs = [] /\ requests evs = 1%nat.
Proof.
  apply check_rate_limit_propagates_failure.
  - reflexivity.
  - exact I.
Defined.

(** C4 (as stated) fails: with the quota at 3 and a provider that does
    not answer, the call raises [ConnectionError] instead of returning. *)
Lemma check_rate_limit_not_fail_open :
  ~ (forall s : state,
       lt_int (rate_limit_remaining s) 10 = Val true ->
       quota_request_fails s ->
       exists s' evs, check_rate_limit s = (Val tt, s', evs)).
Proof.
  intros H.
  destruct (H (State (JInt 3) 1700000000 [NoAnswer]) eq_refl I)
    as (s' & evs & E).
  vm_compute in E. discriminate E.
Qed.



(** What that call does: it returns after one sleep of 60 seconds. *)
Lemma check_rate_limit_blocks_sixty_seconds :
  check_rate_limit
    (State (JInt 9) 1700000000 [Answer (Mock.quota_status 2 1700000050)])
  = (Val tt, State (JInt 2) 1700000060 [],
     [Print NearLimit; Get [Lit base_url; Lit "/rate_limit"] [];
      Print (WaitingForReset 60); Sleep 60]).
Proof. reflexivity. Qed.

(** A reset time that [time.sleep] cannot wait for: the call raises
    [OverflowError] and nothing is slept. *)
Lemma check_rate_limit_far_reset_raises :
  check_rate_limit
    (State (JInt 9) 1700000000 [Answer (Mock.quota_status 2 1700000000000)])
  = (Exc OverflowError, State (JInt 2) 1700000000 [],
     [Print NearLimit; Get [Lit base_url; Lit "/rate_limit"] [];
      Print (WaitingForReset 1698300000010); Sleep 1698300000010]).
Proof. reflexivity. Qed.

(** C10: with the refreshed quota below 5 and a reset timestamp more
    than 10 seconds in the past, [time.sleep] is called with the negative
    length [reset - now + 10] and the call raises: [ValueError], or
    [OverflowError] when the length is beyond [sleep_max].  The wait is
    not clamped, and the clock is where it was. *)
Theorem check_rate_limit_negative_wait_raises (s : state) (r : response)
    (rest : list reply) (remaining reset : json) (n T : Z) :
  lt_int (rate_limit_remaining s) 10 = Val true ->
  provider s = Answer r :: rest ->
  quota_of r = Val (remaining, n, reset) ->
  n < 5 ->
  as_int reset = Val T ->
  T < clock s - 10 ->
  exists e s' evs,
    check_rate_limit s = (Exc e, s', evs)
    /\ e = (if T - clock s + 10 <? - sleep_max then OverflowError else ValueError)
    /\ sleeps evs = [T - clock s + 10]
    /\ T - clock s + 10 < 0
    /\ clock s' = clock s.
Proof.
  intros Hlow Hp Hq Hn HT Hpast.
  rewrite (check_rate_limit_critical s r rest remaining reset n T Hlow Hp Hq Hn HT).
  cbv zeta. unfold time_sleep.
  replace (sleep_max <? T - clock s + 10) with false
    by (symmetry; apply Z.ltb_ge; unfold sleep_max; lia).
  rewrite orb_false_r.
  replace (T - clock s + 10 <? 0) with true by (symmetry; apply Z.ltb_lt; lia).
  destruct (T - clock s + 10 <? - sleep_max);
    eexists _, _, _; (split; [reflexivity |]); cbn; repeat split; lia.
Qed.

Lemma check_rate_limit_negative_wait_raises_witness :
  exists e s' evs,
    check_rate_limit
      (State (JInt 9) 1700000000 [Answer (Mock.quota_status 2 1699999000)])
    = (Exc e, s', evs)
    /\ e = (if 1699999000 - 1700000000 + 10 <? - sleep_max
            then OverflowError else ValueError)
    /\ sleeps evs = [1699999000 - 1700000000 + 10]
    /\ 1699999000 - 1700000000 + 10 < 0
    /\ clock s' = 1700000000.
Proof.
  apply (check_rate_limit_negative_wait_raises
           (State (JInt 9) 1700000000 [Answer (Mock.quota_status 2 1699999000)])
           (Mock.quota_status 2 1699999000) [] (JInt 2) (JInt 1699999000) 2
           1699999000); reflexivity.
Defined.

(** What that call does: [ValueError], from a sleep of -990 seconds. *)
Lemma check_rate_limit_stale_reset_raises :
  check_rate_limit
    (State (JInt 9) 1700000000 [Answer (Mock.quota_status 2 1699999000)])
  = (Exc ValueError, State (JInt 2) 1700000000 [],
     [Print NearLimit; Get [Lit base_url; Lit "/rate_limit"] [];
      Print (WaitingForReset (-990)); Sleep (-990)]).
Proof. reflexivity. Qed.

End GovernorFacts.

(** ** Properties of the Search Client: [search_specific_files_in_repo] *)

Module SearchFacts.
Import Py Env Miner Observe.

Section Platform.

Variable int_of_str : string -> option Z.
Variable os : system.

Local Abbreviation search_attempts :=
  (Miner.search_attempts int_of_str os).
Local Abbreviation search_specific_files_in_repo :=
  (Miner.search_specific_files_in_repo int_of_str os).

Lemma header_int_value (r : response) (name : string) (n : Z) (s : state) :
  header_value int_of_str r name = Some n ->
  header_int int_of_str r name s = (Val n, s, []).
Proof.
  unfold header_value, header_int. intros H.
  destruct (header (headers r) name) as [v |].
  - rewrite H. reflexivity.
  - injection H as <-. reflexivity.
Qed.


(** The backoff before another attempt is at most 60 seconds. *)
Lemma backoff_fits (attempt : Z) :
  (attempt <? max_retries - 1) = true -> 0 <= 2 ^ attempt * 30 <= sleep_max.
Proof.
  intros H. apply Z.ltb_lt in H. unfold max_retries in H.
  assert (Hcase : attempt < 0 \/ attempt = 0 \/ attempt = 1) by lia.
  destruct Hcase as [Hneg | [-> | ->]].
  - rewrite Z.pow_neg_r by exact Hneg. unfold sleep_max. lia.
  - unfold sleep_max. cbn. lia.
  - unfold sleep_max. cbn. lia.
Qed.

(** One other failure with a JSON body: the backoff and the attempts that
    are left, or the empty list on the last attempt. *)
Lemma search_attempts_other_failure (repo : json) (filename : string)
    (url : fstring) (params : list (string * fstring)) (attempt : Z)
    (more : list Z) (s : state) (r : response) (rest : list reply) (data : json) :
  provider s = Answer r :: rest ->
  other_failure r = true ->
  body r = Some data ->
  search_attempts repo filename url params (attempt :: more) s =
  let failed :=
    [Get url params; Print (FileSearchError filename repo (status_code r));
     Print (Dump data)] in
  if attempt <? max_retries - 1 then
    let wait_time := 2 ^ attempt * 30 in
    let '(out, s', evs) :=
      search_attempts repo filename url params more
        (State (rate_limit_remaining s) (clock s + wait_time) rest) in
    (out, s',
     failed ++ [Print (AttemptFailed (attempt + 1) max_retries wait_time);
                Sleep wait_time] ++ evs)
  else (Val (JList []), State (rate_limit_remaining s) (clock s) rest, failed).
Proof.
  intros Hp Hf Hb. unfold other_failure in Hf.
  apply andb_true_iff in Hf as [H200 H403].
  apply negb_true_iff in H200, H403.
  cbn [Miner.search_attempts].
  unfold bind at 1. unfold requests_get at 1. rewrite Hp, H200, H403.
  unfold bind at 1, print at 1, emit at 1.
  unfold bind at 1, response_json at 1. rewrite Hb. unfold ret at 1.
  unfold bind at 1, print at 1, emit at 1.
  cbv zeta.
  destruct (attempt <? max_retries - 1) eqn:Hmore.
  - unfold bind at 1, print at 1, emit at 1.
    unfold bind at 1.
    rewrite GovernorFacts.time_sleep_sleeps by (apply backoff_fits; exact Hmore).
    cbn [clock rate_limit_remaining provider].
    destruct (Miner.search_attempts _ _ _ _ _ _ _ _) as [[out s'] evs].
    reflexivity.
  - reflexivity.
Qed.


(** The attempts of one call are 0, 1 and 2. *)
Lemma search_specific_unfold (repo : json) (filename : string) (s s1 : state)
    (evs0 : list event) :
  check_rate_limit s = (Val tt, s1, evs0) ->
  exists url params,
    search_specific_files_in_repo repo filename s =
    let '(out, s', evs) :=
      search_attempts repo filename url params [0; 1; 2] s1 in
    (out, s', evs0 ++ evs).
Proof.
  intros Hg. unfold Miner.search_specific_files_in_repo.
  eexists _, _. unfold bind at 1. rewrite Hg.
  change (range 0 max_retries) with [0; 1; 2]. reflexivity.
Qed.


(** Where the backoff works: once the governor has let the call
    through, three failures that are not the quota signal and whose bodies
    are JSON make exactly 3 requests, with sleeps of 30 and 60 seconds
    between them and none after the last (the run ends on the [print] of
    the third body), and the call returns the empty list. *)
Theorem other_failures_exhaust_attempts (repo : json) (filename : string)
    (s s1 : state) (evs0 : list event) (r0 r1 r2 : response)
    (rest : list reply) (d0 d1 d2 : json) :
  check_rate_limit s = (Val tt, s1, evs0) ->
  provider s1 = Answer r0 :: Answer r1 :: Answer r2 :: rest ->
  other_failure r0 = true -> other_failure r1 = true ->
  other_failure r2 = true ->
  body r0 = Some d0 -> body r1 = Some d1 -> body r2 = Some d2 ->
  exists evs,
    search_specific_files_in_repo repo filename s =
      (Val (JList []),
       State (rate_limit_remaining s1) (clock s1 + 30 + 60) rest,
       evs0 ++ evs)
    /\ requests evs = 3%nat
    /\ sleeps evs = [30 * 2 ^ 0; 30 * 2 ^ 1]
    /\ (exists before, evs = before ++ [Print (Dump d2)]).
Proof.
  intros Hg Hp Hf0 Hf1 Hf2 Hb0 Hb1 Hb2.
  destruct (search_specific_unfold repo filename s s1 evs0 Hg)
    as (url & params & ->).
  rewrite (search_attempts_other_failure repo filename url params 0 [1; 2]
             s1 r0 _ d0 Hp Hf0 Hb0).
  cbv zeta. change (0 <? max_retries - 1) with true. cbv iota.
  erewrite (search_attempts_other_failure repo filename url params 1 [2]
              _ r1 _ d1); [| reflexivity | assumption ..].
  cbv zeta. change (1 <? max_retries - 1) with true. cbv iota.
  erewrite (search_attempts_other_failure repo filename url params 2 []
              _ r2 _ d2); [| reflexivity | assumption ..].
  cbv zeta. change (2 <? max_retries - 1) with false. cbv iota.
  cbn [clock rate_limit_remaining].
  change (2 ^ 0 * 30) with 30. change (2 ^ 1 * 30) with 60.
  eexists. split; [reflexivity |]. split; [reflexivity |].
  split; [reflexivity |].
  exists [Get url params; Print (FileSearchError filename repo (status_code r0));
          Print (Dump d0); Print (AttemptFailed (0 + 1) max_retries 30);
          Sleep 30;
          Get url params; Print (FileSearchError filename repo (status_code r1));
          Print (Dump d1); Print (AttemptFailed (1 + 1) max_retries 60);
          Sleep 60;
          Get url params; Print (FileSearchError filename repo (status_code r2))].
  reflexivity.
Qed.

End Platform.



Lemma other_failures_exhaust_attempts_witness :
  let s := State (JInt 1000) 1700000000
             [Answer Mock.server_error; Answer Mock.server_error;
              Answer Mock.server_error] in
  exists evs,
    search_specific_files_in_repo Mock.int_of_decimal Mock.os
      (JStr "acme/app") "requirements.txt" s =
      (Val (JList []), State (JInt 1000) (1700000000 + 30 + 60) [], [] ++ evs)
    /\ requests evs = 3%nat
    /\ sleeps evs = [30 * 2 ^ 0; 30 * 2 ^ 1]
    /\ (exists before,
          evs = before ++ [Print (Dump (JDict [("message", JStr "Server Error")]))]).
Proof.
  intros s.
  apply (other_failures_exhaust_attempts Mock.int_of_decimal Mock.os
           (JStr "acme/app") "requirements.txt" s s []
           Mock.server_error Mock.server_error Mock.server_error []
           (JDict [("message", JStr "Server Error")])
           (JDict [("message", JStr "Server Error")])
           (JDict [("message", JStr "Server Error")])); reflexivity.
Defined.

(** Three attempts with their backoff are not what every run of
    failures gets: there is a provider for which the call does not return
    the empty list after 3 requests. *)
Lemma other_failures_may_raise :
  ~ (forall (s : state) (r0 r1 r2 : response) (rest : list reply),
       lt_int (rate_limit_remaining s) 10 = Val false ->
       provider s = Answer r0 :: Answer r1 :: Answer r2 :: rest ->
       other_failure r0 = true -> other_failure r1 = true ->
       other_failure r2 = true ->
       exists s' evs,
         search_specific_files_in_repo Mock.int_of_decimal Mock.os
           (JStr "acme/app") "requirements.txt" s
         = (Val (JList []), s', evs)
         /\ requests evs = 3%nat
         /\ sleeps evs = [30 * 2 ^ 0; 30 * 2 ^ 1]).
Proof.
  intros H.
  destruct (H (State (JInt 1000) 1700000000
                 [Answer Mock.bad_gateway; Answer Mock.bad_gateway;
                  Answer Mock.bad_gateway])
              Mock.bad_gateway Mock.bad_gateway Mock.bad_gateway []
              eq_refl eq_refl eq_refl eq_refl eq_refl)
    as (s' & evs & E & _).
  vm_compute in E. discriminate E.
Qed.

(** C7 (what the code does): three 502 responses that are not the quota
    signal, with a proxy's HTML page as body.  The branch that is there to
    back off and try again prints [response.json()] first: the call raises
    [JSONDecodeError] on the first attempt, after one request and no sleep,
    with two replies unread, instead of making 3 attempts and returning the
    empty list. *)
Theorem bad_gateway_raises :
  other_failure Mock.bad_gateway = true
  /\ search_specific_files_in_repo Mock.int_of_decimal Mock.os
       (JStr "acme/app") "requirements.txt"
       (State (JInt 1000) 1700000000
          [Answer Mock.bad_gateway; Answer Mock.bad_gateway;
           Answer Mock.bad_gateway])
     = (Exc JSONDecodeError,
        State (JInt 1000) 1700000000
          [Answer Mock.bad_gateway; Answer Mock.bad_gateway],
        [Get [Lit base_url; Lit "/search/code"]
           [("q", [Lit "filename:"; Lit "requirements.txt"; Lit " repo:";
                   Hole (JStr "acme/app")]);
            ("per_page", [Hole (JInt 100)])];
         Print (FileSearchError "requirements.txt" (JStr "acme/app") 502)]).
Proof. split; reflexivity. Qed.

(** The sibling failure path, in [check_file_content_for_text], does not
    read the body: the same response gives false there. *)
Lemma bad_gateway_content_is_false :
  fst (fst (check_file_content_for_text Mock.int_of_decimal ascii_lower
              (JStr "acme/app") (JStr "requirements.txt") "transitions"
              (State (JInt 1000) 1700000000 [Answer Mock.bad_gateway])))
  = Val false.
Proof. reflexivity. Qed.

(** A reset time further ahead than [time.sleep] takes, or one that is
    not a date: the quota branch raises on that attempt. *)
Lemma quota_exceeded_far_reset_raises :
  search_specific_files_in_repo Mock.int_of_decimal Mock.os
    (JStr "acme/app") "requirements.txt"
    (State (JInt 1000) 1700000000 [Answer (Mock.rate_limited "20000000000")])
  = (Exc OverflowError, State (JInt 1000) 1700000000 [],
     [Get [Lit base_url; Lit "/search/code"]
        [("q", [Lit "filename:"; Lit "requirements.txt"; Lit " repo:";
                Hole (JStr "acme/app")]);
         ("per_page", [Hole (JInt 100)])];
      Print (LimitExceeded 18300000010); Print (ResetTime 20000000000);
      Sleep 18300000010]).
Proof. reflexivity. Qed.

Lemma quota_exceeded_reset_not_a_date_raises :
  search_specific_files_in_repo Mock.int_of_decimal Mock.os
    (JStr "acme/app") "requirements.txt"
    (State (JInt 1000) 1700000000 [Answer (Mock.rate_limited "999999999999")])
  = (Exc ValueError, State (JInt 1000) 1700000000 [],
     [Get [Lit base_url; Lit "/search/code"]
        [("q", [Lit "filename:"; Lit "requirements.txt"; Lit " repo:";
                Hole (JStr "acme/app")]);
         ("per_page", [Hole (JInt 100)])];
      Print (LimitExceeded 998300000009)]).
Proof. reflexivity. Qed.

End SearchFacts.

(** ** Properties of the Content Verifier: [check_file_content_for_text] *)

Module ContentFacts.
Import Py Env Miner Observe.

Section Platform.

Variable int_of_str : string -> option Z.
Variable str_lower : string -> string.

(** On ASCII text [str.lower] maps A-Z to a-z and nothing else. *)
Hypothesis str_lower_ascii :
  forall s, is_ascii s = true -> str_lower s = ascii_lower s.

Local Abbreviation check_file_content_for_text :=
  (Miner.check_file_content_for_text int_of_str str_lower).

Lemma content_has_text_decoded (data : json) (needle : string) :
  content_has_text str_lower data needle =
  match decoded_content data with
  | Val content => Val (contains (str_lower content) (str_lower needle))
  | Exc e => Exc e
  end.
Proof.
  unfold content_has_text, decoded_content.
  destruct (subscript data "content") as [encoded |]; [| reflexivity].
  destruct (b64decode encoded) as [raw |]; [| reflexivity].
  destruct (decode_utf8 raw); reflexivity.
Qed.

(** C9 (as the code has it): on a response with status 200, a quota
    header that reads as a number and a JSON body that [in] can search (an
    object, an array or a string), the verifier returns and does not
    raise; it returns false when the body has no [content], false when the
    base64 or UTF-8 decoding fails, and otherwise whether the lower-cased
    needle occurs in the lower-cased text.  The content
    [dHJhbnNpdGlvbnM=] with needle [transitions] gives true. *)
Theorem check_file_content_for_text_verdict (repo file_path : json)
    (needle : string) (s s1 : state) (evs0 : list event) (r : response)
    (rest : list reply) (n : Z) (data : json) (present : bool) :
  check_rate_limit s = (Val tt, s1, evs0) ->
  provider s1 = Answer r :: rest ->
  status_code r = 200 ->
  header_value int_of_str r "X-RateLimit-Remaining" = Some n ->
  body r = Some data ->
  str_in "content" data = Val present ->
  exists verdict evs,
    check_file_content_for_text repo file_path needle s =
      (Val verdict, State (JInt n) (clock s1) rest, evs0 ++ evs)
    /\ (present = false -> verdict = false)
    /\ (forall e, decoded_content data = Exc e -> verdict = false)
    /\ (forall content,
          present = true ->
          decoded_content data = Val content ->
          verdict = contains (str_lower content) (str_lower needle))
    /\ (data = JDict [("content", JStr "dHJhbnNpdGlvbnM=")] ->
        needle = "transitions" -> verdict = true).
Proof.
  intros Hg Hp H200 Hn Hb Hin.
  unfold Miner.check_file_content_for_text.
  unfold bind at 1. rewrite Hg.
  unfold bind at 1, requests_get at 1. rewrite Hp, H200.
  change (negb (200 =? 200)) with false. cbv iota.
  unfold bind at 1.
  rewrite (SearchFacts.header_int_value int_of_str _ _ _ _ Hn).
  unfold bind at 1, set_remaining at 1. cbn [clock provider rate_limit_remaining].
  unfold bind at 1, response_json at 1. rewrite Hb. unfold ret at 1.
  unfold bind at 1. rewrite Hin. unfold lift at 1, ret at 1.
  destruct present.
  - cbn [negb]. rewrite content_has_text_decoded.
    destruct (decoded_content data) as [content | e] eqn:Hd.
    + eexists _, _. split; [reflexivity |]. repeat split.
      * discriminate.
      * intros e He. discriminate He.
      * intros c _ Hc. injection Hc as <-. reflexivity.
      * intros -> ->. vm_compute in Hd. injection Hd as <-.
        rewrite !str_lower_ascii by reflexivity. reflexivity.
    + eexists _, _. unfold bind, print, emit, ret.
      split; [reflexivity |]. repeat split.
      * intros c _ Hc. discriminate Hc.
      * intros -> _. vm_compute in Hd. discriminate Hd.
  - cbn [negb]. eexists _, _. unfold ret. split; [reflexivity |].
    repeat split.
    + intros c Hc. discriminate Hc.
    + intros -> _. vm_compute in Hin. discriminate Hin.
Qed.

End Platform.

Lemma check_file_content_for_text_verdict_witness :
  let s := State (JInt 1000) 1700000000
             [Answer (Mock.file_content "dHJhbnNpdGlvbnM=")] in
  let data := JDict [("content", JStr "dHJhbnNpdGlvbnM=")] in
  exists verdict evs,
    check_file_content_for_text Mock.int_of_decimal ascii_lower
      (JStr "acme/app") (JStr "requirements.txt") "transitions" s =
      (Val verdict, State (JInt 4999) 1700000000 [], [] ++ evs)
    /\ (true = false -> verdict = false)
    /\ (forall e, decoded_content data = Exc e -> verdict = false)
    /\ (forall content,
          true = true ->
          decoded_content data = Val content ->
          verdict = contains (ascii_lower content) (ascii_lower "transitions"))
    /\ (data = JDict [("content", JStr "dHJhbnNpdGlvbnM=")] ->
        "transitions" = "transitions" -> verdict = true).
Proof.
  intros s data.
  apply (check_file_content_for_text_verdict Mock.int_of_decimal ascii_lower
           (fun s _ => eq_refl) (JStr "acme/app") (JStr "requirements.txt")
           "transitions" s s [] (Mock.file_content "dHJhbnNpdGlvbnM=") []
           4999 data true); reflexivity.
Defined.

(** C9 (as stated) fails: a response with status 200 whose body is not
    JSON has no [content] field, and the call raises instead of returning
    false: [response.json()] is read before the [try]. *)
Lemma successful_response_may_raise :
  ~ (forall (s : state) (r : response) (rest : list reply),
       lt_int (rate_limit_remaining s) 10 = Val false ->
       provider s = Answer r :: rest ->
       status_code r = 200 ->
       (forall data, body r = Some data -> str_in "content" data <> Val true) ->
       exists s' evs,
         check_file_content_for_text Mock.int_of_decimal ascii_lower
           (JStr "acme/app") (JStr "requirements.txt") "transitions" s
         = (Val false, s', evs)).
Proof.
  intros H.
  destruct (H (State (JInt 1000) 1700000000 [Answer Mock.login_page])
              Mock.login_page [] eq_refl eq_refl eq_refl)
    as (s' & evs & E).
  - intros data Hbody. discriminate Hbody.
  - vm_compute in E. discriminate E.
Qed.

(** What the call does there, and on a body that is JSON [null]. *)
Lemma login_page_raises :
  fst (fst (check_file_content_for_text Mock.int_of_decimal ascii_lower
              (JStr "acme/app") (JStr "requirements.txt") "transitions"
              (State (JInt 1000) 1700000000 [Answer Mock.login_page])))
  = Exc JSONDecodeError.
Proof. reflexivity. Qed.

Lemma unreadable_quota_header_raises :
  fst (fst (check_file_content_for_text Mock.int_of_decimal ascii_lower
              (JStr "acme/app") (JStr "requirements.txt") "transitions"
              (State (JInt 1000) 1700000000
                 [Answer (Response 200 [("X-RateLimit-Remaining", "many")]
                            EmptyString
                            (Some (JDict [("content", JStr "dHJhbnNpdGlvbnM=")])))])))
  = Exc ValueError.
Proof. reflexivity. Qed.

Lemma null_body_raises :
  fst (fst (check_file_content_for_text Mock.int_of_decimal ascii_lower
              (JStr "acme/app") (JStr "requirements.txt") "transitions"
              (State (JInt 1000) 1700000000
                 [Answer (Response 200 [] "null" (Some JNone))])))
  = Exc TypeError.
Proof. reflexivity. Qed.

End ContentFacts.

(** ** Properties of the Crawl Orchestrator *)

Module CrawlFacts.
Import Py Env Miner Observe.

(** *** Events of the leaves *)

Section Emits.

Context {P : event -> bool}.

Lemma emits_ret {A} (a : A) : emits_only P (ret a).
Proof. intros s. reflexivity. Qed.

Lemma emits_raise {A} (e : exn) : emits_only P (@raise A e).
Proof. intros s. reflexivity. Qed.

Lemma emits_lift {A} (r : res A) : emits_only P (lift r).
Proof. destruct r; [apply emits_ret | apply emits_raise]. Qed.

Lemma emits_bind {A B} (m : M A) (f : A -> M B) :
  emits_only P m -> (forall a, emits_only P (f a)) -> emits_only P (bind m f).
Proof.
  intros Hm Hf s. unfold bind. specialize (Hm s).
  destruct (m s) as [[[a | e] s1] e1]; cbn [snd] in *.
  - specialize (Hf a s1). destruct (f a s1) as [[r s2] e2]. cbn [snd] in *.
    rewrite forallb_app, Hm, Hf. reflexivity.
  - exact Hm.
Qed.

Lemma emits_emit (e : event) : P e = true -> emits_only P (emit e).
Proof. intros H s. cbn. now rewrite H. Qed.

Lemma emits_get_remaining : emits_only P get_remaining.
Proof. intros s. reflexivity. Qed.

Lemma emits_set_remaining (v : json) : emits_only P (set_remaining v).
Proof. intros s. reflexivity. Qed.

Lemma emits_time_time : emits_only P time_time.
Proof. intros s. reflexivity. Qed.

Lemma emits_time_sleep (d : Z) : P (Sleep d) = true -> emits_only P (time_sleep d).
Proof.
  intros H s. unfold time_sleep.
  destruct ((d <? - sleep_max) || (sleep_max <? d)); [cbn; now rewrite H |].
  destruct (d <? 0); cbn; now rewrite H.
Qed.

Lemma emits_requests_get (url : fstring) (params : list (string * fstring)) :
  P (Get url params) = true -> emits_only P (requests_get url params).
Proof.
  intros H s. unfold requests_get.
  destruct (provider s) as [| [r |] rest]; cbn; now rewrite H.
Qed.

Lemma emits_response_json (r : response) : emits_only P (response_json r).
Proof.
  unfold response_json. destruct (body r); [apply emits_ret | apply emits_raise].
Qed.

Lemma emits_header_int (int_of_str : string -> option Z) (r : response)
    (name : string) :
  emits_only P (header_int int_of_str r name).
Proof.
  unfold header_int. destruct (header (headers r) name) as [v |].
  - destruct (int_of_str v); [apply emits_ret | apply emits_raise].
  - apply emits_ret.
Qed.

Lemma emits_os_makedirs (os : system) (path : string) :
  P (MakeDirs path) = true -> emits_only P (os_makedirs os path).
Proof.
  intros H. unfold os_makedirs.
  destruct (makedirs_error os path); [apply emits_raise | now apply emits_emit].
Qed.

Lemma emits_json_dump_to (os : system) (path : string) (data : json) :
  P (WriteFile path data) = true -> emits_only P (json_dump_to os path data).
Proof.
  intros H. unfold json_dump_to.
  destruct (write_error os path); [apply emits_raise | now apply emits_emit].
Qed.

End Emits.

(** Steps through a computation whose events all pass the test at hand. *)
Ltac emits_step :=
  first
    [ apply emits_ret | apply emits_raise | apply emits_lift
    | apply emits_get_remaining | apply emits_set_remaining
    | apply emits_time_time | apply emits_response_json
    | apply emits_header_int
    | apply emits_time_sleep; reflexivity
    | apply emits_requests_get; reflexivity
    | apply emits_emit; reflexivity
    | apply emits_os_makedirs; reflexivity
    | apply emits_json_dump_to; reflexivity
    | apply emits_bind; [| intros ?]
    | match goal with
      | |- emits_only _ (if ?b then _ else _) => destruct b
      | |- emits_only _ (match ?x with _ => _ end) => destruct x
      end ].

(** *** Reading a run that returned *)

Lemma bind_Val {A B} (m : M A) (f : A -> M B) (s s' : state) (b : B)
    (evs : list event) :
  bind m f s = (Val b, s', evs) ->
  exists a s1 e1 e2,
    m s = (Val a, s1, e1) /\ f a s1 = (Val b, s', e2) /\ evs = e1 ++ e2.
Proof.
  unfold bind. intros H.
  destruct (m s) as [[[a | e] s1] e1]; [| discriminate].
  destruct (f a s1) as [[r s2] e2] eqn:Hf.
  injection H as -> -> <-. eexists _, _, _, _. repeat split. exact Hf.
Qed.

Lemma lift_Val {A} (r : res A) (s s' : state) (a : A) (evs : list event) :
  lift r s = (Val a, s', evs) -> r = Val a /\ s' = s /\ evs = [].
Proof.
  destruct r; cbn; intros H; [| discriminate].
  injection H as -> -> <-. repeat split.
Qed.

Lemma print_Val (m : message) (s s' : state) (u : unit) (evs : list event) :
  print m s = (Val u, s', evs) -> s' = s /\ evs = [Print m].
Proof. cbn. intros H. injection H as _ -> <-. split; reflexivity. Qed.

Lemma ret_Val {A} (a b : A) (s s' : state) (evs : list event) :
  ret a s = (Val b, s', evs) -> b = a /\ s' = s /\ evs = [].
Proof. cbn. intros H. injection H as -> -> <-. repeat split. Qed.

(** *** Reading the events of a run *)

Lemma examined_app (a b : list event) :
  examined (a ++ b) = examined a ++ examined b.
Proof.
  induction a as [| e a IH]; [reflexivity |].
  destruct e as [| | m | |]; cbn; try exact IH.
  destruct m; cbn; try exact IH. now rewrite IH.
Qed.

Lemma recorded_app (a b : list event) :
  recorded (a ++ b) = (recorded a + recorded b)%nat.
Proof.
  induction a as [| e a IH]; [reflexivity |].
  destruct e as [| | m | |]; cbn; try exact IH.
  destruct m; cbn; try exact IH. now rewrite IH.
Qed.

Lemma matched_app (cur : option json) (a b : list event) :
  matched cur (a ++ b) = matched cur a ++ matched (current cur a) b.
Proof.
  revert cur. induction a as [| e a IH]; intros cur; [reflexivity |].
  destruct e as [| | m | |]; cbn; try apply IH.
  destruct m; cbn; try apply IH.
  destruct cur; cbn; [now rewrite IH | apply IH].
Qed.

Lemma current_app (cur : option json) (a b : list event) :
  current cur (a ++ b) = current (current cur a) b.
Proof.
  revert cur. induction a as [| e a IH]; intros cur; [reflexivity |].
  destruct e as [| | m | |]; cbn; try apply IH.
  destruct m; cbn; apply IH.
Qed.

Lemma quiet_events (evs : list event) :
  forallb quiet evs = true -> examined evs = [] /\ recorded evs = O.
Proof.
  induction evs as [| e evs IH]; [split; reflexivity |].
  cbn [forallb]. intros H. apply andb_true_iff in H as [He H].
  destruct e as [| | m | |]; cbn; try (apply IH; exact H).
  destruct m; cbn in *; try (apply IH; exact H); discriminate.
Qed.

(** Within one examination the matches are all for its repository. *)
Lemma matched_within (name : json) (evs : list event) :
  examined evs = [] ->
  matched (Some name) evs = repeat name (recorded evs)
  /\ (forall cur, current cur evs = cur).
Proof.
  induction evs as [| e evs IH]; [split; reflexivity |].
  destruct e as [| | m | |]; cbn; try exact IH.
  destruct m; cbn; try exact IH.
  - discriminate.
  - intros H. destruct (IH H) as [-> Hc]. split; [reflexivity | exact Hc].
Qed.

Lemma matched_quiet (cur : option json) (evs : list event) :
  examined evs = [] -> recorded evs = O ->
  matched cur evs = [] /\ current cur evs = cur.
Proof.
  revert cur. induction evs as [| e evs IH]; intros cur; [split; reflexivity |].
  destruct e as [| | m | |]; cbn; try apply IH.
  destruct m; cbn; try apply IH; discriminate.
Qed.

Section Platform.

Variable int_of_str : string -> option Z.
Variable str_lower : string -> string.
Variable os : system.

Lemma quiet_check_rate_limit : emits_only quiet check_rate_limit.
Proof. unfold check_rate_limit, print. repeat emits_step. Qed.

Lemma quiet_search_python_repos (query : string) (page per_page : Z) :
  emits_only quiet (search_python_repos int_of_str query page per_page).
Proof.
  unfold search_python_repos, print.
  apply emits_bind; [apply quiet_check_rate_limit | intros _].
  repeat emits_step.
Qed.

Lemma quiet_search_attempts (repo : json) (filename : string) (url : fstring)
    (params : list (string * fstring)) (attempts : list Z) :
  emits_only quiet
    (search_attempts int_of_str os repo filename url params attempts).
Proof.
  induction attempts as [| attempt rest IH]; cbn [search_attempts].
  - apply emits_ret.
  - unfold print.
    repeat first [ apply IH | emits_step ].
Qed.

Lemma quiet_search_specific_files_in_repo (repo : json) (filename : string) :
  emits_only quiet
    (search_specific_files_in_repo int_of_str os repo filename).
Proof.
  unfold search_specific_files_in_repo.
  apply emits_bind; [apply quiet_check_rate_limit | intros _].
  apply quiet_search_attempts.
Qed.

Lemma quiet_check_file_content_for_text (repo file_path : json) (needle : string) :
  emits_only quiet
    (check_file_content_for_text int_of_str str_lower repo file_path needle).
Proof.
  unfold check_file_content_for_text, print.
  apply emits_bind; [apply quiet_check_rate_limit | intros _].
  repeat emits_step.
Qed.

(** *** One examination *)

Lemma matches_of_append (c : category) (d : repo_data) (m : file_match) :
  List.length (matches_of (append_match c d m)) = S (List.length (matches_of d)).
Proof.
  unfold matches_of. destruct c; cbn; rewrite !length_app; cbn; lia.
Qed.

Lemma record_matches_events (repo : json) (c : category) (files : list json)
    (acc acc' : repo_data * bool) (n : nat) (s s' : state) (evs : list event) :
  agree acc n ->
  record_matches int_of_str str_lower repo c files acc s = (Val acc', s', evs) ->
  examined evs = [] /\ agree acc' (n + recorded evs).
Proof.
  revert acc n s evs.
  induction files as [| file rest IH]; intros acc n s evs Hn H;
    cbn [record_matches] in H.
  - apply ret_Val in H as (-> & -> & ->). cbn. rewrite Nat.add_0_r. now split.
  - apply bind_Val in H as (file_path & s1 & e1 & e2 & H1 & H & ->).
    apply lift_Val in H1 as (_ & -> & ->).
    apply bind_Val in H as (hit & s2 & e3 & e4 & Hc & H & ->).
    pose proof (quiet_check_file_content_for_text repo file_path "transitions" s)
      as Q.
    rewrite Hc in Q. cbn [snd] in Q. apply quiet_events in Q as [Qe Qr].
    cbn [app]. rewrite examined_app, recorded_app, Qe, Qr. cbn [app Nat.add].
    destruct hit.
    + apply bind_Val in H as (u & s3 & e5 & e6 & Hp & H & ->).
      apply print_Val in Hp as (-> & ->).
      apply bind_Val in H as (name & s4 & e7 & e8 & H1 & H & ->).
      apply lift_Val in H1 as (_ & -> & ->).
      apply bind_Val in H as (url & s5 & e9 & e10 & H1 & H & ->).
      apply lift_Val in H1 as (_ & -> & ->).
      apply IH with (n := S n) in H.
      * destruct H as [He Ha]. cbn. split; [exact He |].
        now rewrite Nat.add_succ_r.
      * split; cbn [fst snd].
        -- rewrite matches_of_append. now rewrite (proj1 Hn).
        -- reflexivity.
    + apply IH with (n := n) in H; [exact H | exact Hn].
Qed.

Lemma scan_pattern_events (repo : json) (pattern : string) (c : category)
    (acc acc' : repo_data * bool) (n : nat) (s s' : state) (evs : list event) :
  agree acc n ->
  scan_pattern int_of_str str_lower os repo pattern c acc s
    = (Val acc', s', evs) ->
  examined evs = [] /\ agree acc' (n + recorded evs).
Proof.
  intros Hn H. unfold scan_pattern in H.
  apply bind_Val in H as (found_files & s1 & e1 & e2 & Hs & H & ->).
  apply bind_Val in H as (files & s2 & e3 & e4 & H1 & H & ->).
  apply lift_Val in H1 as (_ & -> & ->).
  pose proof (quiet_search_specific_files_in_repo repo pattern s) as Q.
  rewrite Hs in Q. cbn [snd] in Q. apply quiet_events in Q as [Qe Qr].
  apply (record_matches_events _ _ _ _ _ n) in H; [| exact Hn].
  cbn [app]. rewrite examined_app, recorded_app, Qe, Qr. exact H.
Qed.

(** One examination prints [Checking] once, with the counter it has just
    incremented, and stores the repository exactly when it recorded a
    match. *)
Lemma examine_repo_events (max_repos : Z) (repo repo_name : json)
    (p p' : progress) (s s' : state) (evs : list event) :
  examine_repo int_of_str str_lower os max_repos repo repo_name p s
    = (Val p', s', evs) ->
  exists rest,
    evs = Print (Checking (repos_checked p + 1) max_repos repo_name) :: rest
    /\ examined rest = []
    /\ repos_checked p' = repos_checked p + 1
    /\ ((recorded rest = O /\ found p' = found p)
        \/ (recorded rest <> O
            /\ exists d, found p' = found p ++ [(repo_name, d)]
                         /\ matches_of d <> [])).
Proof.
  intros H. unfold examine_repo in H.
  apply bind_Val in H as (u & s1 & e1 & e2 & Hp & H & ->).
  apply print_Val in Hp as (-> & ->).
  apply bind_Val in H as (html_url & s2 & e3 & e4 & H1 & H & ->).
  apply lift_Val in H1 as (_ & -> & ->).
  apply bind_Val in H as (stargazers & s3 & e5 & e6 & H1 & H & ->).
  apply lift_Val in H1 as (_ & -> & ->).
  apply bind_Val in H as (descr & s4 & e7 & e8 & H1 & H & ->).
  apply lift_Val in H1 as (_ & -> & ->).
  apply bind_Val in H as (acc1 & s5 & e9 & e10 & Hs1 & H & ->).
  apply bind_Val in H as (acc2 & s6 & e11 & e12 & Hs2 & H & ->).
  apply bind_Val in H as (acc3 & s7 & e13 & e14 & Hs3 & H & ->).
  apply (scan_pattern_events _ _ _ _ _ O) in Hs1 as [E1 A1];
    [| split; reflexivity].
  apply (scan_pattern_events _ _ _ _ _ _ _ _ _ A1) in Hs2 as [E2 A2].
  apply (scan_pattern_events _ _ _ _ _ _ _ _ _ A2) in Hs3 as [E3 A3].
  eexists. split; [reflexivity |].
  assert (Hrec : recorded (e9 ++ e11 ++ e13 ++ e14)
                 = (recorded e9 + recorded e11 + recorded e13 + recorded e14)%nat)
    by (rewrite !recorded_app; lia).
  assert (Hex : examined (e9 ++ e11 ++ e13 ++ e14) = examined e14)
    by (rewrite !examined_app, E1, E2, E3; reflexivity).
  cbn [app]. rewrite Hex, Hrec.
  destruct A3 as [Hlen Hflag]. cbn [Nat.add] in Hlen, Hflag.
  destruct (snd acc3) eqn:Hfound.
  - apply ret_Val in H as (-> & -> & ->). cbn [examined recorded found repos_checked].
    repeat split. right.
    symmetry in Hflag. apply negb_true_iff, Nat.eqb_neq in Hflag.
    split; [lia |]. exists (fst acc3). split; [reflexivity |].
    intros E. rewrite E in Hlen. cbn in Hlen. lia.
  - apply ret_Val in H as (-> & -> & ->). cbn [examined recorded found repos_checked].
    repeat split. left.
    symmetry in Hflag. apply negb_false_iff, Nat.eqb_eq in Hflag.
    split; [lia | reflexivity].
Qed.

(** *** The loops *)

Definition run_inv (max_repos : Z) (p : progress) (evs : list event) : Prop :=
  keys_are_matched (found p) evs /\ counts_examinations max_repos p evs.

Lemma run_inv_quiet (max_repos : Z) (p : progress) (pre evs : list event) :
  forallb quiet evs = true ->
  run_inv max_repos p pre -> run_inv max_repos p (pre ++ evs).
Proof.
  intros Q [[Hk Hd] [Hc Hb]]. apply quiet_events in Q as [Qe Qr].
  destruct (matched_quiet (current None pre) evs Qe Qr) as [Qm _].
  repeat split; try assumption.
  - rewrite matched_app, Qm, app_nil_r. apply Hk.
  - rewrite matched_app, Qm, app_nil_r. apply Hk.
  - rewrite examined_app, Qe, app_nil_r. exact Hc.
  - apply Hb.
  - apply Hb.
Qed.

Lemma has_key_insert_new (rs : results) (name k : json) (d : repo_data) :
  has_key (insert_new rs name d) k = has_key rs k || key_eqb name k.
Proof.
  unfold has_key, insert_new. rewrite existsb_app. cbn. now rewrite orb_false_r.
Qed.

Lemma range_snoc (c : Z) :
  0 <= c -> range 1 (c + 1 + 1) = range 1 (c + 1) ++ [c + 1].
Proof.
  intros Hc. unfold range.
  replace (c + 1 + 1 - 1) with (Z.succ c) by lia.
  replace (c + 1 - 1) with c by lia.
  rewrite Z2Nat.inj_succ by lia. rewrite seq_S, map_app. cbn [map Nat.add].
  f_equal. f_equal. lia.
Qed.

Lemma run_inv_examine (max_repos : Z) (repo repo_name : json) (p p' : progress)
    (s s' : state) (pre evs : list event) :
  repos_checked p < max_repos ->
  run_inv max_repos p pre ->
  examine_repo int_of_str str_lower os max_repos repo repo_name p s
    = (Val p', s', evs) ->
  run_inv max_repos p' (pre ++ evs).
Proof.
  intros Hlt [[Hk Hd] [Hc Hb]] H.
  apply examine_repo_events in H as (rest & -> & He & Hn & Hcase).
  destruct (matched_within repo_name rest He) as [Hm _].
  assert (Hmatched : matched None (pre ++ Print (Checking (repos_checked p + 1)
                                      max_repos repo_name) :: rest)
                     = matched None pre ++ repeat repo_name (recorded rest)).
  { rewrite matched_app. cbn [matched]. now rewrite Hm. }
  split; [split |].
  - intros k. rewrite Hmatched.
    destruct Hcase as [[Hz Hf] | [Hnz (d & Hf & _)]]; rewrite Hf.
    + rewrite Hz. cbn [repeat]. rewrite app_nil_r. apply Hk.
    + change (found p ++ [(repo_name, d)]) with (insert_new (found p) repo_name d).
      rewrite has_key_insert_new, orb_true_iff, Hk. split.
      * intros [(k' & Hin & Heq) | Heq].
        -- exists k'. split; [apply in_or_app; now left | exact Heq].
        -- exists repo_name. split; [| exact Heq].
           apply in_or_app. right.
           destruct (recorded rest); [congruence | now left].
      * intros (k' & Hin & Heq). apply in_app_or in Hin as [Hin | Hin].
        -- left. now exists k'.
        -- right. apply repeat_spec in Hin. now subst k'.
  - intros k d Hin.
    destruct Hcase as [[Hz Hf] | [Hnz (d' & Hf & Hd')]]; rewrite Hf in Hin.
    + now apply (Hd k).
    + apply in_app_or in Hin as [Hin | [Hin | []]].
      * now apply (Hd k).
      * injection Hin as _ <-. exact Hd'.
  - split.
    + rewrite examined_app. cbn [examined]. rewrite He, map_app, Hc, Hn. cbn [map fst].
      symmetry. apply range_snoc. lia.
    + rewrite Hn. lia.
Qed.

Lemma repo_loop_inv (max_repos : Z) (repos : list json) (p p' : progress)
    (s s' : state) (pre evs : list event) :
  run_inv max_repos p pre ->
  repo_loop int_of_str str_lower os max_repos repos p s
    = (Val p', s', evs) ->
  run_inv max_repos p' (pre ++ evs).
Proof.
  revert p s pre evs.
  induction repos as [| repo rest IH]; intros p s pre evs Hinv H;
    cbn [repo_loop] in H.
  - apply ret_Val in H as (-> & -> & ->). now rewrite app_nil_r.
  - destruct (repos_checked p >=? max_repos) eqn:Hfull.
    + apply ret_Val in H as (-> & -> & ->). now rewrite app_nil_r.
    + rewrite Z.geb_leb in Hfull. apply Z.leb_gt in Hfull.
      apply bind_Val in H as (repo_name & s1 & e1 & e2 & H1 & H & ->).
      apply lift_Val in H1 as (_ & -> & ->).
      apply bind_Val in H as (seen & s2 & e3 & e4 & H1 & H & ->).
      apply lift_Val in H1 as (_ & -> & ->).
      cbn [app]. destruct seen.
      * apply bind_Val in H as (u & s3 & e5 & e6 & Hp & H & ->).
        apply print_Val in Hp as (-> & ->).
        rewrite app_assoc.
        apply (IH p s (pre ++ [Print (AlreadyChecked repo_name)]) e6);
          [apply run_inv_quiet; [reflexivity | exact Hinv] | exact H].
      * apply bind_Val in H as (p1 & s3 & e5 & e6 & Hx & H & ->).
        rewrite app_assoc.
        apply (IH _ _ _ _ (run_inv_examine _ _ _ _ _ _ _ _ _ Hfull Hinv Hx) H).
Qed.

Lemma page_loop_inv (fuel : nat) (max_repos : Z) (query : string) (page : Z)
    (p p' : progress) (s s' : state) (pre evs : list event) :
  run_inv max_repos p pre ->
  page_loop int_of_str str_lower os fuel max_repos query page p s
    = (Val (Some p'), s', evs) ->
  run_inv max_repos p' (pre ++ evs).
Proof.
  revert page p s pre evs.
  induction fuel as [| fuel IH]; intros page p s pre evs Hinv H;
    cbn [page_loop] in H.
  - apply ret_Val in H as (E & _). discriminate E.
  - destruct (repos_checked p <? max_repos).
    + apply bind_Val in H as (u & s1 & e1 & e2 & Hp & H & ->).
      apply print_Val in Hp as (-> & ->).
      apply bind_Val in H as (repos & s2 & e3 & e4 & Hs & H & ->).
      pose proof (quiet_search_python_repos query page 30 s) as Q.
      rewrite Hs in Q. cbn [snd] in Q.
      set (pre1 := pre ++ [Print (FetchingPage page query)] ++ e3).
      assert (Hinv1 : run_inv max_repos p pre1).
      { apply run_inv_quiet; [| exact Hinv]. cbn [app forallb quiet andb]. exact Q. }
      replace (pre ++ [Print (FetchingPage page query)] ++ e3 ++ e4)
        with (pre1 ++ e4) by (subst pre1; now rewrite <- !app_assoc).
      clearbody pre1.
      destruct (truthy repos).
      * cbn [negb] in H.
        apply bind_Val in H as (items & s3 & e5 & e6 & H1 & H & ->).
        apply lift_Val in H1 as (_ & -> & ->).
        apply bind_Val in H as (p1 & s4 & e7 & e8 & Hr & H & ->).
        apply (repo_loop_inv _ _ _ _ _ _ _ _ Hinv1) in Hr.
        apply bind_Val in H as (n & s5 & e9 & e10 & H1 & H & ->).
        apply lift_Val in H1 as (_ & -> & ->).
        cbn [app]. rewrite app_assoc.
        destruct (n <? 10).
        -- apply bind_Val in H as (u' & s6 & e11 & e12 & Hp & H & ->).
           apply print_Val in Hp as (-> & ->).
           apply ret_Val in H as (E & -> & ->). injection E as <-.
           apply run_inv_quiet; [reflexivity | exact Hr].
        -- destruct (page + 1 >? 30).
           ++ apply bind_Val in H as (u' & s6 & e11 & e12 & Hp & H & ->).
              apply print_Val in Hp as (-> & ->).
              apply ret_Val in H as (E & -> & ->). injection E as <-.
              apply run_inv_quiet; [reflexivity | exact Hr].
           ++ apply (IH _ _ _ _ _ Hr H).
      * cbn [negb] in H.
        apply bind_Val in H as (u' & s6 & e11 & e12 & Hp & H & ->).
        apply print_Val in Hp as (-> & ->).
        apply ret_Val in H as (E & -> & ->). injection E as <-.
        apply run_inv_quiet; [reflexivity | exact Hinv1].
    + apply ret_Val in H as (E & -> & ->). injection E as <-.
      now rewrite app_nil_r.
Qed.

(** Thirty iterations are enough for the pages 1 to 30 of a query: the
    page loop never runs out of them. *)
Lemma page_loop_fuel (fuel : nat) (max_repos : Z) (query : string) (page : Z)
    (p : progress) (s s' : state) (r : option progress) (evs : list event) :
  page <= 30 -> 31 - page <= Z.of_nat fuel ->
  page_loop int_of_str str_lower os fuel max_repos query page p s
    = (Val r, s', evs) ->
  r <> None.
Proof.
  revert page p s evs.
  induction fuel as [| fuel IH]; intros page p s evs Hpage Hfuel H;
    cbn [page_loop] in H; [lia |].
  destruct (repos_checked p <? max_repos).
  - apply bind_Val in H as (u & s1 & e1 & e2 & _ & H & _).
    apply bind_Val in H as (repos & s2 & e3 & e4 & _ & H & _).
    destruct (truthy repos); cbn [negb] in H.
    + apply bind_Val in H as (items & s3 & e5 & e6 & _ & H & _).
      apply bind_Val in H as (p1 & s4 & e7 & e8 & _ & H & _).
      apply bind_Val in H as (n & s5 & e9 & e10 & _ & H & _).
      destruct (n <? 10).
      * apply bind_Val in H as (u' & s6 & e11 & e12 & _ & H & _).
        apply ret_Val in H as (-> & _). discriminate.
      * destruct (page + 1 >? 30) eqn:Hlast.
        -- apply bind_Val in H as (u' & s6 & e11 & e12 & _ & H & _).
           apply ret_Val in H as (-> & _). discriminate.
        -- rewrite Z.gtb_ltb in Hlast. apply Z.ltb_ge in Hlast.
           apply (IH (page + 1) p1 s5 e10); [lia | lia | exact H].
    + apply bind_Val in H as (u' & s6 & e11 & e12 & _ & H & _).
      apply ret_Val in H as (-> & _). discriminate.
  - apply ret_Val in H as (-> & _). discriminate.
Qed.

Lemma query_loop_inv (max_repos n : Z) (queries : list (Z * string))
    (p : progress) (s s' : state) (r : option progress) (pre evs : list event) :
  run_inv max_repos p pre ->
  query_loop int_of_str str_lower os max_repos n queries p s
    = (Val r, s', evs) ->
  exists p', r = Some p' /\ run_inv max_repos p' (pre ++ evs).
Proof.
  revert p s pre evs.
  induction queries as [| [query_index query] rest IH]; intros p s pre evs Hinv H;
    cbn [query_loop] in H.
  - apply ret_Val in H as (-> & -> & ->). exists p. now rewrite app_nil_r.
  - destruct (repos_checked p >=? max_repos).
    + apply ret_Val in H as (-> & -> & ->). exists p. now rewrite app_nil_r.
    + apply bind_Val in H as (u & s1 & e1 & e2 & Hp & H & ->).
      apply print_Val in Hp as (-> & ->).
      apply bind_Val in H as (r1 & s2 & e3 & e4 & Hpage & H & ->).
      pose proof (page_loop_fuel 30 max_repos query 1 p s s2 r1 e3
                    ltac:(lia) ltac:(cbn; lia) Hpage) as Hsome.
      destruct r1 as [p1 |]; [| congruence].
      assert (Hinv1 : run_inv max_repos p1
                        ((pre ++ [Print (RunningQuery (query_index + 1) n query)])
                         ++ e3)).
      { apply (page_loop_inv _ _ _ _ _ _ _ _ _ _
                 (run_inv_quiet _ _ _ [Print (RunningQuery (query_index + 1) n query)]
                    eq_refl Hinv) Hpage). }
      destruct (IH _ _ _ _ Hinv1 H) as (p' & -> & Hinv').
      exists p'. split; [reflexivity |].
      now rewrite <- !app_assoc in Hinv'.
Qed.

Lemma key_eqb_str (k : json) (name : string) :
  key_eqb k (JStr name) = true <-> k = JStr name.
Proof.
  destruct k; cbn; try (split; [discriminate | discriminate]).
  rewrite String.eqb_eq. split; [now intros -> | now intros [= ->]].
Qed.

(** Every run that returns satisfies the invariant of the loops. *)
Lemma find_repos_inv (current_year max_repos : Z) (s s' : state)
    (r : option results) (evs : list event) :
  find_repos_with_criteria_segmented int_of_str str_lower os
    current_year max_repos s = (Val r, s', evs) ->
  exists p, r = Some (found p) /\ run_inv max_repos p evs.
Proof.
  intros H. unfold find_repos_with_criteria_segmented in H.
  apply bind_Val in H as (u & s1 & e1 & e2 & Hp & H & ->).
  apply print_Val in Hp as (-> & ->).
  apply bind_Val in H as (r1 & s2 & e3 & e4 & Hq & H & ->).
  assert (Hinit : run_inv max_repos (Progress [] 0)
            [Print (QueriesCreated (len (Segmenter.create_segmented_queries current_year)))]).
  { apply (run_inv_quiet max_repos (Progress [] 0) []); [reflexivity |].
    split; [split | split].
    - intros k. cbn. split; [discriminate | intros (k' & [] & _)].
    - intros k d [].
    - reflexivity.
    - cbn. lia. }
  destruct (query_loop_inv _ _ _ _ _ _ _ _ _ Hinit Hq) as (p & -> & Hinv).
  apply ret_Val in H as (-> & -> & ->).
  exists p. split; [reflexivity |]. now rewrite app_nil_r.
Qed.

(** C2: when the orchestrator returns, a repository full name is a key
    of the results exactly when a file match was recorded during one of
    its examinations; every stored repository holds at least one match, and
    a repository examined without a match is not a key. *)
Theorem results_keys_are_matched_repositories (current_year max_repos : Z)
    (s s' : state) (r : option results) (evs : list event) :
  find_repos_with_criteria_segmented int_of_str str_lower os
    current_year max_repos s = (Val r, s', evs) ->
  exists rs,
    r = Some rs
    /\ (forall name : string,
          has_key rs (JStr name) = true <-> In (JStr name) (matched None evs))
    /\ (forall k d, In (k, d) rs -> matches_of d <> [])
    /\ (forall name : string,
          In (JStr name) (map snd (examined evs)) ->
          ~ In (JStr name) (matched None evs) ->
          has_key rs (JStr name) = false).
Proof.
  intros H. apply find_repos_inv in H as (p & -> & [[Hk Hd] _]).
  exists (found p). split; [reflexivity |].
  assert (Hiff : forall name : string,
            has_key (found p) (JStr name) = true
            <-> In (JStr name) (matched None evs)).
  { intros name. rewrite Hk. split.
    - intros (k' & Hin & Heq). apply key_eqb_str in Heq. now subst k'.
    - intros Hin. exists (JStr name). split; [exact Hin |].
      now apply key_eqb_str. }
  split; [exact Hiff |]. split; [exact Hd |].
  intros name _ Hnot. destruct (has_key (found p) (JStr name)) eqn:E;
    [| reflexivity].
  apply Hiff in E. contradiction.
Qed.

(** The counter counts examinations: it numbers the [Checking] lines
    1, 2, ... in order, whatever the repository names are, and never passes
    [max_repos]. *)
Lemma repos_checked_counts_examinations (current_year max_repos : Z)
    (s s' : state) (r : option results) (evs : list event) :
  find_repos_with_criteria_segmented int_of_str str_lower os
    current_year max_repos s = (Val r, s', evs) ->
  map fst (examined evs) = range 1 (len (examined evs) + 1)
  /\ len (examined evs) <= Z.max max_repos 0.
Proof.
  intros H. apply find_repos_inv in H as (p & _ & [_ [Hc Hb]]).
  assert (Hlen : len (examined evs) = repos_checked p).
  { unfold len. rewrite <- (length_map fst), Hc. unfold range.
    rewrite length_map, length_seq. lia. }
  rewrite Hlen. split; [exact Hc | lia].
Qed.

End Platform.

Lemma results_keys_are_matched_repositories_witness :
  let evs := snd Mock.one_match_run in
  exists rs,
    Mock.returned (fst (fst Mock.one_match_run)) = Some rs
    /\ (forall name : string,
          has_key rs (JStr name) = true <-> In (JStr name) (matched None evs))
    /\ (forall k d, In (k, d) rs -> matches_of d <> [])
    /\ (forall name : string,
          In (JStr name) (map snd (examined evs)) ->
          ~ In (JStr name) (matched None evs) ->
          has_key rs (JStr name) = false).
Proof.
  apply (results_keys_are_matched_repositories Mock.int_of_decimal ascii_lower
           Mock.os 2025 2 Mock.one_match
           (snd (fst Mock.one_match_run))
           (Mock.returned (fst (fst Mock.one_match_run)))
           (snd Mock.one_match_run)).
  vm_compute. reflexivity.
Defined.

(** What that run holds: one key, one examination without a match. *)
Lemma one_match_run_keys :
  exists rs,
    Mock.returned (fst (fst Mock.one_match_run)) = Some rs
    /\ map fst rs = [JStr "acme/app"]
    /\ examined (snd Mock.one_match_run)
       = [(1, JStr "acme/app"); (2, JStr "acme/lib")]
    /\ matched None (snd Mock.one_match_run) = [JStr "acme/app"].
Proof. eexists. vm_compute. repeat split. Qed.

(** C3 (what the code does): with [max_repos = 2], two query segments
    that return the same repository without a manifest use up the budget:
    the counter reaches 2 on one distinct repository, which is examined
    twice, and the run stops with the provider's next page unread. *)
Theorem repos_checked_counts_revisits :
  exists s' evs,
    find_repos_with_criteria_segmented Mock.int_of_decimal ascii_lower
      Mock.os 2025 2 Mock.revisit = (Val (Some []), s', evs)
    /\ examined evs = [(1, JStr "acme/app"); (2, JStr "acme/app")]
    /\ requests evs = 8%nat
    /\ provider s' = [Answer (Mock.found_items [Mock.acme_app])].
Proof.
  eexists _, _. split; [vm_compute; reflexivity |].
  repeat split.
Qed.

End CrawlFacts.

(** ** More on the Query Segmenter *)

Module SegmentsFacts.
Import Py Segmenter Segments.

Lemma year_pairs_range (cy : Z) :
  created_year_pairs cy = map (fun y => (y, y + 1)) (range (cy - 10) cy).
Proof.
  rewrite SegmenterFacts.created_year_pairs_unfold. unfold range.
  replace (cy - (cy - 10)) with 10 by lia.
  change (Z.to_nat 10) with 10%nat. cbn [seq map].
  repeat (f_equal; [f_equal; lia |]). f_equal. f_equal; lia.
Qed.

Lemma star_loop_blocks (cy : Z) (srs : list string) (queries : list string) :
  fold_left (star_range_body (years cy)) srs queries
  = queries ++ flat_map (star_block (cy - 10) cy) srs.
Proof.
  revert queries. induction srs as [| sr srs IH]; intros queries;
    cbn [fold_left flat_map].
  - now rewrite app_nil_r.
  - rewrite IH, SegmenterFacts.star_range_body_pairs, year_pairs_range,
      map_map, <- app_assoc.
    reflexivity.
Qed.

(** The list of queries is the table: for each of the 8 star ranges the
    bare range and the ten windows from 1 January of [y] to 1 January of
    [y + 1], [y] from ten years back to last year; then the query for the
    repositories created after 1 January of last year; then the three size
    queries. *)
Theorem create_segmented_queries_table (current_year : Z) :
  create_segmented_queries current_year = table current_year.
Proof.
  unfold create_segmented_queries, table.
  rewrite (SegmenterFacts.fold_append_map
             (fun size_range => (base_query ++ " " ++ size_range)%string)).
  rewrite star_loop_blocks, SegmenterFacts.years_index by lia.
  cbn [app Z.ltb Z.compare]. rewrite <- app_assoc.
  replace (current_year + -2 + 1) with (current_year - 1) by lia.
  reflexivity.
Qed.

Lemma in_range (a b y : Z) : In y (range a b) <-> a <= y < b.
Proof.
  unfold range. rewrite in_map_iff. split.
  - intros (k & <- & Hk). apply in_seq in Hk. lia.
  - intros Hy. exists (Z.to_nat (y - a)). split; [lia |].
    apply in_seq. lia.
Qed.

Lemma date_leb_iff (a b : date) :
  date_leb a b = true <->
  year a < year b
  \/ (year a = year b
      /\ (month a < month b \/ (month a = month b /\ day a <= day b))).
Proof.
  unfold date_leb.
  rewrite orb_true_iff, andb_true_iff, orb_true_iff, andb_true_iff.
  rewrite !Z.ltb_lt, !Z.eqb_eq, Z.leb_le. reflexivity.
Qed.

Lemma prefix_empty (s : string) : prefix EmptyString s = true.
Proof. destruct s; reflexivity. Qed.

Lemma prefix_base_query (rest : string) :
  prefix "language:python " (base_query ++ " " ++ rest) = true.
Proof. unfold base_query. cbn. apply prefix_empty. Qed.

(** Every query carries the language filter. *)
Theorem every_query_filters_python (current_year : Z) :
  Forall (fun query => prefix "language:python " query = true)
    (create_segmented_queries current_year).
Proof.
  unfold create_segmented_queries.
  rewrite (SegmenterFacts.fold_append_map
             (fun size_range => (base_query ++ " " ++ size_range)%string)).
  rewrite star_loop_blocks. cbn [app]. rewrite <- app_assoc.
  apply Forall_app. split; [| apply Forall_app; split].
  - apply Forall_flat_map, Forall_forall. intros sr _.
    unfold star_block. constructor; [apply prefix_base_query |].
    apply Forall_map, Forall_forall. intros y _. apply prefix_base_query.
  - constructor; [| constructor].
    apply (prefix_base_query
             ("created:>" ++ str_of_int (getitem (years current_year) (-2) 0)
              ++ "-01-01")).
  - apply Forall_map, Forall_forall. intros sz _. apply prefix_base_query.
Qed.

(** The ten windows leave no gap and reach no further than they should:
    a calendar date is selected by one of them exactly when its year is
    one of the ten before the current one, or it is 1 January of the
    current year. *)
Theorem created_windows_cover_ten_years (current_year : Z) (d : date) :
  calendar d ->
  ((exists p, In p (created_year_pairs current_year)
              /\ created_range_selects (fst p) (snd p) d = true)
   <-> (current_year - 10 <= year d < current_year
        \/ d = Date current_year 1 1)).
Proof.
  intros [Hm Hd]. rewrite year_pairs_range. split.
  - intros (p & Hin & Hsel). apply in_map_iff in Hin as (y & <- & Hy).
    apply in_range in Hy. cbn [fst snd] in Hsel.
    unfold created_range_selects in Hsel.
    apply andb_true_iff in Hsel as [Hlo Hhi].
    apply date_leb_iff in Hlo, Hhi. cbn [year month day] in Hlo, Hhi.
    destruct d as [dy dm dd]. cbn [year month day] in *.
    destruct (Z.eq_dec dy current_year) as [-> | Hne]; [| left; lia].
    right. f_equal; lia.
  - intros [Hy | ->].
    + exists (year d, year d + 1). split.
      * apply in_map_iff. exists (year d). split; [reflexivity |].
        apply in_range. lia.
      * cbn [fst snd]. unfold created_range_selects.
        apply andb_true_iff. split; apply date_leb_iff; cbn [year month day]; lia.
    + exists (current_year - 1, current_year - 1 + 1). split.
      * apply in_map_iff. exists (current_year - 1). split; [reflexivity |].
        apply in_range. lia.
      * cbn [fst snd]. unfold created_range_selects.
        apply andb_true_iff. split; apply date_leb_iff; cbn [year month day]; lia.
Qed.

Lemma created_windows_cover_ten_years_witness :
  (exists p, In p (created_year_pairs 2025)
             /\ created_range_selects (fst p) (snd p) (Date 2019 6 30) = true)
  <-> (2025 - 10 <= year (Date 2019 6 30) < 2025
       \/ Date 2019 6 30 = Date 2025 1 1).
Proof.
  apply (created_windows_cover_ten_years 2025 (Date 2019 6 30)).
  split; cbn; lia.
Defined.

End SegmentsFacts.

(** ** More on the Rate Governor *)

Module GovernorMore.
Import Py Env Miner Observe.

(** With the last-known quota below 10 and a refreshed quota of 5 or
    more, the governor makes its one request, keeps the refreshed value,
    does not sleep and leaves the clock alone; the reset time is not
    looked at. *)
Theorem check_rate_limit_refreshed (s : state) (r : response)
    (rest : list reply) (remaining reset : json) (n : Z) :
  lt_int (rate_limit_remaining s) 10 = Val true ->
  provider s = Answer r :: rest ->
  quota_of r = Val (remaining, n, reset) ->
  5 <= n ->
  check_rate_limit s =
  (Val tt, State remaining (clock s) rest,
   [Print NearLimit; Get [Lit base_url; Lit "/rate_limit"] []]).
Proof.
  intros Hlow Hp Hq Hn.
  unfold quota_of in Hq.
  destruct (body r) as [data |] eqn:Hb; [| discriminate].
  destruct (subscript data "rate") as [rate | ] eqn:Hrate; [| discriminate].
  destruct (subscript rate "remaining") as [rem |] eqn:Hrem; [| discriminate].
  destruct (subscript rate "reset") as [rst |] eqn:Hrst; [| discriminate].
  destruct (as_int rem) as [k |] eqn:Hk; [| discriminate].
  injection Hq as -> -> ->.
  unfold check_rate_limit, bind, get_remaining, lift, print, emit,
    requests_get, response_json, set_remaining, time_time, ret.
  rewrite Hlow, Hp, Hb. cbn. rewrite Hrate. cbn.
  rewrite Hrem. cbn. rewrite Hrst. cbn.
  unfold lt_int. rewrite Hk.
  rewrite (proj2 (Z.ltb_ge n 5) Hn). reflexivity.
Qed.

Lemma check_rate_limit_refreshed_witness :
  check_rate_limit
    (State (JInt 9) 1700000000 [Answer (Mock.quota_status 4000 1700003600)])
  = (Val tt, State (JInt 4000) 1700000000 [],
     [Print NearLimit; Get [Lit base_url; Lit "/rate_limit"] []]).
Proof.
  apply (check_rate_limit_refreshed
           (State (JInt 9) 1700000000 [Answer (Mock.quota_status 4000 1700003600)])
           (Mock.quota_status 4000 1700003600) [] (JInt 4000)
           (JInt 1700003600) 4000); try reflexivity.
  lia.
Defined.

(** One call of [time.sleep], whatever comes of it. *)
Lemma time_sleep_once (d : Z) (s : state) :
  let '(out, s', evs) := time_sleep d s in
  evs = [Sleep d] /\ provider s' = provider s /\ clock s <= clock s'.
Proof.
  unfold time_sleep.
  destruct ((d <? - sleep_max) || (sleep_max <? d));
    [repeat split; lia |].
  destruct (d <? 0) eqn:Hneg; [repeat split; lia |].
  apply Z.ltb_ge in Hneg. cbn. repeat split. lia.
Qed.

(** Whatever the state and the provider, one call of the governor makes
    at most one request and at most one sleep, uses at most one reply, and
    never sets the clock back. *)
Theorem check_rate_limit_at_most_once (s : state) :
  let '(out, s', evs) := check_rate_limit s in
  (requests evs <= 1)%nat
  /\ (List.length (sleeps evs) <= 1)%nat
  /\ (List.length (provider s) <= S (List.length (provider s')))%nat
  /\ clock s <= clock s'.
Proof.
  unfold check_rate_limit, bind, get_remaining, lift, print, emit,
    requests_get, response_json, set_remaining, time_time, ret, raise.
  destruct (lt_int (rate_limit_remaining s) 10) as [[|] |]; cbn;
    try (repeat split; lia).
  destruct (provider s) as [| [r |] rest]; cbn; try (repeat split; lia).
  destruct (body r) as [data |]; cbn; try (repeat split; lia).
  destruct (subscript data "rate") as [rate |]; cbn; try (repeat split; lia).
  destruct (subscript rate "remaining") as [rem |]; cbn; try (repeat split; lia).
  destruct (subscript rate "reset") as [rst |]; cbn; try (repeat split; lia).
  destruct (lt_int rem 5) as [[|] |]; cbn; try (repeat split; lia).
  destruct (sub_int rst (clock s)) as [elapsed |]; cbn -[time_sleep];
    try (repeat split; lia).
  pose proof (time_sleep_once (elapsed + 10) (State rem (clock s) rest)) as H.
  destruct (time_sleep _ _) as [[out s'] evs].
  destruct H as (-> & -> & Hclock). cbn in *. repeat split; lia.
Qed.

End GovernorMore.

(** ** More on the Search Client *)

Module SearchMore.
Import Py Env Miner Observe Survey.

Lemma replace_removes (s : string) (a b : ascii) :
  a <> b -> occurs a (replace s a b) = false.
Proof.
  intros Hab. unfold occurs.
  induction s as [| c s IH]; [reflexivity |]. cbn.
  rewrite IH, orb_false_r.
  destruct (Ascii.eqb c a) eqn:E.
  - apply Ascii.eqb_neq. exact Hab.
  - apply Ascii.eqb_neq. apply Ascii.eqb_neq in E. congruence.
Qed.

Lemma replace_get (s : string) (a : ascii) (i : nat) :
  get i (replace s a "_") = option_map (underscored a) (get i s).
Proof.
  revert i. induction s as [| c s IH]; intros i; [reflexivity |].
  destruct i as [| i]; [reflexivity |]. cbn [replace get]. apply IH.
Qed.

Lemma replace_keeps (s : string) (a b c : ascii) :
  c <> a -> c <> b -> occurs c (replace s a b) = occurs c s.
Proof.
  intros Ha Hb. unfold occurs.
  induction s as [| x s IH]; [reflexivity |]. cbn. rewrite IH. f_equal.
  destruct (Ascii.eqb x a) eqn:E; [| reflexivity].
  apply Ascii.eqb_eq in E. subst x.
  rewrite (proj2 (Ascii.eqb_neq c b) Hb), (proj2 (Ascii.eqb_neq c a) Ha).
  reflexivity.
Qed.

(** The file of a search is [output/{repo}_{pattern}_search_results.json]
    where [{repo}] is the repository name, character by character, with
    each [/] written as an underscore, and [{pattern}] is the pattern with
    each dot written as an underscore.  So the name part holds no [/] and
    the pattern part no dot, while a [/] of the pattern stays in the path.
    A repository name that is not a string has no [replace] and raises
    [AttributeError]. *)
Theorem output_filename_flat (repo_full_name : json) (filename : string) :
  match repo_full_name with
  | JStr name =>
      exists owner_repo pattern,
        output_filename repo_full_name filename
        = Val ("output/" ++ owner_repo ++ "_" ++ pattern
               ++ "_search_results.json")%string
        /\ (forall i, get i owner_repo = option_map (underscored "/") (get i name))
        /\ (forall i, get i pattern = option_map (underscored ".") (get i filename))
        /\ String.length owner_repo = String.length name
        /\ String.length pattern = String.length filename
        /\ occurs "/" owner_repo = false
        /\ occurs "." pattern = false
        /\ occurs "/" pattern = occurs "/" filename
  | _ => output_filename repo_full_name filename = Exc AttributeError
  end.
Proof.
  assert (Hlen : forall s a b, String.length (replace s a b) = String.length s).
  { intros s a b. induction s as [| c s IH]; cbn; [reflexivity | now rewrite IH]. }
  destruct repo_full_name; try reflexivity.
  exists (replace s "/" "_"), (replace filename "." "_").
  split; [reflexivity |].
  split; [intros i; apply replace_get |].
  split; [intros i; apply replace_get |].
  split; [apply Hlen |]. split; [apply Hlen |].
  split; [apply replace_removes; discriminate |].
  split; [apply replace_removes; discriminate |].
  apply replace_keeps; discriminate.
Qed.

(** The path of a pattern in a directory keeps the [/] of the pattern. *)
Lemma output_filename_of_nested_pattern :
  output_filename (JStr "acme/app") "docs/requirements.txt"
  = Val "output/acme_app_docs/requirements_txt_search_results.json".
Proof. reflexivity. Qed.

Section Platform.

Variable int_of_str : string -> option Z.
Variable os : system.

Local Abbreviation search_python_repos := (Miner.search_python_repos int_of_str).
Local Abbreviation search_attempts :=
  (Miner.search_attempts int_of_str os).
Local Abbreviation search_specific_files_in_repo :=
  (Miner.search_specific_files_in_repo int_of_str os).

(** A repository search that fails with a JSON body gives the empty
    list, the same answer as a page without items, and leaves the known
    quota as the governor left it. *)
Theorem search_python_repos_failure (query : string) (page per_page : Z)
    (s s1 : state) (evs0 : list event) (r : response) (rest : list reply)
    (data : json) :
  check_rate_limit s = (Val tt, s1, evs0) ->
  provider s1 = Answer r :: rest ->
  status_code r <> 200 ->
  body r = Some data ->
  exists request,
    search_python_repos query page per_page s =
    (Val (JList []), State (rate_limit_remaining s1) (clock s1) rest,
     evs0 ++ [request; Print (RepoSearchError (status_code r)); Print (Dump data)])
    /\ is_get request = true.
Proof.
  intros Hg Hp Hs Hb. unfold Miner.search_python_repos.
  unfold bind at 1. rewrite Hg.
  unfold bind at 1, requests_get at 1. rewrite Hp.
  apply Z.eqb_neq in Hs. rewrite Hs. cbn [negb].
  unfold bind, print, emit, response_json. rewrite Hb. cbn.
  eexists. split; reflexivity.
Qed.

(** A successful repository search returns the [items] of the body, the
    empty list when the body has none, and records the quota of the
    [X-RateLimit-Remaining] header; without that header the quota is
    recorded as 0, so that the next call of the governor asks for it. *)
Theorem search_python_repos_success (query : string) (page per_page : Z)
    (s s1 : state) (evs0 : list event) (r : response) (rest : list reply)
    (n : Z) (members : list (string * json)) :
  check_rate_limit s = (Val tt, s1, evs0) ->
  provider s1 = Answer r :: rest ->
  status_code r = 200 ->
  header_value int_of_str r "X-RateLimit-Remaining" = Some n ->
  body r = Some (JDict members) ->
  exists request,
    search_python_repos query page per_page s =
    (Val (match lookup members "items" with Some v => v | None => JList [] end),
     State (JInt n) (clock s1) rest, evs0 ++ [request])
    /\ is_get request = true
    /\ (header (headers r) "X-RateLimit-Remaining" = None ->
        n = 0 /\ lt_int (JInt n) 10 = Val true).
Proof.
  intros Hg Hp Hs Hn Hb. unfold Miner.search_python_repos.
  unfold bind at 1. rewrite Hg.
  unfold bind at 1, requests_get at 1. rewrite Hp, Hs.
  change (negb (200 =? 200)) with false. cbv iota.
  unfold bind at 1. rewrite (SearchFacts.header_int_value int_of_str _ _ _ _ Hn).
  unfold bind, set_remaining, response_json. rewrite Hb. cbn.
  destruct (lookup members "items"); cbn.
  - eexists. split; [reflexivity |]. split; [reflexivity |].
    intros Habs. unfold header_value in Hn. rewrite Habs in Hn.
    injection Hn as <-. split; reflexivity.
  - eexists. split; [reflexivity |]. split; [reflexivity |].
    intros Habs. unfold header_value in Hn. rewrite Habs in Hn.
    injection Hn as <-. split; reflexivity.
Qed.



(** The call sends the code search for its pattern and, on a 200 answer
    to the first attempt, records the quota, creates [output] and writes
    the body to the file of the search.  It returns the [items] of the
    body, the empty list when it has none, if the directory could be
    created and the file written; if not, it raises what the operating
    system raised, with the quota recorded, the reply used up, and no file
    written. *)
Theorem search_specific_files_first_attempt (name filename : string)
    (s s1 : state) (evs0 : list event) (r : response) (rest : list reply)
    (n : Z) (members : list (string * json)) (path : string) :
  check_rate_limit s = (Val tt, s1, evs0) ->
  provider s1 = Answer r :: rest ->
  status_code r = 200 ->
  header_value int_of_str r "X-RateLimit-Remaining" = Some n ->
  body r = Some (JDict members) ->
  output_filename (JStr name) filename = Val path ->
  search_specific_files_in_repo (JStr name) filename s =
  match makedirs_error os "output", write_error os path with
  | Some e, _ =>
      (Exc e, State (JInt n) (clock s1) rest,
       evs0 ++ [code_search (JStr name) filename])
  | None, Some e =>
      (Exc e, State (JInt n) (clock s1) rest,
       evs0 ++ [code_search (JStr name) filename; MakeDirs "output"])
  | None, None =>
      (Val (match lookup members "items" with Some v => v | None => JList [] end),
       State (JInt n) (clock s1) rest,
       evs0 ++ [code_search (JStr name) filename; MakeDirs "output";
                WriteFile path (JDict members)])
  end.
Proof.
  intros Hg Hp Hs Hn Hb Hpath. unfold Miner.search_specific_files_in_repo.
  unfold bind at 1. rewrite Hg.
  change (range 0 max_retries) with [0; 1; 2].
  cbn [Miner.search_attempts].
  unfold bind at 1, requests_get at 1. rewrite Hp, Hs.
  change (200 =? 200) with true. cbv iota.
  unfold bind at 1. rewrite (SearchFacts.header_int_value int_of_str _ _ _ _ Hn).
  unfold os_makedirs, json_dump_to, bind, set_remaining, response_json, emit.
  rewrite Hb, Hpath. cbn.
  destruct (makedirs_error os "output"); [reflexivity |].
  destruct (write_error os path); cbn; [reflexivity |].
  destruct (lookup members "items"); reflexivity.
Qed.


End Platform.

Lemma search_python_repos_failure_witness :
  exists request,
    search_python_repos Mock.int_of_decimal "language:python stars:0..10" 1 30
      (State (JInt 1000) 1700000000 [Answer Mock.server_error]) =
    (Val (JList []), State (JInt 1000) 1700000000 [],
     [] ++ [request; Print (RepoSearchError 500);
            Print (Dump (JDict [("message", JStr "Server Error")]))])
    /\ is_get request = true.
Proof.
  apply (search_python_repos_failure Mock.int_of_decimal
           "language:python stars:0..10" 1 30
           (State (JInt 1000) 1700000000 [Answer Mock.server_error])
           (State (JInt 1000) 1700000000 [Answer Mock.server_error]) []
           Mock.server_error []
           (JDict [("message", JStr "Server Error")]));
    try reflexivity.
  cbn. lia.
Defined.

Lemma search_python_repos_success_witness :
  let r := Response 200 [] EmptyString
             (Some (JDict [("total_count", JInt 0)])) in
  exists request,
    search_python_repos Mock.int_of_decimal "language:python stars:0..10" 1 30
      (State (JInt 1000) 1700000000 [Answer r]) =
    (Val (JList []), State (JInt 0) 1700000000 [], [] ++ [request])
    /\ is_get request = true
    /\ (header (headers r) "X-RateLimit-Remaining" = None ->
        0 = 0 /\ lt_int (JInt 0) 10 = Val true).
Proof.
  intros r.
  apply (search_python_repos_success Mock.int_of_decimal
           "language:python stars:0..10" 1 30
           (State (JInt 1000) 1700000000 [Answer r])
           (State (JInt 1000) 1700000000 [Answer r]) [] r [] 0
           [("total_count", JInt 0)]); reflexivity.
Defined.

Lemma search_specific_files_first_attempt_witness :
  search_specific_files_in_repo Mock.int_of_decimal Mock.os
    (JStr "acme/app") ".yml"
    (State (JInt 1000) 1700000000
       [Answer (Mock.found_items [Mock.requirements_txt])]) =
  match makedirs_error Mock.os "output",
        write_error Mock.os "output/acme_app__yml_search_results.json" with
  | Some e, _ =>
      (Exc e, State (JInt 4999) 1700000000 [],
       [] ++ [code_search (JStr "acme/app") ".yml"])
  | None, Some e =>
      (Exc e, State (JInt 4999) 1700000000 [],
       [] ++ [code_search (JStr "acme/app") ".yml"; MakeDirs "output"])
  | None, None =>
      (Val (JList [Mock.requirements_txt]), State (JInt 4999) 1700000000 [],
       [] ++ [code_search (JStr "acme/app") ".yml"; MakeDirs "output";
              WriteFile "output/acme_app__yml_search_results.json"
                (JDict [("items", JList [Mock.requirements_txt])])])
  end.
Proof.
  apply (search_specific_files_first_attempt Mock.int_of_decimal Mock.os
           "acme/app" ".yml"
           (State (JInt 1000) 1700000000
              [Answer (Mock.found_items [Mock.requirements_txt])])
           (State (JInt 1000) 1700000000
              [Answer (Mock.found_items [Mock.requirements_txt])]) []
           (Mock.found_items [Mock.requirements_txt]) [] 4999
           [("items", JList [Mock.requirements_txt])]); reflexivity.
Defined.

(** A pattern in a directory: the search is answered, and the call
    raises [FileNotFoundError] when it opens its file, since only [output]
    was created. *)
Lemma search_specific_files_missing_directory :
  search_specific_files_in_repo Mock.int_of_decimal Mock.os
    (JStr "acme/app") "docs/requirements.txt"
    (State (JInt 1000) 1700000000
       [Answer (Mock.found_items [Mock.requirements_txt])]) =
  (Exc FileNotFoundError, State (JInt 4999) 1700000000 [],
   [code_search (JStr "acme/app") "docs/requirements.txt"; MakeDirs "output"]).
Proof. reflexivity. Qed.


End SearchMore.

(** ** More on the Content Verifier *)

Module ContentMore.
Import Py Env Miner Observe.

Section Platform.

Variable int_of_str : string -> option Z.
Variable str_lower : string -> string.

Hypothesis str_lower_ascii :
  forall s, is_ascii s = true -> str_lower s = ascii_lower s.

Local Abbreviation check_file_content_for_text :=
  (Miner.check_file_content_for_text int_of_str str_lower).

(** A response that is not a 200 gives false, whatever its body: the
    call makes its one request, does not read the body or the quota header,
    and does not raise. *)
Theorem check_file_content_for_text_failure (repo file_path : json)
    (needle : string) (s s1 : state) (evs0 : list event) (r : response)
    (rest : list reply) :
  check_rate_limit s = (Val tt, s1, evs0) ->
  provider s1 = Answer r :: rest ->
  status_code r <> 200 ->
  exists request,
    check_file_content_for_text repo file_path needle s =
    (Val false, State (rate_limit_remaining s1) (clock s1) rest,
     evs0 ++ [request; Print (ContentError file_path (status_code r))])
    /\ is_get request = true.
Proof.
  intros Hg Hp Hs. unfold Miner.check_file_content_for_text.
  unfold bind at 1. rewrite Hg.
  unfold bind at 1, requests_get at 1. rewrite Hp.
  apply Z.eqb_neq in Hs. rewrite Hs. cbn [negb].
  unfold bind, print, emit, ret. cbn.
  eexists. split; reflexivity.
Qed.

(** The case of an ASCII needle does not matter: two needles that differ
    only in case give the same run, for every state and provider. *)
Theorem needle_case_is_ignored (repo file_path : json) (needle needle' : string)
    (s : state) :
  is_ascii needle = true -> is_ascii needle' = true ->
  ascii_lower needle = ascii_lower needle' ->
  check_file_content_for_text repo file_path needle s
  = check_file_content_for_text repo file_path needle' s.
Proof.
  intros Ha Ha' Heq.
  assert (Hlow : str_lower needle = str_lower needle')
    by (rewrite !str_lower_ascii by assumption; exact Heq).
  assert (Hc : forall data,
            content_has_text str_lower data needle
            = content_has_text str_lower data needle').
  { intros data. unfold content_has_text. now rewrite Hlow. }
  unfold Miner.check_file_content_for_text, bind.
  destruct (check_rate_limit s) as [[[u | e] s1] e1]; [| reflexivity].
  destruct (requests_get _ _ s1) as [[[r | e] s2] e2]; [| reflexivity].
  destruct (negb (status_code r =? 200)); [reflexivity |].
  destruct (header_int int_of_str r "X-RateLimit-Remaining" s2)
    as [[[n | e] s3] e3]; [| reflexivity].
  destruct (set_remaining (JInt n) s3) as [[[u' | e] s4] e4]; [| reflexivity].
  destruct (response_json r s4) as [[[data | e] s5] e5]; [| reflexivity].
  destruct (lift (str_in "content" data) s5) as [[[present | e] s6] e6];
    [| reflexivity].
  destruct (negb present); [reflexivity |].
  now rewrite Hc.
Qed.

End Platform.

Lemma check_file_content_for_text_failure_witness :
  exists request,
    check_file_content_for_text Mock.int_of_decimal ascii_lower
      (JStr "acme/app") (JStr "requirements.txt") "transitions"
      (State (JInt 1000) 1700000000 [Answer Mock.bad_gateway]) =
    (Val false, State (JInt 1000) 1700000000 [],
     [] ++ [request; Print (ContentError (JStr "requirements.txt") 502)])
    /\ is_get request = true.
Proof.
  apply (check_file_content_for_text_failure Mock.int_of_decimal ascii_lower
           (JStr "acme/app") (JStr "requirements.txt") "transitions"
           (State (JInt 1000) 1700000000 [Answer Mock.bad_gateway])
           (State (JInt 1000) 1700000000 [Answer Mock.bad_gateway]) []
           Mock.bad_gateway []); try reflexivity.
  cbn. lia.
Defined.

Lemma needle_case_is_ignored_witness :
  check_file_content_for_text Mock.int_of_decimal ascii_lower
    (JStr "acme/app") (JStr "requirements.txt") "Transitions"
    (State (JInt 1000) 1700000000
       [Answer (Mock.file_content "VHJhbnNpdGlvbnM9PTAuOC4wCg==")])
  = check_file_content_for_text Mock.int_of_decimal ascii_lower
      (JStr "acme/app") (JStr "requirements.txt") "transitions"
      (State (JInt 1000) 1700000000
         [Answer (Mock.file_content "VHJhbnNpdGlvbnM9PTAuOC4wCg==")]).
Proof.
  apply (needle_case_is_ignored Mock.int_of_decimal ascii_lower
           (fun s _ => eq_refl)); reflexivity.
Defined.

End ContentMore.

(** ** More on the Crawl Orchestrator *)

Module CrawlMore.
Import Py Env Miner Observe Survey.

(** *** A rule for the three loops

    A property of the progress and of the events so far holds when a run
    returns, if the events that are [quiet] keep it and each examination
    of a repository that is not yet a key, made below [max_repos], keeps
    it. *)

Section LoopRule.

Variable int_of_str : string -> option Z.
Variable str_lower : string -> string.
Variable os : system.
Variable max_repos : Z.
Variable Inv : progress -> list event -> Prop.

Hypothesis Inv_quiet :
  forall p pre evs, forallb quiet evs = true -> Inv p pre -> Inv p (pre ++ evs).

Hypothesis Inv_examine :
  forall repo repo_name p p' s s' pre evs,
    repos_checked p < max_repos ->
    has_key (found p) repo_name = false ->
    Inv p pre ->
    examine_repo int_of_str str_lower os max_repos repo repo_name p s
      = (Val p', s', evs) ->
    Inv p' (pre ++ evs).

Lemma repo_loop_rule (repos : list json) (p p' : progress) (s s' : state)
    (pre evs : list event) :
  Inv p pre ->
  repo_loop int_of_str str_lower os max_repos repos p s
    = (Val p', s', evs) ->
  Inv p' (pre ++ evs).
Proof.
  revert p s pre evs.
  induction repos as [| repo rest IH]; intros p s pre evs Hinv H;
    cbn [repo_loop] in H.
  - apply CrawlFacts.ret_Val in H as (-> & -> & ->). now rewrite app_nil_r.
  - destruct (repos_checked p >=? max_repos) eqn:Hfull.
    + apply CrawlFacts.ret_Val in H as (-> & -> & ->). now rewrite app_nil_r.
    + rewrite Z.geb_leb in Hfull. apply Z.leb_gt in Hfull.
      apply CrawlFacts.bind_Val in H as (repo_name & s1 & e1 & e2 & H1 & H & ->).
      apply CrawlFacts.lift_Val in H1 as (_ & -> & ->).
      apply CrawlFacts.bind_Val in H as (seen & s2 & e3 & e4 & H1 & H & ->).
      apply CrawlFacts.lift_Val in H1 as (Hkey & -> & ->).
      cbn [app]. destruct seen.
      * apply CrawlFacts.bind_Val in H as (u & s3 & e5 & e6 & Hp & H & ->).
        apply CrawlFacts.print_Val in Hp as (-> & ->).
        rewrite app_assoc.
        apply (IH p s (pre ++ [Print (AlreadyChecked repo_name)]) e6);
          [apply Inv_quiet; [reflexivity | exact Hinv] | exact H].
      * apply CrawlFacts.bind_Val in H as (p1 & s3 & e5 & e6 & Hx & H & ->).
        rewrite app_assoc.
        assert (Hnew : has_key (found p) repo_name = false).
        { unfold key_in in Hkey. destruct (hashable repo_name); [| discriminate].
          now injection Hkey. }
        apply (IH p1 s3 (pre ++ e5) e6);
          [apply (Inv_examine repo repo_name p p1 s s3 pre e5 Hfull Hnew Hinv Hx)
          | exact H].
Qed.

Lemma page_loop_rule (fuel : nat) (query : string) (page : Z)
    (p p' : progress) (s s' : state) (pre evs : list event) :
  Inv p pre ->
  page_loop int_of_str str_lower os fuel max_repos query page p s
    = (Val (Some p'), s', evs) ->
  Inv p' (pre ++ evs).
Proof.
  revert page p s pre evs.
  induction fuel as [| fuel IH]; intros page p s pre evs Hinv H;
    cbn [page_loop] in H.
  - apply CrawlFacts.ret_Val in H as (E & _). discriminate E.
  - destruct (repos_checked p <? max_repos).
    + apply CrawlFacts.bind_Val in H as (u & s1 & e1 & e2 & Hp & H & ->).
      apply CrawlFacts.print_Val in Hp as (-> & ->).
      apply CrawlFacts.bind_Val in H as (repos & s2 & e3 & e4 & Hs & H & ->).
      pose proof (CrawlFacts.quiet_search_python_repos int_of_str query page 30 s)
        as Q.
      rewrite Hs in Q. cbn [snd] in Q.
      set (pre1 := pre ++ [Print (FetchingPage page query)] ++ e3).
      assert (Hinv1 : Inv p pre1).
      { apply Inv_quiet; [| exact Hinv]. cbn [app forallb quiet andb]. exact Q. }
      replace (pre ++ [Print (FetchingPage page query)] ++ e3 ++ e4)
        with (pre1 ++ e4) by (subst pre1; now rewrite <- !app_assoc).
      clearbody pre1.
      destruct (truthy repos); cbn [negb] in H.
      * apply CrawlFacts.bind_Val in H as (items & s3 & e5 & e6 & H1 & H & ->).
        apply CrawlFacts.lift_Val in H1 as (_ & -> & ->).
        apply CrawlFacts.bind_Val in H as (p1 & s4 & e7 & e8 & Hr & H & ->).
        apply (repo_loop_rule _ _ _ _ _ _ _ Hinv1) in Hr.
        apply CrawlFacts.bind_Val in H as (n & s5 & e9 & e10 & H1 & H & ->).
        apply CrawlFacts.lift_Val in H1 as (_ & -> & ->).
        cbn [app]. rewrite app_assoc.
        destruct (n <? 10).
        -- apply CrawlFacts.bind_Val in H as (u' & s6 & e11 & e12 & Hp & H & ->).
           apply CrawlFacts.print_Val in Hp as (-> & ->).
           apply CrawlFacts.ret_Val in H as (E & -> & ->). injection E as <-.
           apply Inv_quiet; [reflexivity | exact Hr].
        -- destruct (page + 1 >? 30).
           ++ apply CrawlFacts.bind_Val in H as (u' & s6 & e11 & e12 & Hp & H & ->).
              apply CrawlFacts.print_Val in Hp as (-> & ->).
              apply CrawlFacts.ret_Val in H as (E & -> & ->). injection E as <-.
              apply Inv_quiet; [reflexivity | exact Hr].
           ++ apply (IH _ _ _ _ _ Hr H).
      * apply CrawlFacts.bind_Val in H as (u' & s6 & e11 & e12 & Hp & H & ->).
        apply CrawlFacts.print_Val in Hp as (-> & ->).
        apply CrawlFacts.ret_Val in H as (E & -> & ->). injection E as <-.
        apply Inv_quiet; [reflexivity | exact Hinv1].
    + apply CrawlFacts.ret_Val in H as (E & -> & ->). injection E as <-.
      now rewrite app_nil_r.
Qed.

Lemma query_loop_rule (n : Z) (queries : list (Z * string)) (p : progress)
    (s s' : state) (r : option progress) (pre evs : list event) :
  Inv p pre ->
  query_loop int_of_str str_lower os max_repos n queries p s
    = (Val r, s', evs) ->
  exists p', r = Some p' /\ Inv p' (pre ++ evs).
Proof.
  revert p s pre evs.
  induction queries as [| [query_index query] rest IH]; intros p s pre evs Hinv H;
    cbn [query_loop] in H.
  - apply CrawlFacts.ret_Val in H as (-> & -> & ->). exists p.
    now rewrite app_nil_r.
  - destruct (repos_checked p >=? max_repos).
    + apply CrawlFacts.ret_Val in H as (-> & -> & ->). exists p.
      now rewrite app_nil_r.
    + apply CrawlFacts.bind_Val in H as (u & s1 & e1 & e2 & Hp & H & ->).
      apply CrawlFacts.print_Val in Hp as (-> & ->).
      apply CrawlFacts.bind_Val in H as (r1 & s2 & e3 & e4 & Hpage & H & ->).
      pose proof (CrawlFacts.page_loop_fuel int_of_str str_lower os
                    30 max_repos query 1 p s s2 r1 e3
                    ltac:(lia) ltac:(cbn; lia) Hpage) as Hsome.
      destruct r1 as [p1 |]; [| congruence].
      assert (Hinv1 : Inv p1
                        ((pre ++ [Print (RunningQuery (query_index + 1) n query)])
                         ++ e3)).
      { apply (page_loop_rule 30 query 1 p p1 s s2); [| exact Hpage].
        apply Inv_quiet; [reflexivity | exact Hinv]. }
      destruct (IH _ _ _ _ Hinv1 H) as (p' & -> & Hinv').
      exists p'. split; [reflexivity |].
      now rewrite <- !app_assoc in Hinv'.
Qed.

Lemma find_repos_rule (current_year : Z) (s s' : state) (r : option results)
    (evs : list event) :
  Inv (Progress [] 0) [] ->
  find_repos_with_criteria_segmented int_of_str str_lower os
    current_year max_repos s = (Val r, s', evs) ->
  exists p, r = Some (found p) /\ Inv p evs.
Proof.
  intros Hinit H. unfold find_repos_with_criteria_segmented in H.
  apply CrawlFacts.bind_Val in H as (u & s1 & e1 & e2 & Hp & H & ->).
  apply CrawlFacts.print_Val in Hp as (-> & ->).
  apply CrawlFacts.bind_Val in H as (r1 & s2 & e3 & e4 & Hq & H & ->).
  assert (Hinit1 : Inv (Progress [] 0)
            ([] ++ [Print (QueriesCreated
                             (len (Segmenter.create_segmented_queries current_year)))]))
    by (apply Inv_quiet; [reflexivity | exact Hinit]).
  destruct (query_loop_rule _ _ _ _ _ _ _ _ Hinit1 Hq) as (p & -> & Hinv).
  apply CrawlFacts.ret_Val in H as (-> & -> & ->).
  exists p. split; [reflexivity |]. now rewrite app_nil_r.
Qed.

End LoopRule.

(** *** Keys *)

Lemma key_eqb_sym (a b : json) : key_eqb a b = key_eqb b a.
Proof.
  destruct a, b; cbn; try reflexivity;
    try apply Z.eqb_sym; try apply String.eqb_sym.
Qed.

Lemma has_key_app (rs rs' : results) (k : json) :
  has_key (rs ++ rs') k = has_key rs k || has_key rs' k.
Proof. unfold has_key. apply existsb_app. Qed.

Lemma distinct_keys_snoc (rs : results) (k : json) (d : repo_data) :
  distinct_keys rs -> has_key rs k = false -> distinct_keys (rs ++ [(k, d)]).
Proof.
  induction rs as [| [k' d'] rs IH]; cbn [distinct_keys app].
  - intros _ _. split; [reflexivity | exact I].
  - intros [Hk' Hrs] Hk. cbn [has_key existsb fst] in Hk.
    apply orb_false_iff in Hk as [Hne Hk]. split.
    + rewrite has_key_app, Hk'. cbn. rewrite orb_false_r, key_eqb_sym. exact Hne.
    + apply IH; assumption.
Qed.

Section Platform.

Variable int_of_str : string -> option Z.
Variable str_lower : string -> string.
Variable os : system.

(** When the orchestrator returns, no two keys of the results are equal:
    a repository is stored at most once, however many query segments
    return it. *)
Theorem results_keys_are_distinct (current_year max_repos : Z) (s s' : state)
    (r : option results) (evs : list event) :
  find_repos_with_criteria_segmented int_of_str str_lower os
    current_year max_repos s = (Val r, s', evs) ->
  exists rs, r = Some rs /\ distinct_keys rs.
Proof.
  intros H.
  apply (find_repos_rule int_of_str str_lower os max_repos
           (fun p _ => distinct_keys (found p))) in H.
  - destruct H as (p & -> & Hd). now exists (found p).
  - intros p pre e _ Hd. exact Hd.
  - intros repo repo_name p p' s0 s0' pre e _ Hnew Hd Hx.
    apply CrawlFacts.examine_repo_events in Hx as (rest & _ & _ & _ & Hcase).
    destruct Hcase as [[_ ->] | [_ (d & -> & _)]]; [exact Hd |].
    now apply distinct_keys_snoc.
  - exact I.
Qed.

(** With no budget the orchestrator asks the provider nothing: it builds
    its queries, returns no result and leaves the miner as it was. *)
Theorem no_budget_no_request (current_year max_repos : Z) (s : state) :
  max_repos <= 0 ->
  find_repos_with_criteria_segmented int_of_str str_lower os
    current_year max_repos s =
  (Val (Some []), s,
   [Print (QueriesCreated (len (Segmenter.create_segmented_queries current_year)))]).
Proof.
  intros Hmax. unfold find_repos_with_criteria_segmented.
  assert (Hq : forall n queries,
            query_loop int_of_str str_lower os max_repos n queries
              (Progress [] 0) s = (Val (Some (Progress [] 0)), s, [])).
  { intros n [| [query_index query] rest]; cbn [query_loop repos_checked];
      [reflexivity |].
    replace (0 >=? max_repos) with true
      by (symmetry; rewrite Z.geb_leb; apply Z.leb_le; exact Hmax).
    reflexivity. }
  unfold bind at 1, print at 1, emit at 1.
  unfold bind at 1. rewrite Hq. reflexivity.
Qed.

(** *** Pages *)

Lemma pages_app (a b : list event) : pages (a ++ b) = (pages a + pages b)%nat.
Proof. unfold pages. now rewrite filter_app, length_app. Qed.

Lemma at_most_none {A} (m : M A) (n : nat) :
  emits_only (fun e => negb (is_page e)) m -> at_most_pages n m.
Proof.
  intros Hm s0. specialize (Hm s0). unfold pages.
  induction (snd (m s0)) as [| e evs IH]; cbn; [lia |].
  cbn [forallb] in Hm. apply andb_true_iff in Hm as [He Hm].
  apply negb_true_iff in He. rewrite He. exact (IH Hm).
Qed.

Lemma no_page_check_rate_limit :
  emits_only (fun e => negb (is_page e)) check_rate_limit.
Proof. unfold check_rate_limit, print. repeat CrawlFacts.emits_step. Qed.


















(** The page loop on [Mock.deep_query], allowed 100 iterations and 5
    examinations: it examines [acme/app] once, fetches the pages 1 to 30
    and leaves the 31st unread. *)
Lemma page_loop_stops_at_page_30 :
  let '(out, s', evs) :=
    page_loop Mock.int_of_decimal ascii_lower Mock.os 100 5
      "language:python stars:0..10" 1 (Progress [] 0) Mock.deep_query in
  fetched evs = range 1 31
  /\ List.length (examined evs) = 1%nat
  /\ provider s' = [Answer (Mock.found_items (repeat Mock.acme_app 10))]
  /\ In (Print QueryLimitReached) evs.
Proof. vm_compute. intuition. Qed.

(** *** What an examination stores *)

Lemma append_match_keeps (c : category) (d : repo_data) (m : file_match) :
  repo_url (append_match c d m) = repo_url d
  /\ stars (append_match c d m) = stars d
  /\ description (append_match c d m) = description d
  /\ (c = Yml ->
      requirements_with_transitions (append_match c d m)
      = requirements_with_transitions d)
  /\ (c = Requirements ->
      yml_with_transitions (append_match c d m) = yml_with_transitions d).
Proof. destruct c; cbn; repeat split; intros; congruence. Qed.

Lemma record_matches_keeps (repo : json) (c : category) (files : list json)
    (acc acc' : repo_data * bool) (s s' : state) (evs : list event) :
  record_matches int_of_str str_lower repo c files acc s = (Val acc', s', evs) ->
  repo_url (fst acc') = repo_url (fst acc)
  /\ stars (fst acc') = stars (fst acc)
  /\ description (fst acc') = description (fst acc)
  /\ (c = Yml ->
      requirements_with_transitions (fst acc')
      = requirements_with_transitions (fst acc))
  /\ (c = Requirements ->
      yml_with_transitions (fst acc') = yml_with_transitions (fst acc)).
Proof.
  revert acc s evs.
  induction files as [| file rest IH]; intros acc s evs H;
    cbn [record_matches] in H.
  - apply CrawlFacts.ret_Val in H as (-> & _). repeat split.
  - apply CrawlFacts.bind_Val in H as (file_path & s1 & e1 & e2 & _ & H & _).
    apply CrawlFacts.bind_Val in H as (hit & s2 & e3 & e4 & _ & H & _).
    destruct hit.
    + apply CrawlFacts.bind_Val in H as (u & s3 & e5 & e6 & _ & H & _).
      apply CrawlFacts.bind_Val in H as (name & s4 & e7 & e8 & _ & H & _).
      apply CrawlFacts.bind_Val in H as (url & s5 & e9 & e10 & _ & H & _).
      apply IH in H. cbn [fst] in H.
      destruct (append_match_keeps c (fst acc) (FileMatch name file_path url))
        as (A1 & A2 & A3 & A4 & A5).
      destruct H as (H1 & H2 & H3 & H4 & H5).
      repeat split; intros; congruence || (rewrite ?H4, ?H5 by assumption; auto).
    + apply IH in H. exact H.
Qed.

Lemma scan_pattern_keeps (repo : json) (pattern : string) (c : category)
    (acc acc' : repo_data * bool) (s s' : state) (evs : list event) :
  scan_pattern int_of_str str_lower os repo pattern c acc s
    = (Val acc', s', evs) ->
  repo_url (fst acc') = repo_url (fst acc)
  /\ stars (fst acc') = stars (fst acc)
  /\ description (fst acc') = description (fst acc)
  /\ (c = Yml ->
      requirements_with_transitions (fst acc')
      = requirements_with_transitions (fst acc))
  /\ (c = Requirements ->
      yml_with_transitions (fst acc') = yml_with_transitions (fst acc)).
Proof.
  intros H. unfold scan_pattern in H.
  apply CrawlFacts.bind_Val in H as (found_files & s1 & e1 & e2 & _ & H & _).
  apply CrawlFacts.bind_Val in H as (files & s2 & e3 & e4 & _ & H & _).
  now apply record_matches_keeps in H.
Qed.

(** An examination that returns has counted the repository; it stores
    it, under its full name and after the entries already there, exactly
    when it recorded a match, and the stored entry carries the
    [html_url], [stargazers_count] and [description] of the item. *)
Theorem examine_repo_stores_the_item (max_repos : Z) (repo repo_name : json)
    (p p' : progress) (s s' : state) (evs : list event) :
  examine_repo int_of_str str_lower os max_repos repo repo_name p s
    = (Val p', s', evs) ->
  repos_checked p' = repos_checked p + 1
  /\ ((recorded evs = O /\ found p' = found p)
      \/ (recorded evs <> O
          /\ exists d,
               found p' = found p ++ [(repo_name, d)]
               /\ List.length (matches_of d) = recorded evs
               /\ subscript repo "html_url" = Val (repo_url d)
               /\ subscript repo "stargazers_count" = Val (stars d)
               /\ subscript repo "description" = Val (description d))).
Proof.
  intros H. unfold examine_repo in H.
  apply CrawlFacts.bind_Val in H as (u & s1 & e1 & e2 & Hp & H & ->).
  apply CrawlFacts.print_Val in Hp as (-> & ->).
  apply CrawlFacts.bind_Val in H as (html_url & s2 & e3 & e4 & H1 & H & ->).
  apply CrawlFacts.lift_Val in H1 as (Hurl & -> & ->).
  apply CrawlFacts.bind_Val in H as (stargazers & s3 & e5 & e6 & H1 & H & ->).
  apply CrawlFacts.lift_Val in H1 as (Hstars & -> & ->).
  apply CrawlFacts.bind_Val in H as (descr & s4 & e7 & e8 & H1 & H & ->).
  apply CrawlFacts.lift_Val in H1 as (Hdescr & -> & ->).
  apply CrawlFacts.bind_Val in H as (acc1 & s5 & e9 & e10 & Hs1 & H & ->).
  apply CrawlFacts.bind_Val in H as (acc2 & s6 & e11 & e12 & Hs2 & H & ->).
  apply CrawlFacts.bind_Val in H as (acc3 & s7 & e13 & e14 & Hs3 & H & ->).
  pose proof (scan_pattern_keeps _ _ _ _ _ _ _ _ Hs1) as (K1 & K2 & K3 & _).
  pose proof (scan_pattern_keeps _ _ _ _ _ _ _ _ Hs2) as (L1 & L2 & L3 & _).
  pose proof (scan_pattern_keeps _ _ _ _ _ _ _ _ Hs3) as (M1 & M2 & M3 & _).
  cbn [fst repo_url stars description] in K1, K2, K3.
  apply (CrawlFacts.scan_pattern_events _ _ _ _ _ _ _ _ O) in Hs1 as [E1 A1];
    [| split; reflexivity].
  apply (CrawlFacts.scan_pattern_events _ _ _ _ _ _ _ _ _ _ _ _ A1) in Hs2
    as [E2 A2].
  apply (CrawlFacts.scan_pattern_events _ _ _ _ _ _ _ _ _ _ _ _ A2) in Hs3
    as [E3 A3].
  destruct A3 as [Hlen Hflag]. cbn [Nat.add] in Hlen, Hflag.
  assert (Hrec : forall tl, recorded tl = O ->
            recorded (Print (Checking (repos_checked p + 1) max_repos repo_name)
                      :: e9 ++ e11 ++ e13 ++ tl)
            = (recorded e9 + recorded e11 + recorded e13)%nat).
  { intros tl Htl. cbn [recorded]. rewrite !CrawlFacts.recorded_app, Htl. lia. }
  destruct (snd acc3) eqn:Hfound;
    apply CrawlFacts.ret_Val in H as (-> & -> & ->);
    cbn [app found repos_checked]; rewrite (Hrec [] eq_refl);
    (split; [reflexivity |]).
  - right. symmetry in Hflag. apply negb_true_iff, Nat.eqb_neq in Hflag.
    split; [exact Hflag |]. exists (fst acc3).
    split; [reflexivity |]. split; [exact Hlen |].
    rewrite M1, L1, K1, M2, L2, K2, M3, L3, K3. repeat split; assumption.
  - left. symmetry in Hflag. apply negb_false_iff, Nat.eqb_eq in Hflag.
    split; [exact Hflag | reflexivity].
Qed.

Lemma search_python_repos_failed (query : string) (page per_page : Z)
    (s s1 : state) (evs0 : list event) (r : response) (rest : list reply)
    (data : json) :
  check_rate_limit s = (Val tt, s1, evs0) ->
  provider s1 = Answer r :: rest ->
  status_code r <> 200 ->
  body r = Some data ->
  search_python_repos int_of_str query page per_page s =
  (Val (JList []), State (rate_limit_remaining s1) (clock s1) rest,
   evs0 ++ [Get [Lit base_url; Lit "/search/repositories"]
              [("q", [Lit query]); ("sort", [Lit "stars"]);
               ("order", [Lit "desc"]); ("page", [Hole (JInt page)]);
               ("per_page", [Hole (JInt per_page)])];
            Print (RepoSearchError (status_code r)); Print (Dump data)]).
Proof.
  intros Hg Hp Hs Hb. unfold search_python_repos.
  unfold bind at 1. rewrite Hg.
  unfold bind at 1, requests_get at 1. rewrite Hp.
  apply Z.eqb_neq in Hs. rewrite Hs. cbn [negb].
  unfold bind, print, emit, response_json. rewrite Hb. reflexivity.
Qed.

(** A page whose search fails with a JSON body ends its query as an empty
    page does: the page loop returns with the progress it had, after that
    one page, and the crawl goes on with the next query. *)
Theorem failed_page_ends_the_query (fuel : nat) (max_repos : Z) (query : string)
    (page : Z) (p : progress) (s s1 : state) (evs0 : list event)
    (r : response) (rest : list reply) (data : json) :
  repos_checked p < max_repos ->
  check_rate_limit s = (Val tt, s1, evs0) ->
  provider s1 = Answer r :: rest ->
  status_code r <> 200 ->
  body r = Some data ->
  exists evs,
    page_loop int_of_str str_lower os (S fuel) max_repos query
      page p s
    = (Val (Some p), State (rate_limit_remaining s1) (clock s1) rest, evs)
    /\ pages evs = 1%nat
    /\ examined evs = []
    /\ requests evs = S (requests evs0)
    /\ In (Print NoMoreRepos) evs.
Proof.
  intros Hlt Hg Hp Hs Hb. cbn [page_loop].
  rewrite (proj2 (Z.ltb_lt _ _) Hlt).
  unfold bind at 1, print at 1, emit at 1.
  unfold bind at 1.
  rewrite (search_python_repos_failed query page 30 s s1 evs0 r rest data
             Hg Hp Hs Hb).
  cbn [truthy negb]. unfold bind, print, emit, ret.
  eexists. split; [reflexivity |].
  pose proof (no_page_check_rate_limit s) as Hnp.
  pose proof (CrawlFacts.quiet_check_rate_limit s) as Hq.
  rewrite Hg in Hnp, Hq. cbn [snd] in Hnp, Hq.
  apply CrawlFacts.quiet_events in Hq as [Hex _].
  assert (Hpg : pages evs0 = O).
  { pose proof (at_most_none check_rate_limit 0 no_page_check_rate_limit s) as H.
    rewrite Hg in H. cbn [snd] in H. lia. }
  repeat split.
  - rewrite !pages_app, Hpg. reflexivity.
  - rewrite !CrawlFacts.examined_app, Hex. reflexivity.
  - unfold requests. rewrite !filter_app, !length_app. cbn. lia.
  - rewrite !in_app_iff. cbn. tauto.
Qed.

End Platform.

Lemma examine_repo_stores_the_item_witness :
  let p' := Session.progress_of (fst (fst Session.one_examination)) in
  let evs := snd Session.one_examination in
  repos_checked p' = repos_checked (Progress [] 0) + 1
  /\ ((recorded evs = O /\ found p' = found (Progress [] 0))
      \/ (recorded evs <> O
          /\ exists d,
               found p' = found (Progress [] 0) ++ [(JStr "acme/app", d)]
               /\ List.length (matches_of d) = recorded evs
               /\ subscript Mock.acme_app "html_url" = Val (repo_url d)
               /\ subscript Mock.acme_app "stargazers_count" = Val (stars d)
               /\ subscript Mock.acme_app "description" = Val (description d))).
Proof.
  apply (examine_repo_stores_the_item Mock.int_of_decimal ascii_lower
           Mock.os 2 Mock.acme_app (JStr "acme/app") (Progress [] 0)
           (Session.progress_of (fst (fst Session.one_examination)))
           (State (JInt 1000) 1700000000
              [Answer (Mock.found_items [Mock.requirements_txt]);
               Answer (Mock.file_content "VHJhbnNpdGlvbnM9PTAuOC4wCg==");
               Answer (Mock.found_items []); Answer (Mock.found_items [])])
           (snd (fst Session.one_examination))
           (snd Session.one_examination)).
  vm_compute. reflexivity.
Defined.

Lemma no_budget_no_request_witness :
  find_repos_with_criteria_segmented Mock.int_of_decimal ascii_lower
    Mock.os 2025 0 Mock.one_match =
  (Val (Some []), Mock.one_match,
   [Print (QueriesCreated (len (Segmenter.create_segmented_queries 2025)))]).
Proof.
  apply (no_budget_no_request Mock.int_of_decimal ascii_lower Mock.os
           2025 0 Mock.one_match).
  lia.
Defined.

Lemma failed_page_ends_the_query_witness :
  let s := State (JInt 1000) 1700000000
             [Answer Mock.server_error; Answer (Mock.found_items [Mock.acme_app])] in
  exists evs,
    page_loop Mock.int_of_decimal ascii_lower Mock.os 30 5
      "language:python stars:0..10" 1 (Progress [] 0) s
    = (Val (Some (Progress [] 0)),
       State (JInt 1000) 1700000000 [Answer (Mock.found_items [Mock.acme_app])],
       evs)
    /\ pages evs = 1%nat
    /\ examined evs = []
    /\ requests evs = S (requests [])
    /\ In (Print NoMoreRepos) evs.
Proof.
  intros s.
  apply (failed_page_ends_the_query Mock.int_of_decimal ascii_lower
           Mock.os 29 5 "language:python stars:0..10" 1 (Progress [] 0)
           s s [] Mock.server_error
           [Answer (Mock.found_items [Mock.acme_app])]
           (JDict [("message", JStr "Server Error")])); try reflexivity.
  cbn. lia.
Defined.

Lemma results_keys_are_distinct_witness :
  exists rs,
    Mock.returned (fst (fst Mock.stored_revisit_run)) = Some rs
    /\ distinct_keys rs.
Proof.
  apply (results_keys_are_distinct Mock.int_of_decimal ascii_lower
           Mock.os 2025 3 Mock.stored_revisit
           (snd (fst Mock.stored_revisit_run))
           (Mock.returned (fst (fst Mock.stored_revisit_run)))
           (snd Mock.stored_revisit_run)).
  vm_compute. reflexivity.
Defined.

(** What that run holds: two keys, and a second query that returns the
    first of them again, which is skipped and not counted. *)
Lemma stored_revisit_run_keys :
  exists rs,
    Mock.returned (fst (fst Mock.stored_revisit_run)) = Some rs
    /\ map fst rs = [JStr "acme/app"; JStr "acme/tool"]
    /\ examined (snd Mock.stored_revisit_run)
       = [(1, JStr "acme/app"); (2, JStr "acme/lib"); (3, JStr "acme/tool")]
    /\ filter (fun e => match e with
                        | Print (AlreadyChecked _) => true
                        | _ => false
                        end) (snd Mock.stored_revisit_run)
       = [Print (AlreadyChecked (JStr "acme/app"))]
    /\ provider (snd (fst Mock.stored_revisit_run)) = [].
Proof. eexists. vm_compute. repeat split. Qed.

Lemma repos_checked_counts_examinations_witness :
  map fst (examined (snd Mock.one_match_run))
  = range 1 (len (examined (snd Mock.one_match_run)) + 1)
  /\ len (examined (snd Mock.one_match_run)) <= Z.max 2 0.
Proof.
  apply (CrawlFacts.repos_checked_counts_examinations Mock.int_of_decimal
           ascii_lower Mock.os 2025 2 Mock.one_match
           (snd (fst Mock.one_match_run))
           (Mock.returned (fst (fst Mock.one_match_run)))
           (snd Mock.one_match_run)).
  vm_compute. reflexivity.
Defined.

End CrawlMore.

(** ** Properties of the Report Writer *)

Module ReportFacts.
Import Py Env Miner Observe Report.

Lemma file_lines_are_files (files : list file_match) :
  filter is_repository (file_lines files) = []
  /\ List.length (filter is_file (file_lines files)) = List.length files
  /\ file_numbers (file_lines files) = range 1 (1 + len files).
Proof.
  unfold file_lines.
  assert (Hlen : List.length (range 1 (1 + len files)) = List.length files).
  { unfold range, len. rewrite length_map, length_seq. lia. }
  revert Hlen. generalize (range 1 (1 + len files)) as numbers.
  induction files as [| f files IH]; intros [| i numbers] Hlen;
    try discriminate Hlen; [repeat split |].
  cbn [List.length] in Hlen. injection Hlen as Hlen.
  destruct (IH numbers Hlen) as (H1 & H2 & H3).
  split; [| split].
  - cbn [combine map filter is_repository]. exact H1.
  - cbn [combine map filter is_file List.length]. now rewrite H2.
  - unfold file_numbers in *. cbn [combine map flat_map app fst]. now rewrite H3.
Qed.

(** The lines of one repository: its name once, then the files of the
    two categories, numbered from 1 within each. *)
Lemma repository_lines_read (item : json * repo_data) :
  List.length (filter is_repository (repository_lines item)) = 1%nat
  /\ List.length (filter is_file (repository_lines item))
     = List.length (matches_of (snd item))
  /\ file_numbers (repository_lines item)
     = range 1 (1 + len (requirements_with_transitions (snd item)))
       ++ range 1 (1 + len (yml_with_transitions (snd item))).
Proof.
  unfold repository_lines, matches_of. cbv zeta.
  assert (Hfn : forall a b, file_numbers (a ++ b) = file_numbers a ++ file_numbers b)
    by (intros a b; unfold file_numbers; apply flat_map_app).
  assert (Hcons : forall w l, is_file w = false ->
            file_numbers (w :: l) = file_numbers l).
  { intros w l Hw. destruct w; try discriminate Hw; reflexivity. }
  destruct (file_lines_are_files (requirements_with_transitions (snd item)))
    as (R1 & R2 & R3).
  destruct (file_lines_are_files (yml_with_transitions (snd item)))
    as (Y1 & Y2 & Y3).
  split; [| split].
  - rewrite !filter_app, !length_app.
    destruct (requirements_with_transitions (snd item)) as [| rf rfs];
      destruct (yml_with_transitions (snd item)) as [| yf yfs];
      destruct (truthy (description (snd item)));
      cbn [filter is_repository]; rewrite ?R1, ?Y1; reflexivity.
  - rewrite !filter_app, !length_app.
    destruct (requirements_with_transitions (snd item)) as [| rf rfs];
      destruct (yml_with_transitions (snd item)) as [| yf yfs];
      destruct (truthy (description (snd item)));
      cbn [filter is_file]; rewrite ?R2, ?Y2; cbn [List.length]; lia.
  - rewrite !Hfn.
    destruct (requirements_with_transitions (snd item)) as [| rf rfs];
      destruct (yml_with_transitions (snd item)) as [| yf yfs];
      destruct (truthy (description (snd item)));
      rewrite ?(Hcons (RequirementsFiles _)), ?(Hcons (YmlFiles _)) by reflexivity;
      rewrite ?R3, ?Y3; cbn [file_numbers flat_map app]; rewrite ?app_nil_r;
      reflexivity.
Qed.

Lemma repository_names_app (a b : list written) :
  repository_names (a ++ b) = repository_names a ++ repository_names b.
Proof. unfold repository_names. apply flat_map_app. Qed.

Lemma file_lines_name_nothing (files : list file_match) :
  repository_names (file_lines files) = [].
Proof.
  unfold file_lines. generalize (range 1 (1 + len files)) as numbers.
  induction files as [| f files IH]; intros [| i numbers]; try reflexivity.
  cbn [combine map]. exact (IH numbers).
Qed.

(** The lines of one repository name it, and no other. *)
Lemma repository_lines_name (item : json * repo_data) :
  repository_names (repository_lines item) = [fst item].
Proof.
  unfold repository_lines. cbv zeta. rewrite !repository_names_app.
  destruct (requirements_with_transitions (snd item)) as [| rf rfs];
    destruct (yml_with_transitions (snd item)) as [| yf yfs];
    destruct (truthy (description (snd item)));
    cbn [repository_names flat_map app];
    rewrite ?file_lines_name_nothing; reflexivity.
Qed.

(** The report names the stored repositories, each once and in the order
    they were stored; it says that nothing was found exactly when there is
    no result, and otherwise gives the number of results as its total. *)
Theorem report_counts_repositories (rs : results) (current_time : string) :
  let report := save_results_to_file rs current_time in
  repository_names report = map fst rs
  /\ List.length (filter is_repository report) = List.length rs
  /\ (In NothingFound report <-> rs = [])
  /\ (forall n, In (Total n) report <-> rs <> [] /\ n = len rs).
Proof.
  assert (Hnames : forall l : results,
            repository_names (flat_map repository_lines l) = map fst l).
  { induction l as [| item l IH]; [reflexivity |].
    cbn [flat_map map]. rewrite repository_names_app, repository_lines_name, IH.
    reflexivity. }
  assert (Hblocks : forall l : results,
            List.length (filter is_repository (flat_map repository_lines l))
            = List.length l
            /\ ~ In NothingFound (flat_map repository_lines l)
            /\ (forall n, ~ In (Total n) (flat_map repository_lines l))).
  { induction l as [| item l (IH1 & IH2 & IH3)];
      [split; [reflexivity | split; [intros [] | intros n []]] |].
    cbn [flat_map]. rewrite filter_app, length_app, IH1.
    rewrite (proj1 (repository_lines_read item)). split; [reflexivity |].
    assert (Hin : forall w, In w (repository_lines item) ->
                    w <> NothingFound /\ forall n, w <> Total n).
    { intros w Hw. unfold repository_lines in Hw. cbv zeta in Hw.
      rewrite !in_app_iff in Hw.
      destruct Hw as [Hw | [Hw | [Hw | [Hw | Hw]]]].
      - cbn in Hw. destruct Hw as [<- | [<- | [<- | []]]]; split; discriminate.
      - destruct (truthy _); [| destruct Hw].
        destruct Hw as [<- | []]; split; discriminate.
      - destruct (requirements_with_transitions (snd item)); [destruct Hw |].
        destruct Hw as [<- | Hw]; [split; discriminate |].
        unfold file_lines in Hw. apply in_map_iff in Hw as (x & <- & _).
        split; discriminate.
      - destruct (yml_with_transitions (snd item)); [destruct Hw |].
        destruct Hw as [<- | Hw]; [split; discriminate |].
        unfold file_lines in Hw. apply in_map_iff in Hw as (x & <- & _).
        split; discriminate.
      - destruct Hw as [<- | []]; split; discriminate. }
    split.
    - intros Hw. apply in_app_iff in Hw as [Hw | Hw]; [| exact (IH2 Hw)].
      now apply Hin in Hw as [Hw _].
    - intros n Hw. apply in_app_iff in Hw as [Hw | Hw]; [| exact (IH3 n Hw)].
      apply Hin in Hw as [_ Hw]. now apply (Hw n). }
  cbv zeta. unfold save_results_to_file.
  destruct rs as [| item rs].
  - cbn. split; [reflexivity |]. split; [reflexivity |]. split.
    + split; [intros _; reflexivity | intros _; right; right; right; now left].
    + intros n. split.
      * intros [H | [H | [H | [H | []]]]]; discriminate H.
      * intros [H _]. now contradiction H.
  - destruct (Hblocks (item :: rs)) as (H1 & H2 & H3).
    pose proof (Hnames (item :: rs)) as H0.
    set (blocks := flat_map repository_lines (item :: rs)) in *.
    split; [exact H0 |].
    cbn [app filter is_repository]. rewrite H1. split; [reflexivity |].
    split; [split |].
    + intros [H | [H | [H | [H | H]]]]; try discriminate H. now apply H2 in H.
    + discriminate.
    + intros n. split.
      * intros [H | [H | [H | [H | H]]]]; try discriminate H.
        -- injection H as <-. split; [discriminate | reflexivity].
        -- now apply H3 in H.
      * intros [_ ->]. right. right. right. now left.
Qed.

(** The report lists every stored file match, numbered 1, 2, ... within
    each category of each repository. *)
Theorem report_lists_every_match (rs : results) (current_time : string) :
  let report := save_results_to_file rs current_time in
  List.length (filter is_file report)
  = List.length (flat_map (fun item => matches_of (snd item)) rs)
  /\ file_numbers report
     = flat_map (fun item =>
                   range 1 (1 + len (requirements_with_transitions (snd item)))
                   ++ range 1 (1 + len (yml_with_transitions (snd item)))) rs.
Proof.
  assert (Hfn : forall a b, file_numbers (a ++ b) = file_numbers a ++ file_numbers b)
    by (intros a b; unfold file_numbers; apply flat_map_app).
  assert (Hblocks : forall l : results,
            List.length (filter is_file (flat_map repository_lines l))
            = List.length (flat_map (fun item => matches_of (snd item)) l)
            /\ file_numbers (flat_map repository_lines l)
               = flat_map (fun item =>
                   range 1 (1 + len (requirements_with_transitions (snd item)))
                   ++ range 1 (1 + len (yml_with_transitions (snd item)))) l).
  { induction l as [| item l [IH1 IH2]]; [split; reflexivity |].
    destruct (repository_lines_read item) as (_ & B2 & B3).
    cbn [flat_map]. rewrite filter_app, !length_app, IH1, B2, Hfn, IH2, B3.
    split; reflexivity. }
  cbv zeta. unfold save_results_to_file.
  destruct rs as [| item rs]; [split; reflexivity |].
  destruct (Hblocks (item :: rs)) as [H1 H2].
  cbn [app filter is_file file_numbers flat_map] in *.
  split; [exact H1 | exact H2].
Qed.

End ReportFacts.

(** ** Properties of the entry point *)

Module MainFacts.
Import Py Env Miner Observe Report Main.

Lemma crawl_app (a b : list output) : crawl (a ++ b) = crawl a ++ crawl b.
Proof. unfold crawl. apply flat_map_app. Qed.

Lemma crawl_crawled (evs : list event) : crawl (map Crawled evs) = evs.
Proof.
  induction evs as [| e evs IH]; [reflexivity |]. cbn. f_equal. exact IH.
Qed.

Lemma count_le_len (f : json * repo_data -> bool) (rs : results) :
  0 <= len (filter f rs) <= len rs.
Proof.
  unfold len. pose proof (filter_length_le f rs). lia.
Qed.

(** A repository with a match counts in one of the two categories. *)
Lemma counts_cover (rs : results) :
  (forall k d, In (k, d) rs -> matches_of d <> []) ->
  len rs <= req_count rs + yml_count rs.
Proof.
  unfold req_count, yml_count, len.
  induction rs as [| [k d] rs IH]; intros Hall; [cbn; lia |].
  assert (Hd : matches_of d <> []) by (apply (Hall k); now left).
  assert (Hrs : forall k' d', In (k', d') rs -> matches_of d' <> [])
    by (intros k' d' Hin; apply (Hall k'); now right).
  specialize (IH Hrs). cbn [filter snd List.length].
  unfold matches_of in Hd.
  destruct (requirements_with_transitions d) as [| f fs];
    destruct (yml_with_transitions d) as [| y ys];
    cbn [List.length] in *; try lia.
  now contradiction Hd.
Qed.

Section Platform.

Variable int_of_str : string -> option Z.
Variable str_lower : string -> string.
Variable os : system.
Variable str_strip : string -> string.

Local Abbreviation main :=
  (Main.main int_of_str str_lower os str_strip).
Local Abbreviation find_repos :=
  (find_repos_with_criteria_segmented int_of_str str_lower os).

Lemma before_has_no_crawl (environ_token : option string)
    (token_input max_input : string) :
  let before :=
    snd (resolve_token str_strip environ_token token_input)
    ++ [Built (init_headers (fst (resolve_token str_strip environ_token token_input)))]
    ++ snd (resolve_max_repos int_of_str str_strip max_input)
    ++ [Said (Starting (fst (resolve_max_repos int_of_str str_strip max_input)))] in
  crawl before = [].
Proof.
  cbv zeta. unfold resolve_token, resolve_max_repos.
  destruct (match environ_token with Some t => nonempty t | None => false end);
    destruct (nonempty (str_strip max_input));
    try destruct (int_of_str (str_strip max_input));
    reflexivity.
Qed.

(** What [main] is around the crawl. *)
Lemma main_unfold (environ_token : option string) (token_input max_input : string)
    (current_year : Z) (current_time : string) (s : state) :
  let token := fst (resolve_token str_strip environ_token token_input) in
  let max_repos := fst (resolve_max_repos int_of_str str_strip max_input) in
  let before :=
    snd (resolve_token str_strip environ_token token_input)
    ++ [Built (init_headers token)]
    ++ snd (resolve_max_repos int_of_str str_strip max_input)
    ++ [Said (Starting max_repos)] in
  main environ_token token_input max_input current_year current_time s =
  match find_repos current_year max_repos
          (State init_rate_limit_remaining (clock s) (provider s)) with
  | (Exc e, s', evs) => (Exc e, s', before ++ map Crawled evs)
  | (Val r, s', evs) =>
      let results := match r with Some rs => rs | None => [] end in
      let report :=
        Saved "repo_search_results.txt"
          (save_results_to_file results current_time) in
      match write_error os "repo_search_results.txt" with
      | Some e => (Exc e, s', before ++ map Crawled evs)
      | None =>
          (Val tt, s',
           before ++ map Crawled evs
           ++ [report;
               Said Summary; Said (TotalRelevant (len results));
               Said (WithRequirements (req_count results));
               Said (WithYml (yml_count results));
               Said (SavedIn "repo_search_results.txt")])
      end
  end.
Proof.
  cbv zeta. unfold Main.main.
  destruct (resolve_token str_strip environ_token token_input) as [token asked].
  destruct (resolve_max_repos int_of_str str_strip max_input) as [max_repos asked'].
  reflexivity.
Qed.

(** An empty answer to the second prompt, or one that is not a number,
    leaves the budget at 1000: the crawl of [main] is the crawl for 1000
    repositories of a fresh miner, and the invalid value is mentioned
    exactly when something was typed. *)
Theorem main_falls_back_to_default (environ_token : option string)
    (token_input max_input : string) (current_year : Z) (current_time : string)
    (s : state) :
  nonempty (str_strip max_input) = false
  \/ int_of_str (str_strip max_input) = None ->
  let '(out, s', outs) :=
    main environ_token token_input max_input current_year current_time s in
  let '(crawled, s_crawl, evs) :=
    find_repos current_year 1000
      (State init_rate_limit_remaining (clock s) (provider s)) in
  crawl outs = evs
  /\ s' = s_crawl
  /\ In (Said (Starting 1000)) outs
  /\ (In (Said (InvalidValue 1000)) outs <-> nonempty (str_strip max_input) = true).
Proof.
  intros Hbad. rewrite main_unfold. cbv zeta.
  pose proof (before_has_no_crawl environ_token token_input max_input) as Hc.
  cbv zeta in Hc.
  assert (Hmax : resolve_max_repos int_of_str str_strip max_input
                 = (1000, if nonempty (str_strip max_input)
                          then [Said (AskMaxRepos 1000); Said (InvalidValue 1000)]
                          else [Said (AskMaxRepos 1000)])).
  { unfold resolve_max_repos.
    destruct (nonempty (str_strip max_input)); [| reflexivity].
    destruct Hbad as [Hbad | Hbad]; [discriminate | now rewrite Hbad]. }
  rewrite Hmax in *. cbn [fst snd] in *.
  assert (Hin : forall rest : list output,
            In (Said (Starting 1000))
              (snd (resolve_token str_strip environ_token token_input)
               ++ [Built (init_headers
                            (fst (resolve_token str_strip environ_token token_input)))]
               ++ (if nonempty (str_strip max_input)
                   then [Said (AskMaxRepos 1000); Said (InvalidValue 1000)]
                   else [Said (AskMaxRepos 1000)])
               ++ [Said (Starting 1000)] ++ rest)).
  { intros rest. rewrite !in_app_iff. cbn. tauto. }
  assert (Hinv : forall rest : list output,
            ~ In (Said (InvalidValue 1000)) rest ->
            (In (Said (InvalidValue 1000))
               (snd (resolve_token str_strip environ_token token_input)
                ++ [Built (init_headers
                             (fst (resolve_token str_strip environ_token token_input)))]
                ++ (if nonempty (str_strip max_input)
                    then [Said (AskMaxRepos 1000); Said (InvalidValue 1000)]
                    else [Said (AskMaxRepos 1000)])
                ++ [Said (Starting 1000)] ++ rest)
             <-> nonempty (str_strip max_input) = true)).
  { intros rest Hrest. rewrite !in_app_iff.
    assert (Htok : ~ In (Said (InvalidValue 1000))
                     (snd (resolve_token str_strip environ_token token_input))).
    { unfold resolve_token.
      destruct (match environ_token with Some t => nonempty t | None => false end);
        cbn; intuition discriminate. }
    destruct (nonempty (str_strip max_input)); cbn; split;
      try reflexivity; try discriminate; intuition discriminate. }
  assert (Hcrawled : forall evs, ~ In (Said (InvalidValue 1000)) (map Crawled evs)).
  { intros evs Hin'. apply in_map_iff in Hin' as (e & He & _). discriminate He. }
  assert (Hcrawl : forall evs rest, crawl rest = [] ->
            crawl ((snd (resolve_token str_strip environ_token token_input)
                    ++ [Built (init_headers
                                 (fst (resolve_token str_strip environ_token
                                         token_input)))]
                    ++ (if nonempty (str_strip max_input)
                        then [Said (AskMaxRepos 1000); Said (InvalidValue 1000)]
                        else [Said (AskMaxRepos 1000)])
                    ++ [Said (Starting 1000)]) ++ map Crawled evs ++ rest)
            = evs).
  { intros evs rest Hrest.
    rewrite crawl_app, Hc, crawl_app, crawl_crawled, Hrest. cbn [app].
    apply app_nil_r. }
  destruct (find_repos current_year 1000 _) as [[[r | e] s'] evs];
    [destruct (write_error os "repo_search_results.txt") |].
  - split; [| split; [| split]].
    + rewrite <- (app_nil_r (map Crawled evs)). apply Hcrawl. reflexivity.
    + reflexivity.
    + rewrite <- !app_assoc. apply Hin.
    + rewrite <- !app_assoc. apply Hinv. apply Hcrawled.
  - split; [| split; [| split]].
    + apply Hcrawl. reflexivity.
    + reflexivity.
    + rewrite <- !app_assoc. apply Hin.
    + rewrite <- !app_assoc. apply Hinv.
      intros Hx. apply in_app_iff in Hx as [Hx | Hx];
        [exact (Hcrawled _ Hx) | cbn in Hx; intuition discriminate].
  - split; [| split; [| split]].
    + rewrite <- (app_nil_r (map Crawled evs)). apply Hcrawl. reflexivity.
    + reflexivity.
    + rewrite <- !app_assoc. apply Hin.
    + rewrite <- !app_assoc. apply Hinv. apply Hcrawled.
Qed.

(** When [main] returns, its summary agrees with the report it saved:
    the total is the number of stored repositories, neither category count
    exceeds it, and the two together reach it, since every stored
    repository has a match in one of them. *)
Theorem main_summary_is_consistent (environ_token : option string)
    (token_input max_input : string) (current_year : Z) (current_time : string)
    (s s' : state) (outs : list output) :
  main environ_token token_input max_input current_year current_time s
    = (Val tt, s', outs) ->
  exists rs,
    In (Saved "repo_search_results.txt" (save_results_to_file rs current_time)) outs
    /\ In (Said (TotalRelevant (len rs))) outs
    /\ In (Said (WithRequirements (req_count rs))) outs
    /\ In (Said (WithYml (yml_count rs))) outs
    /\ 0 <= req_count rs <= len rs
    /\ 0 <= yml_count rs <= len rs
    /\ len rs <= req_count rs + yml_count rs.
Proof.
  intros H. rewrite main_unfold in H. cbv zeta in H.
  destruct (find_repos _ _ _) as [[[r | e] s1] evs] eqn:Hrun; [| discriminate H].
  destruct (write_error os "repo_search_results.txt"); [discriminate H |].
  apply CrawlFacts.find_repos_inv in Hrun as (p & -> & [[_ Hd] _]).
  injection H as _ <-. exists (found p).
  split; [| split; [| split; [| split; [| split; [| split]]]]].
  - rewrite !in_app_iff. cbn. tauto.
  - rewrite !in_app_iff. cbn. tauto.
  - rewrite !in_app_iff. cbn. tauto.
  - rewrite !in_app_iff. cbn. tauto.
  - apply count_le_len.
  - apply count_le_len.
  - apply counts_cover. exact Hd.
Qed.

End Platform.

Lemma main_falls_back_to_default_witness :
  let '(out, s', outs) :=
    main Mock.int_of_decimal ascii_lower Mock.os (fun typed => typed)
      (Some "ghp_token") EmptyString "many" 2025 "2025-06-30 12:00:00"
      Mock.one_match in
  let '(crawled, s_crawl, evs) :=
    find_repos_with_criteria_segmented Mock.int_of_decimal ascii_lower
      Mock.os 2025 1000
      (State init_rate_limit_remaining (clock Mock.one_match)
         (provider Mock.one_match)) in
  crawl outs = evs
  /\ s' = s_crawl
  /\ In (Said (Starting 1000)) outs
  /\ (In (Said (InvalidValue 1000)) outs <-> nonempty "many" = true).
Proof.
  apply (main_falls_back_to_default Mock.int_of_decimal ascii_lower
           Mock.os (fun typed => typed) (Some "ghp_token") EmptyString
           "many" 2025 "2025-06-30 12:00:00" Mock.one_match).
  right. reflexivity.
Defined.

Lemma main_summary_is_consistent_witness :
  exists rs,
    In (Saved "repo_search_results.txt"
          (save_results_to_file rs "2025-06-30 12:00:00"))
       (snd Session.one_match_session)
    /\ In (Said (TotalRelevant (len rs))) (snd Session.one_match_session)
    /\ In (Said (WithRequirements (req_count rs))) (snd Session.one_match_session)
    /\ In (Said (WithYml (yml_count rs))) (snd Session.one_match_session)
    /\ 0 <= req_count rs <= len rs
    /\ 0 <= yml_count rs <= len rs
    /\ len rs <= req_count rs + yml_count rs.
Proof.
  apply (main_summary_is_consistent Mock.int_of_decimal ascii_lower
           Mock.os (fun typed => typed) (Some "ghp_token") EmptyString
           "2" 2025 "2025-06-30 12:00:00" Mock.one_match
           (snd (fst Session.one_match_session))
           (snd Session.one_match_session)).
  vm_compute. reflexivity.
Defined.

(** What that session says at its end. *)
Lemma one_match_session_summary :
  fst (fst Session.one_match_session) = Val tt
  /\ In (Said (TotalRelevant 1)) (snd Session.one_match_session)
  /\ In (Said (WithRequirements 1)) (snd Session.one_match_session)
  /\ In (Said (WithYml 0)) (snd Session.one_match_session)
  /\ List.length (examined (crawl (snd Session.one_match_session))) = 2%nat.
Proof. vm_compute. intuition. Qed.

End MainFacts.
